(** * Login core of backend_global_use: one-time codes, sessions, login steps

    A shallow embedding of the services and the controller of the repository:
    - [otpService]          : [generateOtp], [createOtpForUser], [verifyUserOtp]
    - [sessionService]      : [createSessionForUser], [validateSession],
                              [destroySession], [destroyAllSessionsForUser]
    - [notificationService] : [sendSMS], [sendEmail], [sendOtpViaSMS],
                              [sendOtpViaEmail]
    - [response]            : [successResponse], [errorResponse]
    - [authController]      : [isUserActive], [verifyPassword],
                              [validateCredentials], [sendOtp], [finalLogin],
                              [loginController]
    - [validation]          : [validateCredentialValidation],
                              [validateSendOtp], [validateFinalLogin]
    - [authRoutes]          : the four routes, each a validator followed by
                              its handler
    - [request]             : [normalizeIp], [getUserAgent], [getClientInfo]

    The two tables the services write ([users_otps], [user_sessions]) are an
    explicit store threaded through every operation.  Instants are integers
    (milliseconds since the epoch); the clock reading, the random draw and
    the fresh session id of a call are arguments of the operation.

    Outside the model: console output, the wording of the messages sent,
    the spelling of dates (a formatted time is kept as the wall-clock
    reading it spells), and the interleaving of requests (each operation
    runs to its end on the store it is given).
    What lives outside the repository sources at hand is a parameter: the
    SMS and email providers, [validator.isEmail], [bcrypt.compare], the
    identity lookups of userService, the token signer, and the two time
    zones at work, that of [config.timezone] and that of the process. *)

From Stdlib Require Import ZArith Bool Ascii String List Lia.
From stdpp Require Import base decidable option list strings pretty.
From stdpp Require Import gmap fin_maps.

Local Open Scope string_scope.
Local Open Scope Z_scope.

(** ** JavaScript values *)

(** The values a JSON body or a table cell hands to the code.  [JNum n] is
    the Number an integer literal [n] is read as; Numbers with a
    fraction, objects and arrays do not occur in the fields used here.
    Texts are kept as the bytes of their UTF-8 encoding. *)
Inductive jsval : Type :=
  | JUndefined
  | JNull
  | JBool (b : bool)
  | JNum (n : Z)
  | JStr (s : string).

Global Instance jsval_eq_dec : EqDecision jsval.
Proof. solve_decision. Defined.

(** [!!v] *)
Definition truthy (v : jsval) : bool :=
  match v with
  | JUndefined | JNull => false
  | JBool b => b
  | JNum n => negb (n =? 0)
  | JStr s => negb (String.eqb s "")
  end.

(** *** Numbers as text *)

(** The Number a positive integer is read as: the integer itself up to 53
    significant bits, beyond that the nearest integer of 53 significant
    bits, of two equally near the even one. *)
Definition nearest_number (n : Z) : Z :=
  let e := Z.log2 n - 52 in
  if e <=? 0 then n
  else
    let q := n / 2 ^ e in
    let r := n mod 2 ^ e in
    let half := 2 ^ (e - 1) in
    if (half <? r) || ((r =? half) && Z.odd q) then (q + 1) * 2 ^ e
    else q * 2 ^ e.

Definition digits (s : Z) : Z := Z.of_nat (String.length (pretty s)).

(** [Number::toString] prints the fewest digits that are read back as the
    same Number.  The decimals [s * 10 ^ p] of [k] digits that are read as
    [v]: those next to [v] on either side. *)
Definition candidates (v k : Z) : list (Z * Z) :=
  let d := digits v in
  p ← [d - k; d - k + 1];
  s ← [v / 10 ^ p; v / 10 ^ p + 1];
  if (0 <=? p) && (10 ^ (k - 1) <=? s) && (s <? 10 ^ k)
     && (nearest_number (s * 10 ^ p) =? v)
  then [(s, p)] else [].

(** Of two such decimals the one nearer to [v], of two equally near the
    even one. *)
Definition nearer (v : Z) (a b : Z * Z) : Z * Z :=
  let da := Z.abs (fst a * 10 ^ snd a - v) in
  let db := Z.abs (fst b * 10 ^ snd b - v) in
  if db <? da then b
  else if (db =? da) && Z.even (fst b) then b
  else a.

Fixpoint shortest (fuel : nat) (v k : Z) : Z * Z :=
  match fuel with
  | O => (v, 0)
  | S fuel' =>
      match candidates v k with
      | c :: cs => fold_left (nearer v) cs c
      | [] => shortest fuel' v (k + 1)
      end
  end.

Fixpoint zeros (n : nat) : string :=
  match n with
  | O => ""
  | S n' => String "0" (zeros n')
  end.

(** [String(n)] for a positive integer literal [n]: the digits and the
    zeros that follow them up to 21 places, the exponent notation beyond,
    and [Infinity] past the largest Number. *)
Definition number_text (n : Z) : string :=
  let v := nearest_number n in
  if 2 ^ 1024 <=? v then "Infinity"
  else
    let '(s, p) := shortest 17 v 1 in
    let k := digits s in
    if p + k <=? 21 then pretty s +:+ zeros (Z.to_nat p)
    else
      match pretty s with
      | String c "" => String c "" +:+ "e+" +:+ pretty (p + k - 1)
      | String c rest =>
          String c ("." +:+ rest) +:+ "e+" +:+ pretty (p + k - 1)
      | EmptyString => ""
      end.

(** [Number.isSafeInteger(n)]: the integers every one of which is a Number
    of its own, printed digit for digit. *)
Definition safe_integer (n : Z) : bool := Z.abs n <=? 9007199254740991.

(** [String(v)] *)
Definition String_ (v : jsval) : string :=
  match v with
  | JUndefined => "undefined"
  | JNull => "null"
  | JBool true => "true"
  | JBool false => "false"
  | JNum n =>
      if safe_integer n then pretty n
      else if n <? 0 then "-" +:+ number_text (- n)
      else number_text n
  | JStr s => s
  end.

(** [a === b], which the code asks of a value and a text or [null]. *)
Definition strict_eq (a b : jsval) : bool := bool_decide (a = b).

(** A nullable text cell or an optional text field: [None] is [null] or
    [undefined]. *)
Definition of_text (o : option string) : jsval :=
  match o with
  | Some s => JStr s
  | None => JNull
  end.

(** [!!o] for a nullable text: the empty string is falsy as well. *)
Definition present (o : option string) : bool :=
  match o with
  | Some s => negb (String.eqb s "")
  | None => false
  end.

(** [a || b] on nullable texts. *)
Definition or_else (a b : option string) : option string :=
  if present a then a else b.

(** White space and line terminators as [String.prototype.trim] removes
    them.  Those of one byte: TAB, LF, VT, FF, CR and SPACE. *)
Definition is_white (c : ascii) : bool :=
  let n := N_of_ascii c in
  (((9 <=? n) && (n <=? 13)) || (n =? 32))%N.

(** Of two bytes: U+00A0 (C2 A0). *)
Definition is_white2 (a b : ascii) : bool :=
  ((N_of_ascii a =? 194) && (N_of_ascii b =? 160))%N.

(** Of three bytes: U+1680 (E1 9A 80), U+2000 to U+200A (E2 80 80 to
    E2 80 8A), U+2028 and U+2029 (E2 80 A8, E2 80 A9), U+202F (E2 80 AF),
    U+205F (E2 81 9F), U+3000 (E3 80 80) and U+FEFF (EF BB BF). *)
Definition is_white3 (a b c : ascii) : bool :=
  let x := N_of_ascii a in
  let y := N_of_ascii b in
  let z := N_of_ascii c in
  (((x =? 225) && (y =? 154) && (z =? 128))
   || ((x =? 226) && (y =? 128)
       && (((128 <=? z) && (z <=? 138)) || (z =? 168) || (z =? 169)
           || (z =? 175)))
   || ((x =? 226) && (y =? 129) && (z =? 159))
   || ((x =? 227) && (y =? 128) && (z =? 128))
   || ((x =? 239) && (y =? 187) && (z =? 191)))%N.

(** Removal of the blanks a text begins with, a blank being one, two or
    three bytes long as [w1], [w2] and [w3] tell. *)
Section Strip.

Variable w1 : ascii -> bool.
Variable w2 : ascii -> ascii -> bool.
Variable w3 : ascii -> ascii -> ascii -> bool.

Fixpoint strip (s : string) : string :=
  match s with
  | String a s1 =>
      if w1 a then strip s1
      else
        match s1 with
        | String b s2 =>
            if w2 a b then strip s2
            else
              match s2 with
              | String c s3 => if w3 a b c then strip s3 else s
              | EmptyString => s
              end
        | EmptyString => s
        end
  | EmptyString => EmptyString
  end.


End Strip.

Definition trimStart (s : string) : string :=
  strip is_white is_white2 is_white3 s.

(** From the other end the text is read backwards, where the bytes of a
    character come last byte first. *)
Definition trimBack (s : string) : string :=
  strip is_white (fun a b => is_white2 b a) (fun a b c => is_white3 c b a) s.

Definition trimEnd (s : string) : string :=
  String.rev (trimBack (String.rev s)).

(** [s.trim()] *)
Definition trim (s : string) : string := trimEnd (trimStart s).

(** [s.startsWith(p)] *)
Definition startsWith (s p : string) : bool := String.prefix p s.

(** ** Promises *)

(** How an awaited call ends: with a value, or with a thrown [Error] of
    which the message is kept. *)
Inductive completion (A : Type) : Type :=
  | Fulfilled (a : A)
  | Rejected (message : string).
Arguments Fulfilled {A} a.
Arguments Rejected {A} message.

(** ** Configuration ([config] of env.js) *)

(** Besides the two lifetimes, the two time zones at work.  A wall-clock
    reading is the number of milliseconds its date and time of day would
    be as an instant of UTC.  [zone_wall] is [config.timezone] as
    moment-timezone applies it: the wall-clock reading of an instant in
    that zone.  [process_instant] is the zone of the process as the
    database driver applies it: the instant of the [Date] it makes of the
    wall-clock reading held in a [TIMESTAMP] cell. *)
Record Config : Type := {
  otp_ttlMinutes : Z;      (* config.otp.ttlMinutes *)
  session_ttlHours : Z;    (* config.session.ttlHours *)
  development : bool;      (* process.env.NODE_ENV === 'development' *)
  zone_wall : Z -> Z;        (* moment(t).tz(config.timezone) *)
  process_instant : Z -> Z   (* new Date(y, m, d, h, min, s, ms).getTime() *)
}.

(** ** The store *)

(** A row of [users_otps]. *)
Record otp_row : Type := {
  otp_id : Z;
  otp_user_id : string;
  otp_phone : option string;
  otp_email : option string;
  otp_code : string;
  otp_type : string;
  otp_expires_at : Z;
  is_used : bool;
  attempts_count : Z;
  otp_ip_address : string;
  otp_created_at : Z
}.

(** A row of [user_sessions], as the driver hands it to the code: of a
    [TIMESTAMP] cell, which holds a wall-clock reading and no zone, the row
    has the instant of the [Date] the driver makes of it. *)
Record session_row : Type := {
  session_id : string;
  ses_user_id : string;
  jwt_token : string;
  device_type : string;
  ses_ip_address : option string;
  user_agent : option string;
  expires_at : Z;
  last_activity_at : Z;
  created_at : Z;
  is_active : bool
}.

Global Instance otp_row_eq_dec : EqDecision otp_row.
Proof. solve_decision. Defined.

Global Instance session_row_eq_dec : EqDecision session_row.
Proof. solve_decision. Defined.

Inductive channel : Type := SMS | Email.

(** One call of [sendOtpViaSMS] or [sendOtpViaEmail] and how it ended. *)
Record delivery : Type := {
  via : channel;
  target : string;
  sent_code : string;
  sent_type : string;
  outcome : completion unit
}.

(** The database and the channels: whether the pool answers ([query]
    rejects when it does not), the rows of [users_otps] in insertion order
    with the next value of the [otp_id] sequence, [user_sessions] by its
    primary key, and the deliveries dispatched so far, oldest first. *)
Record World : Type := {
  db_up : bool;
  users_otps : list otp_row;
  otp_seq : Z;
  user_sessions : gmap string session_row;
  outbox : list delivery
}.

Definition set_otps (w : World) (rows : list otp_row) (next : Z) : World :=
  {| db_up := db_up w; users_otps := rows; otp_seq := next;
     user_sessions := user_sessions w; outbox := outbox w |}.

Definition set_sessions (w : World) (m : gmap string session_row) : World :=
  {| db_up := db_up w; users_otps := users_otps w; otp_seq := otp_seq w;
     user_sessions := m; outbox := outbox w |}.

Definition set_outbox (w : World) (ds : list delivery) : World :=
  {| db_up := db_up w; users_otps := users_otps w; otp_seq := otp_seq w;
     user_sessions := user_sessions w; outbox := ds |}.

(** An asynchronous operation on the store. *)
Definition M (A : Type) : Type := World -> completion A * World.

Definition ret {A : Type} (a : A) : M A := fun w => (Fulfilled a, w).

Definition bind {A B : Type} (m : M A) (k : A -> M B) : M B :=
  fun w =>
    match m w with
    | (Fulfilled a, w') => k a w'
    | (Rejected e, w') => (Rejected e, w')
    end.

(** [try { m } catch (err) { h(err.message) }] *)
Definition try_catch {A : Type} (m : M A) (h : string -> M A) : M A :=
  fun w =>
    match m w with
    | (Fulfilled a, w') => (Fulfilled a, w')
    | (Rejected e, w') => h e w'
    end.

(** [const x = await c1; c2] *)
Notation "'await' x := c1 'in' c2" := (bind c1 (fun x => c2))
  (at level 10, x name, c1 at level 100, c2 at level 200).

(** Modelled from the spec: [query] of config/db.js, which is not among
    the sources, is the durable store of section 6 (append, read of the
    latest record, update of the flags), whose unexpected failure is the
    internal error of section 7.  [await query(sql, params)] rejects when
    the pool is down and otherwise runs the statement [stmt] on the
    tables, which follow the schema of the README. *)
Definition query {A : Type} (stmt : World -> completion A * World) : M A :=
  fun w =>
    if db_up w then stmt w else (Rejected "connection refused", w).

(** [p.catch(handler)] for a handler that only logs: the promise that comes
    back is fulfilled with nothing when [p] was rejected.  (Were the handler
    itself to throw, [allSettled] below would absorb that as well.) *)
Definition catch_ {A : Type} (p : M A) : M (option A) :=
  fun w =>
    match p w with
    | (Fulfilled a, w') => (Fulfilled (Some a), w')
    | (Rejected _, w') => (Fulfilled None, w')
    end.

(** [await Promise.allSettled(ps)]: the calls in [ps] were all started, in
    order, when the array was built; the result is fulfilled with one entry
    per call whatever each of them did. *)
Fixpoint settle {A : Type} (ps : list (M A)) (w : World)
  : list (completion A) * World :=
  match ps with
  | [] => ([], w)
  | p :: rest =>
      let '(c, w1) := p w in
      let '(cs, w2) := settle rest w1 in
      (c :: cs, w2)
  end.

Definition allSettled {A : Type} (ps : list (M A)) : M (list (completion A)) :=
  fun w => let '(cs, w') := settle ps w in (Fulfilled cs, w').

(** ** notificationService *)

Section Notification.

(** The provider behind [sendSMS] (Twilio, MSG91, TextLocal or the
    console) and behind [sendEmail] (SMTP, SendGrid, SES or the console),
    and [validator.isEmail]: given the address, the code and the purpose
    they answer or throw.  The text of the message is built from the code
    and the purpose ([getOtpMessage], [getOtpSubject], [getOtpEmailBody]). *)
Variable smsProvider : string -> string -> string -> completion unit.
Variable emailProvider : string -> string -> string -> completion unit.
Variable isEmail : string -> bool.

Definition is_digit (c : ascii) : bool :=
  let n := N_of_ascii c in ((48 <=? n) && (n <=? 57))%N.

(** [phone.replace(/\D/g, '')] *)
Fixpoint strip_non_digits (s : string) : string :=
  match s with
  | String c s' =>
      if is_digit c then String c (strip_non_digits s')
      else strip_non_digits s'
  | EmptyString => EmptyString
  end.

Definition sendSMS (phone otpCode otpType : string) : completion unit :=
  let phoneNumber := strip_non_digits phone in
  if String.eqb phoneNumber "" then Rejected "Invalid phone number"
  else smsProvider phoneNumber otpCode otpType.

Definition sendEmail (email otpCode otpType : string) : completion unit :=
  if String.eqb email "" || negb (isEmail email)
  then Rejected "Invalid email address"
  else emailProvider email otpCode otpType.

Definition dispatch (c : channel) (to code type : string)
    (r : completion unit) : M unit :=
  fun w =>
    (r, set_outbox w (outbox w ++
          [{| via := c; target := to; sent_code := code;
              sent_type := type; outcome := r |}])).

Definition sendOtpViaSMS (phone otpCode otpType : string) : M unit :=
  dispatch SMS phone otpCode otpType (sendSMS phone otpCode otpType).

Definition sendOtpViaEmail (email otpCode otpType : string) : M unit :=
  dispatch Email email otpCode otpType (sendEmail email otpCode otpType).

End Notification.

(** ** Identities *)

(** A row of [users], as the lookups of userService return it.  The active
    flag is kept as the driver hands it over. *)
Record user : Type := {
  user_id : string;
  email : option string;
  phone : option string;
  password_hash : option string;
  role : string;
  user_is_active : jsval
}.

(** ** otpService *)

Section OtpService.

Variable cfg : Config.
Variable smsProvider : string -> string -> string -> completion unit.
Variable emailProvider : string -> string -> string -> completion unit.
Variable isEmail : string -> bool.

(** [Math.floor(1000 + Math.random() * 9000).toString()], where [draw] is
    what the floored number exceeds 1000 by:
    [Math.floor(1000 + Math.random() * 9000) - 1000]. *)
Definition generateOtp (draw : Z) : string := pretty (1000 + draw).

(** What [createOtpForUser] returns.  The two formatted expiry texts
    ([expiresIST], [expiresLocal]) show the same instant as [expiresUTC]. *)
Record otp_issue : Type := {
  otpCode : string;
  expiresIST : Z;
  expiresLocal : Z;
  expiresUTC : Z;
  row : otp_row
}.

(** [INSERT INTO users_otps (user_id, phone, otp_code, otp_type,
    expires_at, is_used, attempts_count, email, ip_address)
    VALUES ($1, $2, $3, $4, $5, false, 0, $6, $7) RETURNING *];
    [otp_id] and [created_at] take their defaults. *)
Definition insert_otp (now : Z) (p1 : string) (p2 : option string)
    (p3 p4 : string) (p5 : Z) (p6 : option string) (p7 : string)
  : M otp_row :=
  query (fun w =>
    let r := {| otp_id := otp_seq w; otp_user_id := p1; otp_phone := p2;
                otp_email := p6; otp_code := p3; otp_type := p4;
                otp_expires_at := p5; is_used := false;
                attempts_count := 0; otp_ip_address := p7;
                otp_created_at := now |} in
    (Fulfilled r, set_otps w (users_otps w ++ [r]) (otp_seq w + 1))).

Definition createOtpForUser (draw now : Z) (u : user)
    (explicitMobile : option string) (otpType : string) : M otp_issue :=
  let otpCode := generateOtp draw in
  let ttl := if otp_ttlMinutes cfg =? 0 then 30 else otp_ttlMinutes cfg in
  let expiresLocal := now + ttl * 60000 in
  let expiresUTC := expiresLocal in
  let mobile := or_else explicitMobile (phone u) in
  let email := email u in
  await r := insert_otp now (user_id u) mobile otpCode otpType expiresUTC
               email "127.0.0.1" in
  let sendPromises :=
    ((if present mobile
     then [catch_ (sendOtpViaSMS smsProvider (default "" mobile)
                     otpCode otpType)]
     else []) ++
    (if present email
     then [catch_ (sendOtpViaEmail emailProvider isEmail (default "" email)
                     otpCode otpType)]
     else []))%list in
  await settled := allSettled sendPromises in
  ret {| otpCode := otpCode; expiresIST := expiresLocal;
         expiresLocal := expiresLocal; expiresUTC := expiresUTC;
         row := r |}.

(** The calls [createOtpForUser] makes to the channels: one to
    [sendOtpViaSMS] when there is a phone, then one to [sendOtpViaEmail]
    when there is an email, each with the outcome of its own channel. *)
Definition attempts (mobile email : option string) (code type : string)
  : list delivery :=
  ((if present mobile
    then [{| via := SMS; target := default "" mobile; sent_code := code;
             sent_type := type;
             outcome := sendSMS smsProvider (default "" mobile) code type |}]
    else []) ++
   (if present email
    then [{| via := Email; target := default "" email; sent_code := code;
             sent_type := type;
             outcome := sendEmail emailProvider isEmail (default "" email)
                          code type |}]
    else []))%list.

(** [where user_id=$1 and phone=$2 and otp_type='LOGIN'] *)
Definition otp_where (userId mobile : string) (r : otp_row) : bool :=
  bool_decide (otp_user_id r = userId)
  && bool_decide (otp_phone r = Some mobile)
  && bool_decide (otp_type r = "LOGIN").

(** [order by created_at desc limit 1] over rows in insertion order; of
    two rows created at the same instant the one inserted last is kept. *)
Definition newest (acc : option otp_row) (r : otp_row) : option otp_row :=
  match acc with
  | None => Some r
  | Some a => if otp_created_at r <? otp_created_at a then Some a else Some r
  end.

Definition select_latest_otp (userId mobile : string) (w : World)
  : option otp_row :=
  fold_left newest (filter (fun r => otp_where userId mobile r = true)
                      (users_otps w)) None.

Inductive otp_verdict : Type :=
  | OtpValid (otpRow : otp_row)       (* { valid: true, otpRow } *)
  | OtpInvalid (reason : string).     (* { valid: false, reason } *)

Definition verifyUserOtp (now : Z) (userId mobile : string) (otp : jsval)
  : M otp_verdict :=
  await rows :=
    query (fun w => (Fulfilled (select_latest_otp userId mobile w), w)) in
  match rows with
  | None => ret (OtpInvalid "otp_not_found")
  | Some row =>
      if is_used row then ret (OtpInvalid "otp_used")
      else if otp_expires_at row <? now then ret (OtpInvalid "otp_expired")
      else if negb (String.eqb (trim (otp_code row)) (trim (String_ otp)))
      then ret (OtpInvalid "otp_mismatch")
      else ret (OtpValid row)
  end.

End OtpService.

(** ** sessionService *)

Section SessionService.

Variable cfg : Config.

(** What [createSessionForUser] returns; [expiresAt] is the formatted
    text, kept as the wall-clock reading it spells. *)
Record session_issue : Type := {
  sessionId : string;
  expiresAt : Z;
  dbRow : session_row
}.

(** [format('YYYY-MM-DD HH:mm:ss')] keeps the whole seconds of a reading. *)
Definition whole_seconds (t : Z) : Z := 1000 * (t / 1000).

(** [INSERT INTO user_sessions (session_id, user_id, jwt_token,
    device_type, ip_address, user_agent, expires_at, last_activity_at,
    created_at, is_active)
    VALUES ($1, $2, $3, 'system', $4, $5, $6, $7, $6, true) RETURNING *];
    [session_id] is the primary key.  [$6] and [$7] are texts of a date
    and a time of day, of which the [TIMESTAMP] cells keep the wall-clock
    reading; the row that comes back has them as the driver reads them. *)
Definition insert_session (p1 p2 p3 : string) (p4 p5 : option string)
    (p6 p7 : Z) : M session_row :=
  query (fun w =>
    match user_sessions w !! p1 with
    | Some _ => (Rejected "duplicate key value violates unique constraint", w)
    | None =>
        let r := {| session_id := p1; ses_user_id := p2; jwt_token := p3;
                    device_type := "system"; ses_ip_address := p4;
                    user_agent := p5; expires_at := process_instant cfg p6;
                    last_activity_at := process_instant cfg p7;
                    created_at := process_instant cfg p6;
                    is_active := true |} in
        (Fulfilled r, set_sessions w (<[p1 := r]> (user_sessions w)))
    end).

(** [sid] is the value of [cryptoRandomUUID()], [now] the clock.
    [expiresAt] is the text of the wall-clock reading, in the zone of
    [config.timezone], of the instant [ttlHours] after [now];
    [lastActivity] is the text of [toISOString], the reading of [now] in
    UTC. *)
Definition createSessionForUser (sid : string) (now : Z)
    (userId token : string) (ip userAgent : option string)
  : M session_issue :=
  let sessionId := sid in
  let utcTime := now in
  let expiresAt :=
    whole_seconds (zone_wall cfg (utcTime + session_ttlHours cfg * 3600000)) in
  let lastActivity := now in
  await r := insert_session sessionId userId token
               (or_else ip None) (or_else userAgent None)
               expiresAt lastActivity in
  ret {| sessionId := sessionId; expiresAt := expiresAt; dbRow := r |}.

(** The instant at which the process reads the expiry of a session made
    at [now]. *)
Definition session_expiry (now : Z) : Z :=
  process_instant cfg
    (whole_seconds (zone_wall cfg (now + session_ttlHours cfg * 3600000))).

(** The process reads a stored reading in the zone it was written in. *)
Definition zones_agree : Prop :=
  forall t : Z, process_instant cfg (whole_seconds (zone_wall cfg t))
                = whole_seconds t.

Inductive session_verdict : Type :=
  | SessionValid (session : session_row)   (* { valid: true, session } *)
  | SessionInvalid (reason : string).      (* { valid: false, reason } *)

Definition validateSession (now : Z) (sessionId : string)
  : M session_verdict :=
  await rows :=
    query (fun w => (Fulfilled (user_sessions w !! sessionId), w)) in
  match rows with
  | None => ret (SessionInvalid "not_found")
  | Some session =>
      if negb (is_active session) then ret (SessionInvalid "inactive")
      else if expires_at session <=? now then ret (SessionInvalid "expired")
      else ret (SessionValid session)
  end.

(** [SET is_active = false, last_activity_at = NOW()], where [now] is
    what the driver reads of the [NOW()] of the database. *)
Definition revoked (now : Z) (s : session_row) : session_row :=
  {| session_id := session_id s; ses_user_id := ses_user_id s;
     jwt_token := jwt_token s; device_type := device_type s;
     ses_ip_address := ses_ip_address s; user_agent := user_agent s;
     expires_at := expires_at s; last_activity_at := now;
     created_at := created_at s; is_active := false |}.

(** [UPDATE ... WHERE session_id = $1] *)
Definition destroySession (now : Z) (sessionId : string) : M unit :=
  query (fun w =>
    (Fulfilled tt,
     set_sessions w (alter (revoked now) sessionId (user_sessions w)))).

(** [UPDATE ... WHERE user_id = $1] *)
Definition destroyAllSessionsForUser (now : Z) (userId : string) : M unit :=
  query (fun w =>
    (Fulfilled tt,
     set_sessions w
       ((fun s => if bool_decide (ses_user_id s = userId)
                  then revoked now s else s) <$> user_sessions w))).

End SessionService.

(** ** utils/response and utils/request *)

(** The JSON sent back: [status] and [message], then the flattened data of
    a success, or the error detail of a failure. *)
Record response : Type := {
  status : Z;
  message : string;
  fields : list (string * jsval);
  error : option string
}.

Global Instance response_eq_dec : EqDecision response.
Proof. solve_decision. Defined.

Record body : Type := {
  req_step : option string;
  req_login_type : jsval;
  req_email : option string;
  req_mobile : option string;
  req_role : option string;
  req_password : jsval;
  req_otp : jsval
}.

Record request : Type := {
  req_body : body;
  x_forwarded_for : option string;     (* req.headers['x-forwarded-for'] *)
  remoteAddress : option string;       (* req.socket.remoteAddress *)
  user_agent_header : option string    (* req.headers['user-agent'] *)
}.

Section Response.

Variable cfg : Config.

Definition successResponse (statusCode : Z) (msg : string)
    (data : list (string * jsval)) : response :=
  {| status := statusCode; message := msg; fields := data; error := None |}.

Definition errorResponse (statusCode : Z) (msg : string)
    (err : option string) : response :=
  {| status := statusCode; message := msg; fields := [];
     error := if present err && development cfg then err else None |}.

End Response.

(** [s.split(',')[0]] *)
Fixpoint before_comma (s : string) : string :=
  match s with
  | String c s' =>
      if Ascii.eqb c "," then EmptyString else String c (before_comma s')
  | EmptyString => EmptyString
  end.

Definition normalizeIp (req : request) : option string :=
  let forwarded := x_forwarded_for req in
  let rawIp :=
    if present forwarded
    then Some (trim (before_comma (default "" forwarded)))
    else remoteAddress req in
  if negb (present rawIp) then None
  else
    let ip := default "" rawIp in
    if String.eqb ip "::1" then Some "127.0.0.1"
    else if startsWith ip "::ffff:"
    then Some (substring 7 (String.length ip - 7) ip)
    else Some ip.

Definition getUserAgent (req : request) : option string :=
  or_else (user_agent_header req) None.

Definition getClientInfo (req : request) : option string * option string :=
  (normalizeIp req, getUserAgent req).

(** ** authController *)

Section AuthController.

Variable cfg : Config.
Variable smsProvider : string -> string -> string -> completion unit.
Variable emailProvider : string -> string -> string -> completion unit.
Variable isEmail : string -> bool.

(** userService and utils/jwt are not among the sources and are taken as
    parameters, with [bcrypt.compare]: the identity lookups by (email,
    role) and by (phone, role), which return an identity or none, and the
    token signer, from the user id, the email and the role. *)
Variable findUserByEmailAndRole :
  option string -> option string -> option user.
Variable findUserByMobileAndRole :
  option string -> option string -> option user.
Variable signJwt : string -> option string -> string -> string.
Variable bcrypt_compare : jsval -> string -> completion bool.

(** A lookup goes through the pool like every other statement. *)
Definition lookup (found : option user) : M (option user) :=
  query (fun w => (Fulfilled found, w)).

(** The code after a guard that only an absent identity could reach:
    reading a field of [null] throws. *)
Definition throw {A : Type} (msg : string) : M A :=
  fun w => (Rejected msg, w).

Definition isUserActive (u : option user) : bool :=
  match u with
  | Some u => String.eqb (trim (String_ (user_is_active u))) "true"
  | None => false
  end.

Definition verifyPassword (plainPassword : jsval)
    (hashedPassword : option string) : bool :=
  let h := default "" hashedPassword in
  if present hashedPassword
     && (startsWith h "$2a$" || startsWith h "$2b$" || startsWith h "$2y$")
  then
    match bcrypt_compare plainPassword h with
    | Fulfilled b => b
    | Rejected _ => false
    end
  else strict_eq plainPassword (of_text hashedPassword).

Definition internal_error (e : string) : M response :=
  ret (errorResponse cfg 500 "Internal server error" (Some e)).

(** STEP 1: credential validation (email + password). *)
Definition validateCredentials (draw now : Z) (req : request) : M response :=
  try_catch
    (let b := req_body req in
     await u := lookup (findUserByEmailAndRole (req_email b) (req_role b)) in
     if negb (isUserActive u)
     then ret (errorResponse cfg 401 "Invalid user credentials" None)
     else
       match u with
       | None => throw "Cannot read properties of null"
       | Some usr =>
           let isValidPassword :=
             verifyPassword (req_password b) (password_hash usr) in
           if negb isValidPassword
           then ret (errorResponse cfg 401 "Invalid user credentials" None)
           else
             await o := createOtpForUser cfg smsProvider emailProvider
                          isEmail draw now usr None "LOGIN" in
             ret (successResponse 200 "Valid details. OTP sent"
                    [("otp", JStr (otpCode o));
                     ("expires_at", JNum (expiresIST o));
                     ("user_id", JStr (user_id usr));
                     ("login_type", req_login_type b)])
       end)
    internal_error.

(** STEP 2: send OTP (mobile only). *)
Definition sendOtp (draw now : Z) (req : request) : M response :=
  try_catch
    (let b := req_body req in
     await u := lookup (findUserByMobileAndRole (req_mobile b) (req_role b)) in
     if negb (isUserActive u)
     then ret (errorResponse cfg 401 "Invalid user credentials" None)
     else
       match u with
       | None => throw "Cannot read properties of null"
       | Some usr =>
           await o := createOtpForUser cfg smsProvider emailProvider
                        isEmail draw now usr (req_mobile b) "LOGIN" in
           ret (successResponse 200 "OTP sent"
                  [("otp", JStr (otpCode o));
                   ("expires_at", JNum (expiresIST o));
                   ("user_id", JStr (user_id usr));
                   ("login_type", req_login_type b)])
       end)
    internal_error.

(** STEP 3: final login (OTP verification + session creation). *)
Definition finalLogin (sid : string) (now : Z) (req : request) : M response :=
  try_catch
    (let b := req_body req in
     await u :=
       (if present (req_email b)
        then lookup (findUserByEmailAndRole (req_email b) (req_role b))
        else if present (req_mobile b)
        then lookup (findUserByMobileAndRole (req_mobile b) (req_role b))
        else ret None) in
     if negb (isUserActive u)
     then ret (errorResponse cfg 401 "Invalid user credentials" None)
     else
       match u with
       | None => throw "Cannot read properties of null"
       | Some usr =>
           let mobileToUse := or_else (req_mobile b) (phone usr) in
           if negb (present mobileToUse)
           then ret (errorResponse cfg 400
                       "Mobile number is required for OTP verification" None)
           else
             await v := verifyUserOtp now (user_id usr)
                          (default "" mobileToUse) (req_otp b) in
             match v with
             | OtpInvalid reason =>
                 ret (errorResponse cfg 401 ("Invalid OTP: " +:+ reason) None)
             | OtpValid _ =>
                 let token := signJwt (user_id usr) (email usr) (role usr) in
                 let '(ip, userAgent) := getClientInfo req in
                 await s := createSessionForUser cfg sid now (user_id usr)
                              token ip userAgent in
                 ret (successResponse 200 "Login successful"
                        [("session_id", JStr (sessionId s));
                         ("user_id", JStr (user_id usr));
                         ("token", JStr token);
                         ("expiry", JNum (expiresAt s));
                         ("role", JStr (role usr));
                         ("email", of_text (email usr));
                         ("session_status", JBool (is_active (dbRow s)))])
             end
       end)
    internal_error.

(** The answer shared by the credential failures. *)
Definition denied : response :=
  errorResponse cfg 401 "Invalid user credentials" None.

(** The identity [finalLogin] looks up: by email when one is given,
    otherwise by mobile. *)
Definition resolved (b : body) : option user :=
  if present (req_email b)
  then findUserByEmailAndRole (req_email b) (req_role b)
  else if present (req_mobile b)
  then findUserByMobileAndRole (req_mobile b) (req_role b)
  else None.

(** Legacy login controller: routes by [step]. *)
Definition loginController (sid : string) (draw now : Z) (req : request)
  : M response :=
  match req_step (req_body req) with
  | None => ret (errorResponse cfg 400 "step is required" None)
  | Some step =>
      if String.eqb step ""
      then ret (errorResponse cfg 400 "step is required" None)
      else if String.eqb step "credential_validation"
      then validateCredentials draw now req
      else if String.eqb step "send_otp" then sendOtp draw now req
      else if String.eqb step "final_login" then finalLogin sid now req
      else ret (errorResponse cfg 400 ("Unknown step: " +:+ step) None)
  end.

End AuthController.

(** ** A small deployment, used to run the operations *)

Module Sample.

(** Lifetimes as the defaults of env.js have them; [TIMEZONE] is set to
    UTC and the process runs in UTC. *)
Definition cfg : Config :=
  {| otp_ttlMinutes := 10; session_ttlHours := 8; development := false;
     zone_wall := fun t => t; process_instant := fun t => t |}.

(** Console mode: every message is logged and reported as sent. *)
Definition console : string -> string -> string -> completion unit :=
  fun _ _ _ => Fulfilled tt.

(** A provider that is unreachable. *)
Definition unreachable : string -> string -> string -> completion unit :=
  fun _ _ _ => Rejected "connect ETIMEDOUT".

Fixpoint has_at (s : string) : bool :=
  match s with
  | String c s' => Ascii.eqb c "@" || has_at s'
  | EmptyString => false
  end.

Definition identity (flag : jsval) : user :=
  {| user_id := "u-1"; email := Some "a@x.com"; phone := Some "9000000001";
     password_hash := Some "s3cret"; role := "USER";
     user_is_active := flag |}.

Definition alice : user := identity (JBool true).

(** A one-row [users] table holding [u]. *)
Definition byEmail (u : user) (e r : option string) : option user :=
  if bool_decide (e = email u) && bool_decide (r = Some (role u))
  then Some u else None.

Definition byMobile (u : user) (m r : option string) : option user :=
  if bool_decide (m = phone u) && bool_decide (r = Some (role u))
  then Some u else None.

Definition signJwt (uid : string) (e : option string) (r : string) : string :=
  "jwt:" +:+ uid.

Definition bcrypt_compare (p : jsval) (h : string) : completion bool :=
  Rejected "not a hash".

Definition empty : World :=
  {| db_up := true; users_otps := []; otp_seq := 1;
     user_sessions := ∅; outbox := [] |}.

Definition offline : World :=
  {| db_up := false; users_otps := []; otp_seq := 1;
     user_sessions := ∅; outbox := [] |}.

Definition T0 : Z := 1700000000000.
Definition minutes (n : Z) : Z := n * 60000.
Definition hours (n : Z) : Z := n * 3600000.

(** Code 4821 issued to alice at [T0] with the 10-minute TTL. *)
Definition issued : World :=
  snd (createOtpForUser cfg console console has_at 3821 T0 alice None "LOGIN"
         empty).

Definition the_row : otp_row :=
  {| otp_id := 1; otp_user_id := "u-1"; otp_phone := Some "9000000001";
     otp_email := Some "a@x.com"; otp_code := "4821"; otp_type := "LOGIN";
     otp_expires_at := T0 + minutes 10; is_used := false;
     attempts_count := 0; otp_ip_address := "127.0.0.1";
     otp_created_at := T0 |}.

Definition login_request (otp : jsval) : request :=
  {| req_body :=
       {| req_step := Some "final_login"; req_login_type := JUndefined;
          req_email := Some "a@x.com"; req_mobile := None;
          req_role := Some "USER"; req_password := JUndefined;
          req_otp := otp |};
     x_forwarded_for := None; remoteAddress := Some "::1";
     user_agent_header := Some "curl/8" |}.

Definition credentials_request (e : string) (pw : jsval) : request :=
  {| req_body :=
       {| req_step := Some "credential_validation";
          req_login_type := JStr "email_password";
          req_email := Some e; req_mobile := None;
          req_role := Some "USER"; req_password := pw;
          req_otp := JUndefined |};
     x_forwarded_for := None; remoteAddress := Some "::1";
     user_agent_header := Some "curl/8" |}.

Definition mobile_request (m : string) : request :=
  {| req_body :=
       {| req_step := Some "send_otp"; req_login_type := JStr "mobile";
          req_email := None; req_mobile := Some m;
          req_role := Some "USER"; req_password := JUndefined;
          req_otp := JUndefined |};
     x_forwarded_for := None; remoteAddress := Some "::1";
     user_agent_header := Some "curl/8" |}.

Definition a_session (active : bool) (expiry : Z) : session_row :=
  {| session_id := "s-1"; ses_user_id := "u-1"; jwt_token := "jwt:u-1";
     device_type := "system"; ses_ip_address := Some "127.0.0.1";
     user_agent := Some "curl/8"; expires_at := expiry;
     last_activity_at := T0; created_at := expiry; is_active := active |}.

Definition with_session (s : session_row) : World :=
  set_sessions empty {[ session_id s := s ]}.

End Sample.

(** ** middleware/validation *)

(** The body a validator answers with: [{status: 400, message, errors}]. *)
Record validation_failure : Type := {
  vf_status : Z;
  vf_message : string;
  errors : list string
}.

Inductive validation : Type :=
  | Next                                  (* next() *)
  | Refused (r : validation_failure).     (* res.status(400).json(...) *)

(** [if (cond) errors.push(msg)] *)
Definition push_if (cond : bool) (msg : string) (errors : list string)
  : list string :=
  if cond then (errors ++ [msg])%list else errors.

(** [if (errors.length > 0) return res.status(400).json(...); next()] *)
Definition conclude (errors : list string) : validation :=
  if (0 <? length errors)%nat
  then Refused {| vf_status := 400; vf_message := "Validation failed";
                  errors := errors |}
  else Next.

(** Step 1: credential_validation. *)
Definition validateCredentialValidation (req : request) : validation :=
  let b := req_body req in
  let errors := [] in
  let errors :=
    push_if (negb (truthy (req_login_type b))
             || negb (strict_eq (req_login_type b) (JStr "email_password")))
      "login_type must be email_password" errors in
  let errors := push_if (negb (present (req_email b)))
                  "email is required" errors in
  let errors := push_if (negb (truthy (req_password b)))
                  "password is required" errors in
  let errors := push_if (negb (present (req_role b)))
                  "role is required" errors in
  conclude errors.

(** Step 2: send_otp. *)
Definition validateSendOtp (req : request) : validation :=
  let b := req_body req in
  let errors := [] in
  let errors :=
    push_if (negb (truthy (req_login_type b))
             || negb (strict_eq (req_login_type b) (JStr "mobile")))
      "login_type must be mobile" errors in
  let errors := push_if (negb (present (req_mobile b)))
                  "mobile is required" errors in
  let errors := push_if (negb (present (req_role b)))
                  "role is required" errors in
  conclude errors.

(** Step 3: final_login. *)
Definition validateFinalLogin (req : request) : validation :=
  let b := req_body req in
  let errors := [] in
  let errors := push_if (negb (present (req_role b)))
                  "role is required" errors in
  let errors := push_if (negb (truthy (req_otp b)))
                  "otp is required" errors in
  let errors :=
    push_if (negb (present (req_email b)) && negb (present (req_mobile b)))
      "email or mobile is required" errors in
  conclude errors.

(** ** routes/authRoutes *)

(** What a route sends: the answer of its validator or of its handler. *)
Inductive reply : Type :=
  | Checked (r : validation_failure)
  | Handled (r : response).

(** [router.post(path, check, handler)] *)
Definition route (check : request -> validation)
    (handler : request -> M response) (req : request) : M reply :=
  match check req with
  | Refused r => ret (Checked r)
  | Next => await r := handler req in ret (Handled r)
  end.

Section AuthRoutes.

Variable cfg : Config.
Variable smsProvider : string -> string -> string -> completion unit.
Variable emailProvider : string -> string -> string -> completion unit.
Variable isEmail : string -> bool.
Variable findUserByEmailAndRole :
  option string -> option string -> option user.
Variable findUserByMobileAndRole :
  option string -> option string -> option user.
Variable signJwt : string -> option string -> string -> string.
Variable bcrypt_compare : jsval -> string -> completion bool.

(** [router.post('/login', loginController)] *)
Definition post_login (sid : string) (draw now : Z) (req : request)
  : M reply :=
  route (fun _ => Next)
    (loginController cfg smsProvider emailProvider isEmail
       findUserByEmailAndRole findUserByMobileAndRole signJwt bcrypt_compare
       sid draw now) req.

(** [router.post('/validate-credentials', validateCredentialValidation,
    validateCredentials)] *)
Definition post_validate_credentials (draw now : Z) (req : request)
  : M reply :=
  route validateCredentialValidation
    (validateCredentials cfg smsProvider emailProvider isEmail
       findUserByEmailAndRole bcrypt_compare draw now) req.

(** [router.post('/send-otp', validateSendOtp, sendOtp)] *)
Definition post_send_otp (draw now : Z) (req : request) : M reply :=
  route validateSendOtp
    (sendOtp cfg smsProvider emailProvider isEmail findUserByMobileAndRole
       draw now) req.

(** [router.post('/final-login', validateFinalLogin, finalLogin)] *)
Definition post_final_login (sid : string) (now : Z) (req : request)
  : M reply :=
  route validateFinalLogin
    (finalLogin cfg findUserByEmailAndRole findUserByMobileAndRole signJwt
       sid now) req.

(** *** Histories *)

(** One call on the store: a request on one of the four routes, a call of
    one of the session operations, or the pool going down or coming back. *)
Inductive call : Type :=
  | PostLogin (sid : string) (draw now : Z) (req : request)
  | PostValidateCredentials (draw now : Z) (req : request)
  | PostSendOtp (draw now : Z) (req : request)
  | PostFinalLogin (sid : string) (now : Z) (req : request)
  | CallValidateSession (now : Z) (sid : string)
  | CallDestroySession (now : Z) (sid : string)
  | CallDestroyAllSessionsForUser (now : Z) (userId : string)
  | Pool (up : bool).

Definition set_pool (w : World) (up : bool) : World :=
  {| db_up := up; users_otps := users_otps w; otp_seq := otp_seq w;
     user_sessions := user_sessions w; outbox := outbox w |}.

(** The store a call leaves. *)
Definition perform (c : call) (w : World) : World :=
  match c with
  | PostLogin sid draw now req => snd (post_login sid draw now req w)
  | PostValidateCredentials draw now req =>
      snd (post_validate_credentials draw now req w)
  | PostSendOtp draw now req => snd (post_send_otp draw now req w)
  | PostFinalLogin sid now req => snd (post_final_login sid now req w)
  | CallValidateSession now sid => snd (validateSession now sid w)
  | CallDestroySession now sid => snd (destroySession now sid w)
  | CallDestroyAllSessionsForUser now userId =>
      snd (destroyAllSessionsForUser now userId w)
  | Pool up => set_pool w up
  end.

(** The store a sequence of calls leaves, one after the other. *)
Definition history (cs : list call) (w : World) : World :=
  fold_left (fun w c => perform c w) cs w.

End AuthRoutes.

(** ** Shapes of texts *)

Fixpoint all_digits (s : string) : bool :=
  match s with
  | String c s' => is_digit c && all_digits s'
  | EmptyString => true
  end.

(** Four decimal digits, the first of them not 0. *)
Definition four_digit_code (s : string) : bool :=
  (String.length s =? 4)%nat && all_digits s && negb (startsWith s "0").

(** ** Footprints *)

(** The row [createOtpForUser] inserts for a draw and a clock reading. *)
Definition issued_row (cfg : Config) (draw now : Z) (u : user)
    (explicitMobile : option string) (otpType : string) (w : World)
  : otp_row :=
  {| otp_id := otp_seq w; otp_user_id := user_id u;
     otp_phone := or_else explicitMobile (phone u); otp_email := email u;
     otp_code := generateOtp draw; otp_type := otpType;
     otp_expires_at :=
       now + (if otp_ttlMinutes cfg =? 0 then 30 else otp_ttlMinutes cfg)
             * 60000;
     is_used := false; attempts_count := 0; otp_ip_address := "127.0.0.1";
     otp_created_at := now |}.

(** A code row as issued: not used, no attempt counted. *)
Definition untouched (r : otp_row) : Prop :=
  is_used r = false /\ attempts_count r = 0.

(** The statuses the controller answers with. *)
Definition known_status (r : response) : Prop :=
  status r = 200 \/ status r = 400 \/ status r = 401 \/ status r = 500.

(** What a stored session keeps for good: everything but the active flag
    and the time of the last activity. *)
Definition same_session (s s' : session_row) : Prop :=
  session_id s' = session_id s /\ ses_user_id s' = ses_user_id s
  /\ jwt_token s' = jwt_token s /\ device_type s' = device_type s
  /\ ses_ip_address s' = ses_ip_address s /\ user_agent s' = user_agent s
  /\ expires_at s' = expires_at s /\ created_at s' = created_at s.

(** What one call may do to the store: nothing; add one code row, as
    issued, and the deliveries of that code; add one active session under
    an id that was free; revoke one session or the sessions of a user; or,
    for the pool, go down or come back. *)
Inductive effect (w : World) : World -> Prop :=
  | effect_none : effect w w
  | effect_code (r : otp_row) (ds : list delivery) :
      untouched r ->
      effect w (set_outbox
                  (set_otps w (users_otps w ++ [r]) (otp_seq w + 1))
                  (outbox w ++ ds))
  | effect_session (r : session_row) :
      user_sessions w !! session_id r = None ->
      is_active r = true ->
      effect w (set_sessions w (<[session_id r := r]> (user_sessions w)))
  | effect_revoke (now : Z) (sid : string) :
      effect w (set_sessions w
                  (alter (revoked now) sid (user_sessions w)))
  | effect_revoke_all (now : Z) (userId : string) :
      effect w (set_sessions w
                  ((fun s => if bool_decide (ses_user_id s = userId)
                             then revoked now s else s)
                   <$> user_sessions w))
  | effect_pool (up : bool) : effect w (set_pool w up).

(** The answer of a handler [h] on a store, with what it leaves. *)
Definition answers (cfg : Config) (h : M response) (w : World) : Prop :=
  exists r,
    fst (h w) = Fulfilled r
    /\ known_status r
    /\ (development cfg = false -> error r = None)
    /\ (status r <> 200 -> fields r = [] /\ snd (h w) = w)
    /\ effect w (snd (h w)).

(** ** More of the sample deployment *)

Module Cases.

(** An identity without a phone. *)
Definition bob : user :=
  {| user_id := "u-2"; email := Some "b@x.com"; phone := None;
     password_hash := Some "pa55"; role := "USER";
     user_is_active := JBool true |}.

(** An identity without a stored credential. *)
Definition carol : user :=
  {| user_id := "u-3"; email := Some "c@x.com"; phone := Some "9000000003";
     password_hash := None; role := "USER"; user_is_active := JBool true |}.

Definition request_of (b : body) : request :=
  {| req_body := b; x_forwarded_for := None; remoteAddress := Some "::1";
     user_agent_header := Some "curl/8" |}.

Definition from (forwarded remote : option string) : request :=
  {| req_body := req_body (Sample.login_request JNull);
     x_forwarded_for := forwarded; remoteAddress := remote;
     user_agent_header := None |}.


Definition final_by_email (e : string) (otp : jsval) : request :=
  request_of
    {| req_step := Some "final_login"; req_login_type := JUndefined;
       req_email := Some e; req_mobile := None; req_role := Some "USER";
       req_password := JUndefined; req_otp := otp |}.

(** The default zone of env.js, Asia/Kolkata (five and a half hours ahead
    of UTC the year round), with the process in UTC. *)
Definition kolkata_in_utc : Config :=
  {| otp_ttlMinutes := 10; session_ttlHours := 8; development := false;
     zone_wall := fun t => t + 19800000; process_instant := fun t => t |}.

(** The same zone with the process in it as well. *)
Definition kolkata : Config :=
  {| otp_ttlMinutes := 10; session_ttlHours := 8; development := false;
     zone_wall := fun t => t + 19800000;
     process_instant := fun t => t - 19800000 |}.

(** Code 4821 issued to alice at [T0] for another purpose than a login. *)
Definition reset_issued : World :=
  snd (createOtpForUser Sample.cfg Sample.console Sample.console
         Sample.has_at 3821 Sample.T0 Sample.alice None "PASSWORD_RESET"
         Sample.empty).

Definition the_reset_row : otp_row :=
  {| otp_id := 1; otp_user_id := "u-1"; otp_phone := Some "9000000001";
     otp_email := Some "a@x.com"; otp_code := "4821";
     otp_type := "PASSWORD_RESET";
     otp_expires_at := Sample.T0 + Sample.minutes 10; is_used := false;
     attempts_count := 0; otp_ip_address := "127.0.0.1";
     otp_created_at := Sample.T0 |}.

(** U+00A0, the no-break space, and U+FEFF, the byte order mark. *)
Definition nbsp : string := String "194"%char (String "160"%char "").
Definition bom : string :=
  String "239"%char (String "187"%char (String "191"%char "")).

End Cases.

(** ** Running the code on the sample deployment *)

Example generateOtp_4821 : generateOtp 3821 = "4821".
Proof. vm_compute. reflexivity. Qed.

Example issued_rows : users_otps Sample.issued = [Sample.the_row].
Proof. vm_compute. reflexivity. Qed.

Example trim_runs : trim "  4821 " = "4821".
Proof. vm_compute. reflexivity. Qed.

(** With the pool down a login step answers 500 and writes nothing. *)
Example offline_is_500 :
  validateCredentials Sample.cfg Sample.console Sample.console Sample.has_at
    (Sample.byEmail Sample.alice) Sample.bcrypt_compare 3821 Sample.T0
    (Sample.credentials_request "a@x.com" (JStr "s3cret")) Sample.offline
  = (Fulfilled {| status := 500; message := "Internal server error";
                  fields := []; error := None |}, Sample.offline).
Proof. vm_compute. reflexivity. Qed.

(** The legacy controller routes by [step] and refuses what it does not
    know. *)
Example loginController_routes :
  loginController Sample.cfg Sample.console Sample.console Sample.has_at
    (Sample.byEmail Sample.alice) (Sample.byMobile Sample.alice)
    Sample.signJwt Sample.bcrypt_compare "s-1" 3821 Sample.T0
    (Sample.mobile_request "9000000001") Sample.empty
  = sendOtp Sample.cfg Sample.console Sample.console Sample.has_at
      (Sample.byMobile Sample.alice) 3821 Sample.T0
      (Sample.mobile_request "9000000001") Sample.empty.
Proof. vm_compute. reflexivity. Qed.

Example normalizeIp_runs :
  normalizeIp (Sample.login_request JNull) = Some "127.0.0.1"
  /\ normalizeIp {| req_body := req_body (Sample.login_request JNull);
                    x_forwarded_for := Some " ::ffff:10.0.0.7 , 10.0.0.1";
                    remoteAddress := None; user_agent_header := None |}
     = Some "10.0.0.7".
Proof. vm_compute. split; reflexivity. Qed.

(** * Properties *)

(** ** The store monad *)

Lemma query_up {A : Type} (stmt : World -> completion A * World) (w : World) :
  db_up w = true -> query stmt w = stmt w.
Proof. intros Hup. unfold query. rewrite Hup. reflexivity. Qed.

Lemma query_down {A : Type} (stmt : World -> completion A * World) (w : World) :
  db_up w = false -> query stmt w = (Rejected "connection refused", w).
Proof. intros Hdown. unfold query. rewrite Hdown. reflexivity. Qed.

(** ** The latest record *)

Section Latest.

Implicit Types (rows : list otp_row) (acc : option otp_row) (r : otp_row).

Lemma fold_newest_None rows acc :
  fold_left newest rows acc = None <-> rows = [] /\ acc = None.
Proof.
  revert acc. induction rows as [|x rows IH]; intros acc; simpl.
  - split; [intros ->; auto | intros [_ ->]; reflexivity].
  - rewrite IH. split.
    + intros [_ Hacc]. destruct acc as [a|]; simpl in Hacc.
      * destruct (otp_created_at x <? otp_created_at a); discriminate.
      * discriminate.
    + intros [Hnil _]. discriminate.
Qed.

Lemma fold_newest_Some rows acc r :
  fold_left newest rows acc = Some r ->
  (r ∈ rows \/ acc = Some r)
  /\ (forall r', r' ∈ rows -> otp_created_at r' <= otp_created_at r)
  /\ (forall a, acc = Some a -> otp_created_at a <= otp_created_at r).
Proof.
  revert acc. induction rows as [|x rows IH]; intros acc; simpl.
  - intros ->. split; [right; reflexivity|]. split.
    + intros r' Hin. inversion Hin.
    + intros a Ha. injection Ha as ->. lia.
  - intros Hfold. destruct (IH _ Hfold) as (Hmem & Hrows & Hacc).
    assert (Hx : otp_created_at x <= otp_created_at r
                 /\ (forall a, acc = Some a ->
                               otp_created_at a <= otp_created_at r)
                 /\ (newest acc x = Some r -> x = r \/ acc = Some r)).
    { destruct acc as [a|]; simpl in *.
      - destruct (Z.ltb_spec (otp_created_at x) (otp_created_at a))
          as [Hlt|Hge].
        + specialize (Hacc a eq_refl). repeat split.
          * lia.
          * intros a' Ha. injection Ha as <-. exact Hacc.
          * intros Hr. injection Hr as ->. right. reflexivity.
        + specialize (Hacc x eq_refl). repeat split.
          * exact Hacc.
          * intros a' Ha. injection Ha as <-. lia.
          * intros Hr. injection Hr as ->. left. reflexivity.
      - specialize (Hacc x eq_refl). repeat split.
        + exact Hacc.
        + intros a' Ha. discriminate Ha.
        + intros Hr. injection Hr as ->. left. reflexivity. }
    destruct Hx as (Hxr & Haccr & Hnew). split; [|split].
    + destruct Hmem as [Hin|Heq].
      * left. apply elem_of_cons. right. exact Hin.
      * destruct (Hnew Heq) as [-> | ->].
        -- left. apply elem_of_cons. left. reflexivity.
        -- right. reflexivity.
    + intros r' Hin. apply elem_of_cons in Hin as [-> | Hin]; auto.
    + exact Haccr.
Qed.

(** [select_latest_otp] finds nothing exactly when no row matches. *)
Lemma select_latest_otp_None userId mobile w :
  select_latest_otp userId mobile w = None <->
  forall r, r ∈ users_otps w -> otp_where userId mobile r = false.
Proof.
  unfold select_latest_otp. rewrite fold_newest_None. split.
  - intros [Hnil _] r Hin.
    destruct (otp_where userId mobile r) eqn:Hm; [|reflexivity].
    exfalso. eapply filter_nil_not_elem_of; [exact Hnil| |exact Hin].
    exact Hm.
  - intros Hnone. split; [|reflexivity].
    destruct (filter _ (users_otps w)) as [|x l] eqn:Hf; [reflexivity|].
    assert (Hx : x ∈ filter (fun r => otp_where userId mobile r = true)
                   (users_otps w)).
    { rewrite Hf. apply elem_of_cons. left. reflexivity. }
    apply list_elem_of_filter in Hx as [Hm Hin].
    rewrite (Hnone x Hin) in Hm. discriminate.
Qed.

(** What it finds is a stored row for (user, phone, LOGIN), and no
    matching row was created after it. *)
Lemma select_latest_otp_Some userId mobile w r :
  select_latest_otp userId mobile w = Some r ->
  r ∈ users_otps w
  /\ otp_user_id r = userId /\ otp_phone r = Some mobile
  /\ otp_type r = "LOGIN"
  /\ forall r', r' ∈ users_otps w -> otp_where userId mobile r' = true ->
                otp_created_at r' <= otp_created_at r.
Proof.
  unfold select_latest_otp. intros Hsel.
  apply fold_newest_Some in Hsel as (Hmem & Hrows & _).
  destruct Hmem as [Hin|Habs]; [|discriminate].
  apply list_elem_of_filter in Hin as [Hm Hin].
  unfold otp_where in Hm.
  apply andb_prop in Hm as [Hm Htype]. apply andb_prop in Hm as [Huser Hphone].
  apply bool_decide_eq_true in Huser, Hphone, Htype.
  repeat split; auto.
  intros r' Hin' Hm'. apply Hrows. apply list_elem_of_filter. auto.
Qed.

End Latest.

(** ** verifyUserOtp *)

(** With the pool up, [verifyUserOtp] is its chain of checks on the row
    [select_latest_otp] hands it, and the store is handed back as it was. *)
Lemma verifyUserOtp_up now userId mobile otp w :
  db_up w = true ->
  verifyUserOtp now userId mobile otp w =
  (Fulfilled
     match select_latest_otp userId mobile w with
     | None => OtpInvalid "otp_not_found"
     | Some row =>
         if is_used row then OtpInvalid "otp_used"
         else if otp_expires_at row <? now then OtpInvalid "otp_expired"
         else if negb (String.eqb (trim (otp_code row)) (trim (String_ otp)))
         then OtpInvalid "otp_mismatch"
         else OtpValid row
     end, w).
Proof.
  intros Hup. unfold verifyUserOtp, bind. rewrite query_up by exact Hup.
  destruct (select_latest_otp userId mobile w) as [row|]; [|reflexivity].
  destruct (is_used row); [reflexivity|].
  destruct (otp_expires_at row <? now); [reflexivity|].
  destruct (negb _); reflexivity.
Qed.

Lemma verifyUserOtp_down now userId mobile otp w :
  db_up w = false ->
  verifyUserOtp now userId mobile otp w = (Rejected "connection refused", w).
Proof.
  intros Hdown. unfold verifyUserOtp, bind. rewrite query_down by exact Hdown.
  reflexivity.
Qed.

Lemma verifyUserOtp_store now userId mobile otp w :
  snd (verifyUserOtp now userId mobile otp w) = w.
Proof.
  destruct (db_up w) eqn:Hup.
  - rewrite verifyUserOtp_up by exact Hup. reflexivity.
  - rewrite verifyUserOtp_down by exact Hup. reflexivity.
Qed.

(** The filter of the query, field by field. *)
Lemma otp_where_fields userId mobile r :
  otp_where userId mobile r = true <->
  otp_user_id r = userId /\ otp_phone r = Some mobile /\ otp_type r = "LOGIN".
Proof.
  unfold otp_where. rewrite !andb_true_iff, !bool_decide_eq_true. tauto.
Qed.

(** The record selected is one of the user, the phone and the purpose
    LOGIN, and no record of these three was created later. *)
Lemma select_latest_otp_fields userId mobile w row :
  select_latest_otp userId mobile w = Some row ->
  row ∈ users_otps w
  /\ otp_user_id row = userId /\ otp_phone row = Some mobile
  /\ otp_type row = "LOGIN"
  /\ forall r, r ∈ users_otps w ->
       otp_user_id r = userId -> otp_phone r = Some mobile ->
       otp_type r = "LOGIN" ->
       otp_created_at r <= otp_created_at row.
Proof.
  intros Hsel.
  destruct (select_latest_otp_Some _ _ _ _ Hsel)
    as (Hin & Hu & Hp & Ht & Hmax).
  repeat (split; [assumption|]).
  intros r Hr Hru Hrp Hrt. apply Hmax; [exact Hr|].
  apply otp_where_fields. auto.
Qed.

(** C2, as the code has it. [verifyUserOtp] takes a user, a phone and a
    code, and no purpose: it looks at one record, the most recently
    created one whose user is the given user, whose phone is the given
    phone and whose purpose is LOGIN, and checks in this order: no such
    record gives [otp_not_found]; a used record gives [otp_used]; a clock
    strictly past the expiry gives [otp_expired]; a submitted code whose
    text differs from the stored code, both trimmed, gives
    [otp_mismatch]; anything else is valid. *)
Theorem verifyUserOtp_precedence now userId mobile otp w :
  db_up w = true ->
  let verdict := fst (verifyUserOtp now userId mobile otp w) in
  (select_latest_otp userId mobile w = None <->
     forall r, r ∈ users_otps w ->
       ~ (otp_user_id r = userId /\ otp_phone r = Some mobile
          /\ otp_type r = "LOGIN"))
  /\ (select_latest_otp userId mobile w = None ->
        verdict = Fulfilled (OtpInvalid "otp_not_found"))
  /\ forall row,
       select_latest_otp userId mobile w = Some row ->
       (row ∈ users_otps w
        /\ otp_user_id row = userId /\ otp_phone row = Some mobile
        /\ otp_type row = "LOGIN"
        /\ forall r, r ∈ users_otps w ->
             otp_user_id r = userId -> otp_phone r = Some mobile ->
             otp_type r = "LOGIN" ->
             otp_created_at r <= otp_created_at row)
       /\ (is_used row = true -> verdict = Fulfilled (OtpInvalid "otp_used"))
       /\ (is_used row = false -> otp_expires_at row < now ->
             verdict = Fulfilled (OtpInvalid "otp_expired"))
       /\ (is_used row = false -> now <= otp_expires_at row ->
             trim (otp_code row) <> trim (String_ otp) ->
             verdict = Fulfilled (OtpInvalid "otp_mismatch"))
       /\ (is_used row = false -> now <= otp_expires_at row ->
             trim (otp_code row) = trim (String_ otp) ->
             verdict = Fulfilled (OtpValid row)).
Proof.
  intros Hup verdict. subst verdict.
  rewrite verifyUserOtp_up by exact Hup. simpl.
  split.
  { rewrite select_latest_otp_None. split.
    - intros Hnone r Hin Hr. apply otp_where_fields in Hr.
      rewrite (Hnone r Hin) in Hr. discriminate.
    - intros Hnone r Hin.
      destruct (otp_where userId mobile r) eqn:Hr; [|reflexivity].
      exfalso. apply (Hnone r Hin). apply otp_where_fields. exact Hr. }
  split; [intros ->; reflexivity|].
  intros row Hsel. rewrite Hsel.
  split; [apply select_latest_otp_fields; exact Hsel|].
  split; [intros ->; reflexivity|].
  split.
  { intros -> Hlt. apply Z.ltb_lt in Hlt. rewrite Hlt. reflexivity. }
  split.
  - intros -> Hle Hne. apply Z.ltb_ge in Hle. rewrite Hle.
    apply String.eqb_neq in Hne. rewrite Hne. reflexivity.
  - intros -> Hle Heq. apply Z.ltb_ge in Hle. rewrite Hle.
    apply String.eqb_eq in Heq. rewrite Heq. reflexivity.
Qed.

(** A number is compared as the text [String] prints of it. *)
Example numbers_as_text :
  String_ (JNum 4821) = "4821"
  /\ String_ (JNum (-12)) = "-12"
  /\ String_ (JNum 9007199254740993) = "9007199254740992"
  /\ String_ (JNum (2 ^ 60)) = "1152921504606847000"
  /\ String_ (JNum (10 ^ 21)) = "1e+21"
  /\ String_ (JNum (- (123456 * 10 ^ 20))) = "-1.23456e+25".
Proof. vm_compute. repeat split. Qed.

(** The comparison is on text: a code with a leading zero does not match
    the number it would read as. *)
Example leading_zero_kept :
  String.eqb (trim "0123") (trim (String_ (JNum 123))) = false
  /\ String.eqb (trim "0123") (trim (String_ (JStr " 0123 "))) = true.
Proof. vm_compute. split; reflexivity. Qed.

Lemma verifyUserOtp_precedence_witness :
  (otp_user_id Sample.the_row = "u-1"
   /\ otp_phone Sample.the_row = Some "9000000001"
   /\ otp_type Sample.the_row = "LOGIN")
  /\ fst (verifyUserOtp (Sample.T0 + Sample.minutes 5) "u-1" "9000000001"
            (JNum 4821) Sample.issued)
     = Fulfilled (OtpValid Sample.the_row)
  /\ fst (verifyUserOtp (Sample.T0 + Sample.minutes 5) "u-1" "9000000001"
            (JStr "4822") Sample.issued)
     = Fulfilled (OtpInvalid "otp_mismatch").
Proof.
  assert (Hup : db_up Sample.issued = true) by reflexivity.
  assert (Hsel : select_latest_otp "u-1" "9000000001" Sample.issued
                 = Some Sample.the_row) by (vm_compute; reflexivity).
  destruct (verifyUserOtp_precedence (Sample.T0 + Sample.minutes 5)
              "u-1" "9000000001" (JNum 4821) Sample.issued Hup)
    as (_ & _ & Hrow).
  destruct (Hrow Sample.the_row Hsel)
    as ((_ & Hu & Hp & Ht & _) & _ & _ & _ & Hvalid).
  destruct (verifyUserOtp_precedence (Sample.T0 + Sample.minutes 5)
              "u-1" "9000000001" (JStr "4822") Sample.issued Hup)
    as (_ & _ & Hrow').
  destruct (Hrow' Sample.the_row Hsel) as (_ & _ & _ & Hmismatch & _).
  split; [auto|]. split.
  - apply Hvalid.
    + reflexivity.
    + vm_compute. discriminate.
    + vm_compute. reflexivity.
  - apply Hmismatch.
    + reflexivity.
    + vm_compute. discriminate.
    + vm_compute. discriminate.
Defined.

(** A code issued for another purpose is not looked at: stored for the
    user and the phone, not used, not expired and equal to the submitted
    code, it is answered [otp_not_found]. *)
Lemma verifyUserOtp_other_purpose_not_found :
  users_otps Cases.reset_issued = [Cases.the_reset_row]
  /\ otp_user_id Cases.the_reset_row = "u-1"
  /\ otp_phone Cases.the_reset_row = Some "9000000001"
  /\ otp_type Cases.the_reset_row = "PASSWORD_RESET"
  /\ is_used Cases.the_reset_row = false
  /\ Sample.T0 + Sample.minutes 5 <= otp_expires_at Cases.the_reset_row
  /\ trim (otp_code Cases.the_reset_row) = trim (String_ (JStr "4821"))
  /\ fst (verifyUserOtp (Sample.T0 + Sample.minutes 5) "u-1" "9000000001"
            (JStr "4821") Cases.reset_issued)
     = Fulfilled (OtpInvalid "otp_not_found")
  /\ fst (verifyUserOtp (Sample.T0 + Sample.minutes 5) "u-1" "9000000001"
            (JStr "4821") Cases.reset_issued)
     <> Fulfilled (OtpValid Cases.the_reset_row).
Proof.
  assert (Hrun : fst (verifyUserOtp (Sample.T0 + Sample.minutes 5) "u-1"
                        "9000000001" (JStr "4821") Cases.reset_issued)
                 = Fulfilled (OtpInvalid "otp_not_found"))
    by (vm_compute; reflexivity).
  split; [vm_compute; reflexivity|].
  repeat (split; [reflexivity|]).
  split; [vm_compute; discriminate|].
  split; [vm_compute; reflexivity|].
  split; [exact Hrun|].
  rewrite Hrun. discriminate.
Qed.

(** C3, as the code has it. [verifyUserOtp] looks at one record only,
    the most recently created one of the user, the phone and the purpose
    LOGIN; a code issued earlier is not looked at.  When that record is
    not marked used: strictly after its expiry the answer is [otp_expired]
    whatever code is submitted, the stored one included; at the instant of
    its expiry the stored code is still accepted. *)
Theorem verifyUserOtp_expired_after now userId mobile w row :
  db_up w = true ->
  select_latest_otp userId mobile w = Some row ->
  is_used row = false ->
  (row ∈ users_otps w
   /\ otp_user_id row = userId /\ otp_phone row = Some mobile
   /\ otp_type row = "LOGIN"
   /\ forall r, r ∈ users_otps w ->
        otp_user_id r = userId -> otp_phone r = Some mobile ->
        otp_type r = "LOGIN" ->
        otp_created_at r <= otp_created_at row)
  /\ (otp_expires_at row < now ->
      forall otp,
        fst (verifyUserOtp now userId mobile otp w)
        = Fulfilled (OtpInvalid "otp_expired"))
  /\ (now = otp_expires_at row ->
      fst (verifyUserOtp now userId mobile (JStr (otp_code row)) w)
      = Fulfilled (OtpValid row)).
Proof.
  intros Hup Hsel Hfresh.
  split; [apply select_latest_otp_fields; exact Hsel|]. split.
  - intros Hlate otp.
    rewrite verifyUserOtp_up by exact Hup. simpl.
    rewrite Hsel, Hfresh. apply Z.ltb_lt in Hlate. rewrite Hlate. reflexivity.
  - intros ->.
    rewrite verifyUserOtp_up by exact Hup. simpl.
    rewrite Hsel, Hfresh, Z.ltb_irrefl, String.eqb_refl. reflexivity.
Qed.

Lemma verifyUserOtp_expired_after_witness :
  fst (verifyUserOtp (Sample.T0 + Sample.minutes 10 + 1) "u-1" "9000000001"
         (JStr (otp_code Sample.the_row)) Sample.issued)
  = Fulfilled (OtpInvalid "otp_expired")
  /\ fst (verifyUserOtp (otp_expires_at Sample.the_row) "u-1" "9000000001"
            (JStr (otp_code Sample.the_row)) Sample.issued)
     = Fulfilled (OtpValid Sample.the_row).
Proof.
  assert (Hup : db_up Sample.issued = true) by reflexivity.
  assert (Hsel : select_latest_otp "u-1" "9000000001" Sample.issued
                 = Some Sample.the_row) by (vm_compute; reflexivity).
  assert (Hfresh : is_used Sample.the_row = false) by reflexivity.
  split.
  - destruct (verifyUserOtp_expired_after
                (Sample.T0 + Sample.minutes 10 + 1) "u-1" "9000000001"
                Sample.issued Sample.the_row Hup Hsel Hfresh)
      as (_ & Hlate & _).
    apply Hlate. vm_compute. reflexivity.
  - destruct (verifyUserOtp_expired_after
                (otp_expires_at Sample.the_row) "u-1" "9000000001"
                Sample.issued Sample.the_row Hup Hsel Hfresh)
      as (_ & _ & Hat).
    apply Hat. reflexivity.
Defined.

(** A code issued earlier and never used is not looked at once a newer
    one is stored: after its expiry it is answered [otp_mismatch], not
    [otp_expired]. *)
Example superseded_code_not_expired :
  let later :=
    snd (createOtpForUser Sample.cfg Sample.console Sample.console
           Sample.has_at 777 (Sample.T0 + Sample.minutes 8) Sample.alice None
           "LOGIN" Sample.issued) in
  fst (verifyUserOtp (Sample.T0 + Sample.minutes 11) "u-1" "9000000001"
         (JStr "4821") later)
  = Fulfilled (OtpInvalid "otp_mismatch").
Proof. vm_compute. reflexivity. Qed.

(** At the expiry instant itself the stored code is still accepted. *)
Lemma verifyUserOtp_at_expiry_accepts :
  select_latest_otp "u-1" "9000000001" Sample.issued = Some Sample.the_row
  /\ otp_expires_at Sample.the_row <= Sample.T0 + Sample.minutes 10
  /\ fst (verifyUserOtp (Sample.T0 + Sample.minutes 10) "u-1" "9000000001"
            (JStr (otp_code Sample.the_row)) Sample.issued)
     = Fulfilled (OtpValid Sample.the_row)
  /\ fst (verifyUserOtp (Sample.T0 + Sample.minutes 10) "u-1" "9000000001"
            (JStr (otp_code Sample.the_row)) Sample.issued)
     <> Fulfilled (OtpInvalid "otp_expired").
Proof.
  assert (Hrun : fst (verifyUserOtp (Sample.T0 + Sample.minutes 10) "u-1"
                        "9000000001" (JStr (otp_code Sample.the_row))
                        Sample.issued)
                 = Fulfilled (OtpValid Sample.the_row))
    by (vm_compute; reflexivity).
  split; [vm_compute; reflexivity|].
  split; [vm_compute; discriminate|].
  split; [exact Hrun|].
  rewrite Hrun. discriminate.
Qed.

(** C5. [verifyUserOtp] writes nothing: whatever it answers, the store it
    hands back is the store it was given, so every field of the selected
    record, the used flag included, is as before. *)
Theorem verifyUserOtp_no_write now userId mobile otp w :
  let w' := snd (verifyUserOtp now userId mobile otp w) in
  w' = w
  /\ users_otps w' = users_otps w
  /\ select_latest_otp userId mobile w' = select_latest_otp userId mobile w.
Proof.
  simpl. rewrite verifyUserOtp_store. repeat split.
Qed.

(** ** sessionService *)

Lemma validateSession_up now sid w :
  db_up w = true ->
  validateSession now sid w =
  (Fulfilled
     match user_sessions w !! sid with
     | None => SessionInvalid "not_found"
     | Some session =>
         if negb (is_active session) then SessionInvalid "inactive"
         else if expires_at session <=? now then SessionInvalid "expired"
         else SessionValid session
     end, w).
Proof.
  intros Hup. unfold validateSession, bind. rewrite query_up by exact Hup.
  destruct (user_sessions w !! sid) as [s|]; [|reflexivity].
  destruct (negb (is_active s)); [reflexivity|].
  destruct (expires_at s <=? now); reflexivity.
Qed.

Lemma destroySession_up now sid w :
  db_up w = true ->
  destroySession now sid w =
  (Fulfilled tt, set_sessions w (alter (revoked now) sid (user_sessions w))).
Proof. intros Hup. unfold destroySession, query. rewrite Hup. reflexivity. Qed.

Lemma destroyAllSessionsForUser_up now userId w :
  db_up w = true ->
  destroyAllSessionsForUser now userId w =
  (Fulfilled tt,
   set_sessions w
     ((fun s => if bool_decide (ses_user_id s = userId)
                then revoked now s else s) <$> user_sessions w)).
Proof.
  intros Hup. unfold destroyAllSessionsForUser, query. rewrite Hup. reflexivity.
Qed.

Lemma set_sessions_twice w (m1 m2 : gmap string session_row) :
  set_sessions (set_sessions w m1) m2 = set_sessions w m2.
Proof. reflexivity. Qed.

Lemma set_sessions_same w : set_sessions w (user_sessions w) = w.
Proof. destruct w. reflexivity. Qed.

(** C4. With the pool up, [validateSession] answers valid exactly when the
    record exists, is active and expires strictly after the clock; a missing
    record gives [not_found], an inactive one [inactive], an active one at
    or past its expiry [expired]; and a stored session validated after
    [destroySession] gives [inactive]. *)
Theorem validateSession_spec now sid w :
  db_up w = true ->
  let verdict := fst (validateSession now sid w) in
  (forall s,
     verdict = Fulfilled (SessionValid s) <->
     user_sessions w !! sid = Some s /\ is_active s = true
     /\ now < expires_at s)
  /\ (user_sessions w !! sid = None ->
        verdict = Fulfilled (SessionInvalid "not_found"))
  /\ (forall s, user_sessions w !! sid = Some s -> is_active s = false ->
        verdict = Fulfilled (SessionInvalid "inactive"))
  /\ (forall s, user_sessions w !! sid = Some s -> is_active s = true ->
        expires_at s <= now ->
        verdict = Fulfilled (SessionInvalid "expired"))
  /\ (forall s t now', user_sessions w !! sid = Some s ->
        fst (validateSession now' sid (snd (destroySession t sid w)))
        = Fulfilled (SessionInvalid "inactive")).
Proof.
  intros Hup verdict. subst verdict.
  rewrite (validateSession_up now sid w Hup). simpl.
  split; [|split; [|split; [|split]]].
  - intros s. split.
    + destruct (user_sessions w !! sid) as [s0|]; [|discriminate].
      destruct (is_active s0) eqn:Hact; simpl; [|discriminate].
      destruct (Z.leb_spec (expires_at s0) now) as [Hle|Hlt]; [discriminate|].
      intros Hv. injection Hv as ->. auto.
    + intros (-> & -> & Hlt). simpl.
      apply Z.leb_gt in Hlt. rewrite Hlt. reflexivity.
  - intros ->. reflexivity.
  - intros s -> ->. reflexivity.
  - intros s -> -> Hle. simpl. apply Z.leb_le in Hle. rewrite Hle. reflexivity.
  - intros s t now' Hs.
    rewrite (destroySession_up t sid w Hup). simpl.
    rewrite validateSession_up by exact Hup. simpl.
    rewrite lookup_alter_eq, Hs. reflexivity.
Qed.

Lemma validateSession_spec_witness :
  fst (validateSession (Sample.T0 + Sample.hours 9) "s-1"
         (Sample.with_session
            (Sample.a_session true (Sample.T0 + Sample.hours 8))))
  = Fulfilled (SessionInvalid "expired")
  /\ fst (validateSession Sample.T0 "s-1"
            (snd (destroySession Sample.T0 "s-1"
                    (Sample.with_session
                       (Sample.a_session true (Sample.T0 + Sample.hours 8))))))
     = Fulfilled (SessionInvalid "inactive").
Proof.
  pose (s := Sample.a_session true (Sample.T0 + Sample.hours 8)).
  assert (Hup : db_up (Sample.with_session s) = true) by reflexivity.
  assert (Hs : user_sessions (Sample.with_session s) !! "s-1" = Some s)
    by (vm_compute; reflexivity).
  destruct (validateSession_spec (Sample.T0 + Sample.hours 9) "s-1"
              (Sample.with_session s) Hup) as (_ & _ & _ & Hexp & _).
  destruct (validateSession_spec Sample.T0 "s-1"
              (Sample.with_session s) Hup) as (_ & _ & _ & _ & Hrev).
  split.
  - apply (Hexp s Hs); [reflexivity | vm_compute; discriminate].
  - apply (Hrev s Sample.T0 Sample.T0 Hs).
Defined.

(** C9. With the pool up, [destroySession] and [destroyAllSessionsForUser]
    always complete. After two calls of [destroySession] a stored session
    is inactive; on an id that is not stored the call changes nothing; a
    second call leaves what a single call at that time leaves.
    [destroyAllSessionsForUser] marks every session of the user inactive,
    leaves the others alone, and repeated it leaves what a single call at
    that time leaves. *)
Theorem destroy_idempotent t1 t2 sid userId w :
  db_up w = true ->
  let once := destroySession t1 sid w in
  let twice := destroySession t2 sid (snd once) in
  let all_once := destroyAllSessionsForUser t1 userId w in
  let all_twice := destroyAllSessionsForUser t2 userId (snd all_once) in
  fst once = Fulfilled tt /\ fst twice = Fulfilled tt
  /\ (forall s, user_sessions w !! sid = Some s ->
        is_active <$> (user_sessions (snd once) !! sid) = Some false
        /\ is_active <$> (user_sessions (snd twice) !! sid) = Some false)
  /\ (user_sessions w !! sid = None -> snd once = w /\ snd twice = w)
  /\ twice = destroySession t2 sid w
  /\ fst all_once = Fulfilled tt /\ fst all_twice = Fulfilled tt
  /\ (forall k s, user_sessions w !! k = Some s ->
        user_sessions (snd all_twice) !! k
        = Some (if bool_decide (ses_user_id s = userId)
                then revoked t2 s else s))
  /\ all_twice = destroyAllSessionsForUser t2 userId w.
Proof.
  intros Hup once twice all_once all_twice.
  subst once twice all_once all_twice.
  rewrite (destroySession_up t1 sid w Hup),
    (destroySession_up t2 sid w Hup),
    (destroyAllSessionsForUser_up t1 userId w Hup),
    (destroyAllSessionsForUser_up t2 userId w Hup). simpl.
  rewrite destroySession_up, destroyAllSessionsForUser_up by exact Hup.
  simpl. rewrite !set_sessions_twice.
  assert (Htwice : alter (revoked t2) sid
                     (alter (revoked t1) sid (user_sessions w))
                   = alter (revoked t2) sid (user_sessions w)).
  { rewrite alter_alter_eq. apply alter_ext. intros s _. reflexivity. }
  assert (Hall : (fun s => if bool_decide (ses_user_id s = userId)
                          then revoked t2 s else s) <$>
                 ((fun s => if bool_decide (ses_user_id s = userId)
                           then revoked t1 s else s) <$> user_sessions w)
                 = (fun s => if bool_decide (ses_user_id s = userId)
                           then revoked t2 s else s) <$> user_sessions w).
  { rewrite <- map_fmap_compose. apply map_fmap_ext. intros k s _. simpl.
    destruct (bool_decide (ses_user_id s = userId)) eqn:Hu; simpl.
    - rewrite Hu. reflexivity.
    - rewrite Hu. reflexivity. }
  rewrite Htwice, Hall.
  split; [reflexivity|]. split; [reflexivity|].
  split.
  { intros s Hs. rewrite !lookup_alter_eq, Hs. split; reflexivity. }
  split.
  { intros Hnone.
    assert (Hid : forall t, alter (revoked t) sid (user_sessions w)
                            = user_sessions w).
    { intros t. apply alter_id'. exact Hnone. }
    rewrite !Hid. split; apply set_sessions_same. }
  split; [reflexivity|]. split; [reflexivity|]. split; [reflexivity|].
  split; [|reflexivity].
  intros k s Hs. rewrite lookup_fmap, Hs. reflexivity.
Qed.

Lemma destroy_idempotent_witness :
  let w := Sample.with_session
             (Sample.a_session true (Sample.T0 + Sample.hours 8)) in
  let twice := destroySession (Sample.T0 + 2) "s-1"
                 (snd (destroySession (Sample.T0 + 1) "s-1" w)) in
  fst twice = Fulfilled tt
  /\ is_active <$> (user_sessions (snd twice) !! "s-1") = Some false
  /\ snd (destroySession (Sample.T0 + 1) "s-404" w) = w.
Proof.
  intros w twice. subst twice.
  assert (Hup : db_up w = true) by reflexivity.
  destruct (destroy_idempotent (Sample.T0 + 1) (Sample.T0 + 2)
              "s-1" "u-1" w Hup) as (_ & Hok & Hflag & _).
  destruct (destroy_idempotent (Sample.T0 + 1) (Sample.T0 + 2)
              "s-404" "u-1" w Hup) as (_ & _ & _ & Hmissing & _).
  split; [exact Hok|]. split.
  - apply (Hflag (Sample.a_session true (Sample.T0 + Sample.hours 8))).
    vm_compute. reflexivity.
  - apply Hmissing. vm_compute. reflexivity.
Defined.

Lemma createSessionForUser_up cfg sid now userId token ip userAgent w :
  db_up w = true ->
  user_sessions w !! sid = None ->
  let text :=
    whole_seconds (zone_wall cfg (now + session_ttlHours cfg * 3600000)) in
  let r := {| session_id := sid; ses_user_id := userId; jwt_token := token;
              device_type := "system"; ses_ip_address := or_else ip None;
              user_agent := or_else userAgent None;
              expires_at := session_expiry cfg now;
              last_activity_at := process_instant cfg now;
              created_at := session_expiry cfg now;
              is_active := true |} in
  createSessionForUser cfg sid now userId token ip userAgent w =
  (Fulfilled {| sessionId := sid; expiresAt := text; dbRow := r |},
   set_sessions w (<[sid := r]> (user_sessions w))).
Proof.
  intros Hup Hfresh. simpl.
  unfold createSessionForUser, insert_session, session_expiry, bind, query.
  rewrite Hup, Hfresh. reflexivity.
Qed.

Lemma whole_seconds_bounds t : t - 1000 < whole_seconds t <= t.
Proof.
  unfold whole_seconds.
  pose proof (Z.div_mod t 1000 ltac:(lia)).
  pose proof (Z.mod_pos_bound t 1000 ltac:(lia)). lia.
Qed.

(** C10. With the pool up and a session id not yet stored,
    [createSessionForUser] stores an active row whose [created_at] is the
    value computed for [expires_at], the expiry it also returns: the same
    placeholder, the text of the expiry, fills both columns. *)
Theorem createSessionForUser_created_at
    cfg sid now userId token ip userAgent w :
  db_up w = true ->
  user_sessions w !! sid = None ->
  let out := createSessionForUser cfg sid now userId token ip userAgent w in
  exists s,
    fst out = Fulfilled s
    /\ sessionId s = sid
    /\ user_sessions (snd out) !! sid = Some (dbRow s)
    /\ expiresAt s
       = whole_seconds (zone_wall cfg (now + session_ttlHours cfg * 3600000))
    /\ expires_at (dbRow s) = process_instant cfg (expiresAt s)
    /\ created_at (dbRow s) = expires_at (dbRow s)
    /\ is_active (dbRow s) = true.
Proof.
  intros Hup Hfresh out. subst out.
  rewrite createSessionForUser_up by assumption. simpl.
  eexists. split; [reflexivity|]. simpl.
  split; [reflexivity|].
  split; [apply lookup_insert_eq|].
  repeat split.
Qed.

Lemma createSessionForUser_created_at_witness :
  exists s,
    fst (createSessionForUser Sample.cfg "s-1" Sample.T0 "u-1" "jwt:u-1"
           (Some "127.0.0.1") (Some "curl/8") Sample.empty) = Fulfilled s
    /\ created_at (dbRow s) = Sample.T0 + Sample.hours 8
    /\ expires_at (dbRow s) = Sample.T0 + Sample.hours 8.
Proof.
  destruct (createSessionForUser_created_at Sample.cfg "s-1" Sample.T0 "u-1"
              "jwt:u-1" (Some "127.0.0.1") (Some "curl/8") Sample.empty)
    as (s & Hs & _ & _ & Hexp & Hrow & Hcreated & _).
  - reflexivity.
  - vm_compute. reflexivity.
  - exists s. split; [exact Hs|].
    rewrite Hcreated, Hrow, Hexp. split.
    + vm_compute. reflexivity.
    + vm_compute. reflexivity.
Defined.

(** With the default zone and the process in UTC the two columns are
    still one value, five and a half hours later than with the process in
    the zone; both are later than the clock reading of the call. *)
Example created_at_by_zone :
  (created_at <$>
     (user_sessions
        (snd (createSessionForUser Cases.kolkata_in_utc "s-1" Sample.T0
                "u-1" "jwt:u-1" None None Sample.empty)) !! "s-1"))
  = Some (Sample.T0 + Sample.hours 13 + Sample.minutes 30)
  /\ (created_at <$>
        (user_sessions
           (snd (createSessionForUser Cases.kolkata "s-1" Sample.T0
                   "u-1" "jwt:u-1" None None Sample.empty)) !! "s-1"))
     = Some (Sample.T0 + Sample.hours 8).
Proof. vm_compute. split; reflexivity. Qed.

(** ** createOtpForUser *)

Section Issuance.

Variable cfg : Config.
Variable smsProvider : string -> string -> string -> completion unit.
Variable emailProvider : string -> string -> string -> completion unit.
Variable isEmail : string -> bool.

Lemma createOtpForUser_up draw now u explicitMobile otpType w :
  db_up w = true ->
  let code := generateOtp draw in
  let expiry :=
    now + (if otp_ttlMinutes cfg =? 0 then 30 else otp_ttlMinutes cfg)
          * 60000 in
  let mobile := or_else explicitMobile (phone u) in
  let r := {| otp_id := otp_seq w; otp_user_id := user_id u;
              otp_phone := mobile; otp_email := email u; otp_code := code;
              otp_type := otpType; otp_expires_at := expiry;
              is_used := false; attempts_count := 0;
              otp_ip_address := "127.0.0.1"; otp_created_at := now |} in
  createOtpForUser cfg smsProvider emailProvider isEmail draw now u
    explicitMobile otpType w =
  (Fulfilled {| otpCode := code; expiresIST := expiry;
                expiresLocal := expiry; expiresUTC := expiry; row := r |},
   set_outbox (set_otps w (users_otps w ++ [r]) (otp_seq w + 1))
     (outbox w ++ attempts smsProvider emailProvider isEmail mobile
                   (email u) code otpType)).
Proof.
  intros Hup. simpl.
  unfold createOtpForUser, insert_otp, bind, query, attempts.
  rewrite Hup.
  destruct (present (or_else explicitMobile (phone u)));
    destruct (present (email u)); simpl;
    unfold allSettled, catch_, sendOtpViaSMS, sendOtpViaEmail, dispatch, ret;
    simpl;
    repeat match goal with
           | |- context [sendSMS ?p ?a ?b ?c] => destruct (sendSMS p a b c)
           | |- context [sendEmail ?p ?i ?a ?b ?c] =>
               destruct (sendEmail p i a b c)
           end;
    simpl; unfold set_outbox, set_otps; simpl;
    rewrite <- ?app_assoc, ?app_nil_r; reflexivity.
Qed.

End Issuance.

(** C6. With the pool up, [createOtpForUser] completes with the generated
    code and the expiry whatever the two channels do: the row it inserted
    stays in [users_otps], and each channel with an address was called, the
    SMS call with the outcome of the SMS provider and the email call with
    that of the email provider, neither depending on the other. *)
Theorem createOtpForUser_delivery_isolated
    cfg smsProvider emailProvider isEmail draw now u explicitMobile otpType w :
  db_up w = true ->
  let out := createOtpForUser cfg smsProvider emailProvider isEmail draw now u
               explicitMobile otpType w in
  exists o,
    fst out = Fulfilled o
    /\ otpCode o = generateOtp draw
    /\ expiresUTC o
       = now + (if otp_ttlMinutes cfg =? 0 then 30 else otp_ttlMinutes cfg)
               * 60000
    /\ users_otps (snd out) = (users_otps w ++ [row o])%list
    /\ otp_code (row o) = otpCode o
    /\ otp_expires_at (row o) = expiresUTC o
    /\ is_used (row o) = false
    /\ outbox (snd out)
       = (outbox w ++ attempts smsProvider emailProvider isEmail
                        (or_else explicitMobile (phone u)) (email u)
                        (otpCode o) otpType)%list.
Proof.
  intros Hup out. subst out.
  rewrite createOtpForUser_up by exact Hup. simpl.
  eexists. split; [reflexivity|]. simpl. repeat split.
Qed.

Lemma createOtpForUser_delivery_isolated_witness :
  exists o,
    fst (createOtpForUser Sample.cfg Sample.unreachable Sample.unreachable
           Sample.has_at 3821 Sample.T0 Sample.alice None "LOGIN"
           Sample.empty) = Fulfilled o
    /\ otpCode o = "4821"
    /\ expiresUTC o = Sample.T0 + Sample.minutes 10
    /\ users_otps
         (snd (createOtpForUser Sample.cfg Sample.unreachable
                 Sample.unreachable Sample.has_at 3821 Sample.T0 Sample.alice
                 None "LOGIN" Sample.empty)) = [row o]
    /\ outcome <$>
         outbox
           (snd (createOtpForUser Sample.cfg Sample.unreachable
                   Sample.unreachable Sample.has_at 3821 Sample.T0
                   Sample.alice None "LOGIN" Sample.empty))
       = [Rejected "connect ETIMEDOUT"; Rejected "connect ETIMEDOUT"].
Proof.
  destruct (createOtpForUser_delivery_isolated Sample.cfg Sample.unreachable
              Sample.unreachable Sample.has_at 3821 Sample.T0 Sample.alice
              None "LOGIN" Sample.empty)
    as (o & Ho & Hcode & Hexp & Hrows & _ & _ & _ & Hout).
  - reflexivity.
  - exists o. split; [exact Ho|].
    split; [rewrite Hcode; vm_compute; reflexivity|].
    split; [rewrite Hexp; vm_compute; reflexivity|].
    split; [rewrite Hrows; reflexivity|].
    rewrite Hout, Hcode. vm_compute. reflexivity.
Defined.

(** ** authController *)

Lemma isUserActive_text u :
  isUserActive (Some u) = true <-> trim (String_ (user_is_active u)) = "true".
Proof. unfold isUserActive. apply String.eqb_eq. Qed.

Lemma isUserActive_bool u flag :
  user_is_active u = JBool flag -> isUserActive (Some u) = flag.
Proof.
  intros Hflag. unfold isUserActive. rewrite Hflag. destruct flag; reflexivity.
Qed.

Section Controller.

Variable cfg : Config.
Variable smsProvider : string -> string -> string -> completion unit.
Variable emailProvider : string -> string -> string -> completion unit.
Variable isEmail : string -> bool.
Variable findUserByEmailAndRole :
  option string -> option string -> option user.
Variable findUserByMobileAndRole :
  option string -> option string -> option user.
Variable signJwt : string -> option string -> string -> string.
Variable bcrypt_compare : jsval -> string -> completion bool.

Lemma validateCredentials_inactive draw now req w :
  db_up w = true ->
  isUserActive (findUserByEmailAndRole (req_email (req_body req))
                  (req_role (req_body req))) = false ->
  validateCredentials cfg smsProvider emailProvider isEmail
    findUserByEmailAndRole bcrypt_compare draw now req w
  = (Fulfilled (denied cfg), w).
Proof.
  intros Hup Hinactive.
  unfold validateCredentials, try_catch, bind, lookup.
  rewrite query_up by exact Hup. rewrite Hinactive. reflexivity.
Qed.

Lemma validateCredentials_active draw now req w usr :
  db_up w = true ->
  findUserByEmailAndRole (req_email (req_body req))
    (req_role (req_body req)) = Some usr ->
  isUserActive (Some usr) = true ->
  validateCredentials cfg smsProvider emailProvider isEmail
    findUserByEmailAndRole bcrypt_compare draw now req w =
  if verifyPassword bcrypt_compare (req_password (req_body req))
       (password_hash usr)
  then
    let out := createOtpForUser cfg smsProvider emailProvider isEmail
                 draw now usr None "LOGIN" w in
    match fst out with
    | Fulfilled o =>
        (Fulfilled
           (successResponse 200 "Valid details. OTP sent"
              [("otp", JStr (otpCode o));
               ("expires_at", JNum (expiresIST o));
               ("user_id", JStr (user_id usr));
               ("login_type", req_login_type (req_body req))]),
         snd out)
    | Rejected e => internal_error cfg e (snd out)
    end
  else (Fulfilled (denied cfg), w).
Proof.
  intros Hup Hfound Hactive.
  unfold validateCredentials, try_catch, bind, lookup.
  rewrite query_up by exact Hup. rewrite Hfound, Hactive. simpl.
  destruct (verifyPassword _ _ _); simpl; [|reflexivity].
  destruct (createOtpForUser _ _ _ _ _ _ _ _ _ _) as [[o|e] w']; reflexivity.
Qed.

Lemma sendOtp_inactive draw now req w :
  db_up w = true ->
  isUserActive (findUserByMobileAndRole (req_mobile (req_body req))
                  (req_role (req_body req))) = false ->
  sendOtp cfg smsProvider emailProvider isEmail findUserByMobileAndRole
    draw now req w = (Fulfilled (denied cfg), w).
Proof.
  intros Hup Hinactive.
  unfold sendOtp, try_catch, bind, lookup.
  rewrite query_up by exact Hup. rewrite Hinactive. reflexivity.
Qed.

Lemma sendOtp_active draw now req w usr :
  db_up w = true ->
  findUserByMobileAndRole (req_mobile (req_body req))
    (req_role (req_body req)) = Some usr ->
  isUserActive (Some usr) = true ->
  exists r,
    fst (sendOtp cfg smsProvider emailProvider isEmail
           findUserByMobileAndRole draw now req w) = Fulfilled r
    /\ status r = 200.
Proof.
  intros Hup Hfound Hactive.
  unfold sendOtp, try_catch, bind, lookup.
  rewrite query_up by exact Hup. rewrite Hfound, Hactive. simpl.
  rewrite createOtpForUser_up by exact Hup. simpl.
  eexists. split; reflexivity.
Qed.

Lemma finalLogin_lookup req w :
  db_up w = true ->
  (if present (req_email (req_body req))
   then lookup (findUserByEmailAndRole (req_email (req_body req))
                  (req_role (req_body req)))
   else if present (req_mobile (req_body req))
   then lookup (findUserByMobileAndRole (req_mobile (req_body req))
                  (req_role (req_body req)))
   else ret None) w
  = (Fulfilled (resolved findUserByEmailAndRole findUserByMobileAndRole
     (req_body req)), w).
Proof.
  intros Hup. unfold resolved, lookup.
  destruct (present (req_email (req_body req)));
    [rewrite query_up by exact Hup; reflexivity|].
  destruct (present (req_mobile (req_body req)));
    [rewrite query_up by exact Hup; reflexivity|].
  reflexivity.
Qed.

Lemma finalLogin_inactive sid now req w :
  db_up w = true ->
  isUserActive (resolved findUserByEmailAndRole findUserByMobileAndRole
     (req_body req)) = false ->
  finalLogin cfg findUserByEmailAndRole findUserByMobileAndRole signJwt
    sid now req w = (Fulfilled (denied cfg), w).
Proof.
  intros Hup Hinactive.
  unfold finalLogin, try_catch, bind.
  rewrite finalLogin_lookup by exact Hup. rewrite Hinactive. reflexivity.
Qed.

(** Past the active check, [finalLogin] answers 400 without a phone,
    401 with the reason when the code is refused, and otherwise creates
    the session; the rows of [users_otps] are never touched. *)
Lemma finalLogin_active sid now req w usr :
  db_up w = true ->
  resolved findUserByEmailAndRole findUserByMobileAndRole
     (req_body req) = Some usr ->
  isUserActive (Some usr) = true ->
  let mobileToUse := or_else (req_mobile (req_body req)) (phone usr) in
  finalLogin cfg findUserByEmailAndRole findUserByMobileAndRole signJwt
    sid now req w =
  if negb (present mobileToUse)
  then (Fulfilled
          (errorResponse cfg 400
             "Mobile number is required for OTP verification" None), w)
  else
    match fst (verifyUserOtp now (user_id usr) (default "" mobileToUse)
                 (req_otp (req_body req)) w) with
    | Rejected e => internal_error cfg e w
    | Fulfilled (OtpInvalid reason) =>
        (Fulfilled (errorResponse cfg 401 ("Invalid OTP: " +:+ reason) None),
         w)
    | Fulfilled (OtpValid _) =>
        let token := signJwt (user_id usr) (email usr) (role usr) in
        let out := createSessionForUser cfg sid now (user_id usr) token
                     (normalizeIp req) (getUserAgent req) w in
        match fst out with
        | Fulfilled s =>
            (Fulfilled
               (successResponse 200 "Login successful"
                  [("session_id", JStr (sessionId s));
                   ("user_id", JStr (user_id usr));
                   ("token", JStr token);
                   ("expiry", JNum (expiresAt s));
                   ("role", JStr (role usr));
                   ("email", of_text (email usr));
                   ("session_status", JBool (is_active (dbRow s)))]),
             snd out)
        | Rejected e => internal_error cfg e (snd out)
        end
    end.
Proof.
  intros Hup Hfound Hactive. simpl.
  unfold finalLogin, try_catch, bind.
  rewrite finalLogin_lookup by exact Hup. rewrite Hfound, Hactive. simpl.
  destruct (negb (present _)); [reflexivity|].
  rewrite verifyUserOtp_up by exact Hup. simpl.
  destruct (select_latest_otp _ _ _) as [row|]; [|reflexivity].
  destruct (is_used row); [reflexivity|].
  destruct (otp_expires_at row <? now); [reflexivity|].
  destruct (negb _); [reflexivity|].
  destruct (createSessionForUser _ _ _ _ _ _ _ _) as [[s|e] w']; reflexivity.
Qed.

End Controller.

Section EntryPoints.

Variable cfg : Config.
Variable smsProvider : string -> string -> string -> completion unit.
Variable emailProvider : string -> string -> string -> completion unit.
Variable isEmail : string -> bool.
Variable findUserByEmailAndRole :
  option string -> option string -> option user.
Variable findUserByMobileAndRole :
  option string -> option string -> option user.
Variable signJwt : string -> option string -> string -> string.
Variable bcrypt_compare : jsval -> string -> completion bool.

(** C7. With the pool up, [validateCredentials] gives one and the same
    answer, status 401 with the message 'Invalid user credentials' and
    nothing else, when no identity matches the email and role, when the
    identity found is not active, and when the password does not verify;
    the store is left as it was in the three cases. *)
Theorem validateCredentials_undifferentiated draw now req w :
  db_up w = true ->
  let found := findUserByEmailAndRole (req_email (req_body req))
                 (req_role (req_body req)) in
  found = None
  \/ (exists u, found = Some u /\ isUserActive (Some u) = false)
  \/ (exists u, found = Some u /\ isUserActive (Some u) = true
                /\ verifyPassword bcrypt_compare
                     (req_password (req_body req)) (password_hash u)
                   = false) ->
  validateCredentials cfg smsProvider emailProvider isEmail
    findUserByEmailAndRole bcrypt_compare draw now req w
  = (Fulfilled {| status := 401; message := "Invalid user credentials";
                  fields := []; error := None |}, w).
Proof.
  intros Hup found Hcause. subst found.
  destruct Hcause as [Hnone | [(u & Hu & Hoff) | (u & Hu & Hon & Hpw)]].
  - apply validateCredentials_inactive; [exact Hup|].
    rewrite Hnone. reflexivity.
  - apply validateCredentials_inactive; [exact Hup|].
    rewrite Hu. exact Hoff.
  - rewrite (validateCredentials_active _ _ _ _ _ _ _ _ _ _ u Hup Hu Hon).
    rewrite Hpw. reflexivity.
Qed.

(** C8, as the code has it. The active check passes exactly when the
    flag, turned into text and trimmed, reads 'true': the boolean [true],
    or a text that is 'true' between white space; for a boolean flag that
    is its truth value. With the pool up, [sendOtp] and [finalLogin]
    answer 401 'Invalid user credentials' exactly when the identity they
    look up is absent or fails this check, and [validateCredentials]
    exactly when it does or the password does not verify. *)
Theorem active_check_is_textual sid draw now req w :
  db_up w = true ->
  let b := req_body req in
  let byEmail := findUserByEmailAndRole (req_email b) (req_role b) in
  let byMobile := findUserByMobileAndRole (req_mobile b) (req_role b) in
  (forall u, isUserActive (Some u) = true <->
             trim (String_ (user_is_active u)) = "true")
  /\ (forall u flag, user_is_active u = JBool flag ->
        isUserActive (Some u) = truthy (user_is_active u))
  /\ (fst (validateCredentials cfg smsProvider emailProvider isEmail
             findUserByEmailAndRole bcrypt_compare draw now req w)
      = Fulfilled (denied cfg) <->
      isUserActive byEmail = false
      \/ exists u, byEmail = Some u
                   /\ verifyPassword bcrypt_compare (req_password b)
                        (password_hash u) = false)
  /\ (fst (sendOtp cfg smsProvider emailProvider isEmail
             findUserByMobileAndRole draw now req w)
      = Fulfilled (denied cfg) <->
      isUserActive byMobile = false)
  /\ (fst (finalLogin cfg findUserByEmailAndRole findUserByMobileAndRole
             signJwt sid now req w)
      = Fulfilled (denied cfg) <->
      isUserActive
        (resolved findUserByEmailAndRole findUserByMobileAndRole b) = false).
Proof.
  intros Hup b byEmail byMobile. subst b byEmail byMobile.
  split; [apply isUserActive_text|].
  split.
  { intros u flag Hflag. rewrite (isUserActive_bool u flag Hflag), Hflag.
    reflexivity. }
  split; [|split].
  - destruct (isUserActive (findUserByEmailAndRole _ _)) eqn:Hact.
    + destruct (findUserByEmailAndRole _ _) as [u|] eqn:Hu;
        [|discriminate Hact].
      rewrite (validateCredentials_active _ _ _ _ _ _ _ _ _ _ u Hup Hu Hact).
      destruct (verifyPassword _ _ _) eqn:Hpw.
      * rewrite createOtpForUser_up by exact Hup. simpl. split.
        -- intros Heq. discriminate Heq.
        -- intros [Hoff | (u' & Hu' & Hpw')]; [discriminate Hoff|].
           injection Hu' as <-. rewrite Hpw in Hpw'. discriminate Hpw'.
      * split; [|reflexivity].
        intros _. right. exists u. split; [reflexivity | exact Hpw].
    + rewrite validateCredentials_inactive by assumption.
      split; [left; reflexivity | reflexivity].
  - destruct (isUserActive (findUserByMobileAndRole _ _)) eqn:Hact.
    + destruct (findUserByMobileAndRole _ _) as [u|] eqn:Hu;
        [|discriminate Hact].
      destruct (sendOtp_active cfg smsProvider emailProvider isEmail
                  findUserByMobileAndRole draw now req w u Hup Hu Hact)
        as (r & -> & Hr).
      split; [|intros Hoff; discriminate Hoff].
      intros Heq. injection Heq as ->. discriminate Hr.
    + rewrite sendOtp_inactive by assumption. split; reflexivity.
  - destruct (isUserActive (resolved _ _ _)) eqn:Hact.
    + destruct (resolved _ _ _) as [u|] eqn:Hu; [|discriminate Hact].
      rewrite (finalLogin_active _ _ _ _ _ _ _ _ u Hup Hu Hact).
      split; [|intros Hoff; discriminate Hoff].
      destruct (negb (present _)); [intros Heq; discriminate Heq|].
      destruct (fst (verifyUserOtp _ _ _ _ _)) as [[row|reason]|e].
      * simpl.
        match goal with
        | |- context [createSessionForUser ?c ?i ?t ?u ?k ?a ?g ?v] =>
            destruct (createSessionForUser c i t u k a g v) as [[s|e] w']
        end; simpl; intros Heq; discriminate Heq.
      * intros Heq. discriminate Heq.
      * intros Heq. discriminate Heq.
    + rewrite finalLogin_inactive by assumption. split; reflexivity.
Qed.

(** No path through [finalLogin] writes [users_otps]: the row that was
    verified is not marked used. *)
Lemma finalLogin_keeps_otps sid now req w :
  users_otps
    (snd (finalLogin cfg findUserByEmailAndRole findUserByMobileAndRole
            signJwt sid now req w))
  = users_otps w.
Proof.
  unfold finalLogin, try_catch, bind, lookup, ret, throw, internal_error,
    verifyUserOtp, createSessionForUser, insert_session, bind, query, ret.
  repeat case_match; simplify_eq; reflexivity.
Qed.

End EntryPoints.

Lemma validateCredentials_undifferentiated_witness :
  let run u email pw :=
    validateCredentials Sample.cfg Sample.console Sample.console Sample.has_at
      (Sample.byEmail u) Sample.bcrypt_compare 3821 Sample.T0
      (Sample.credentials_request email pw) Sample.empty in
  run Sample.alice "nobody@x.com" (JStr "s3cret")
  = run (Sample.identity (JBool false)) "a@x.com" (JStr "s3cret")
  /\ run (Sample.identity (JBool false)) "a@x.com" (JStr "s3cret")
     = run Sample.alice "a@x.com" (JStr "guess")
  /\ fst (run Sample.alice "a@x.com" (JStr "guess"))
     = Fulfilled {| status := 401; message := "Invalid user credentials";
                    fields := []; error := None |}.
Proof.
  intros run. subst run. cbv beta.
  assert (Hup : db_up Sample.empty = true) by reflexivity.
  rewrite (validateCredentials_undifferentiated Sample.cfg Sample.console
             Sample.console Sample.has_at (Sample.byEmail Sample.alice)
             Sample.bcrypt_compare 3821 Sample.T0
             (Sample.credentials_request "nobody@x.com" (JStr "s3cret"))
             Sample.empty Hup)
    by (left; vm_compute; reflexivity).
  rewrite (validateCredentials_undifferentiated Sample.cfg Sample.console
             Sample.console Sample.has_at
             (Sample.byEmail (Sample.identity (JBool false)))
             Sample.bcrypt_compare 3821 Sample.T0
             (Sample.credentials_request "a@x.com" (JStr "s3cret"))
             Sample.empty Hup)
    by (right; left; exists (Sample.identity (JBool false));
        split; vm_compute; reflexivity).
  rewrite (validateCredentials_undifferentiated Sample.cfg Sample.console
             Sample.console Sample.has_at (Sample.byEmail Sample.alice)
             Sample.bcrypt_compare 3821 Sample.T0
             (Sample.credentials_request "a@x.com" (JStr "guess"))
             Sample.empty Hup)
    by (right; right; exists Sample.alice;
        repeat split; vm_compute; reflexivity).
  repeat split.
Defined.

(** A flag that is truthy but does not read 'true' is refused: the number
    1 and the text '1' fail the check, and the three entry points answer
    'Invalid user credentials' for such an identity. *)
Lemma truthy_flag_refused :
  let u := Sample.identity (JNum 1) in
  truthy (user_is_active u) = true
  /\ isUserActive (Some u) = false
  /\ truthy (JStr "1") = true
  /\ isUserActive (Some (Sample.identity (JStr "1"))) = false
  /\ fst (validateCredentials Sample.cfg Sample.console Sample.console
            Sample.has_at (Sample.byEmail u) Sample.bcrypt_compare 3821
            Sample.T0 (Sample.credentials_request "a@x.com" (JStr "s3cret"))
            Sample.empty)
     = Fulfilled (denied Sample.cfg)
  /\ fst (sendOtp Sample.cfg Sample.console Sample.console Sample.has_at
            (Sample.byMobile u) 3821 Sample.T0
            (Sample.mobile_request "9000000001") Sample.empty)
     = Fulfilled (denied Sample.cfg)
  /\ fst (finalLogin Sample.cfg (Sample.byEmail u) (Sample.byMobile u)
            Sample.signJwt "s-1" (Sample.T0 + Sample.minutes 5)
            (Sample.login_request (JStr "4821")) Sample.issued)
     = Fulfilled (denied Sample.cfg).
Proof. vm_compute. repeat split. Qed.

Lemma active_check_is_textual_witness :
  let u := Sample.identity (JStr " true ") in
  isUserActive (Some u) = true
  /\ fst (sendOtp Sample.cfg Sample.console Sample.console Sample.has_at
            (Sample.byMobile (Sample.identity (JBool false))) 3821 Sample.T0
            (Sample.mobile_request "9000000001") Sample.empty)
     = Fulfilled (denied Sample.cfg)
  /\ fst (finalLogin Sample.cfg (Sample.byEmail u) (Sample.byMobile u)
            Sample.signJwt "s-1" (Sample.T0 + Sample.minutes 5)
            (Sample.login_request (JStr "4821")) Sample.issued)
     <> Fulfilled (denied Sample.cfg).
Proof.
  intros u. subst u.
  assert (Hup : db_up Sample.empty = true) by reflexivity.
  assert (Hup' : db_up Sample.issued = true) by reflexivity.
  destruct (active_check_is_textual Sample.cfg Sample.console Sample.console
              Sample.has_at (Sample.byEmail (Sample.identity (JBool false)))
              (Sample.byMobile (Sample.identity (JBool false)))
              Sample.signJwt Sample.bcrypt_compare "s-1" 3821 Sample.T0
              (Sample.mobile_request "9000000001") Sample.empty Hup)
    as (Htext & _ & _ & Hsend & _).
  destruct (active_check_is_textual Sample.cfg Sample.console Sample.console
              Sample.has_at (Sample.byEmail (Sample.identity (JStr " true ")))
              (Sample.byMobile (Sample.identity (JStr " true ")))
              Sample.signJwt Sample.bcrypt_compare "s-1" 3821
              (Sample.T0 + Sample.minutes 5)
              (Sample.login_request (JStr "4821")) Sample.issued Hup')
    as (_ & _ & _ & _ & Hfinal).
  split; [apply Htext; vm_compute; reflexivity|].
  split; [apply Hsend; vm_compute; reflexivity|].
  intros Hdenied. apply Hfinal in Hdenied. vm_compute in Hdenied.
  discriminate Hdenied.
Defined.

(** ** Replay of a verified code *)

(** A code that verified once verifies again: nothing between the two
    calls has marked the record used. *)
Lemma verifyUserOtp_repeatable now now' userId mobile otp w row :
  fst (verifyUserOtp now userId mobile otp w) = Fulfilled (OtpValid row) ->
  now' <= otp_expires_at row ->
  fst (verifyUserOtp now' userId mobile otp
         (snd (verifyUserOtp now userId mobile otp w)))
  = Fulfilled (OtpValid row).
Proof.
  intros Hfirst Hle. rewrite verifyUserOtp_store.
  destruct (db_up w) eqn:Hup.
  - rewrite verifyUserOtp_up in Hfirst |- * by exact Hup. simpl in *.
    destruct (select_latest_otp userId mobile w) as [r|]; [|discriminate].
    destruct (is_used r); [discriminate|].
    destruct (otp_expires_at r <? now); [discriminate|].
    destruct (negb _); [discriminate|].
    injection Hfirst as ->.
    apply Z.ltb_ge in Hle. rewrite Hle. reflexivity.
  - rewrite verifyUserOtp_down in Hfirst by exact Hup. discriminate.
Qed.

(** C1, on the code. Code 4821 is issued at T0 with the 10-minute TTL.
    [finalLogin] at T0 + 5 min with 4821 logs in; a second [finalLogin]
    with the same code logs in again, and the record is still not marked
    used, so [verifyUserOtp] accepts the code a third time instead of
    answering [otp_used]. *)
Theorem finalLogin_replay_accepted :
  let t := Sample.T0 + Sample.minutes 5 in
  let login sid w :=
    finalLogin Sample.cfg (Sample.byEmail Sample.alice)
      (Sample.byMobile Sample.alice) Sample.signJwt sid t
      (Sample.login_request (JStr "4821")) w in
  let first := login "s-1" Sample.issued in
  let second := login "s-2" (snd first) in
  (exists r, fst first = Fulfilled r /\ status r = 200
             /\ message r = "Login successful")
  /\ (exists r, fst second = Fulfilled r /\ status r = 200
                /\ message r = "Login successful")
  /\ users_otps (snd second) = [Sample.the_row]
  /\ is_used Sample.the_row = false
  /\ fst (verifyUserOtp t "u-1" "9000000001" (JStr "4821") (snd second))
     = Fulfilled (OtpValid Sample.the_row)
  /\ fst (verifyUserOtp t "u-1" "9000000001" (JStr "4821") (snd second))
     <> Fulfilled (OtpInvalid "otp_used").
Proof.
  vm_compute.
  split; [eexists; repeat split|].
  split; [eexists; repeat split|].
  repeat split. discriminate.
Qed.

(** ** Issue, then verify *)

(** The row just inserted is the one [verifyUserOtp] will look at, as long
    as no stored row claims a later creation time. *)
Lemma select_latest_otp_inserted userId mobile w r next ds :
  otp_where userId mobile r = true ->
  (forall r', r' ∈ users_otps w -> otp_created_at r' <= otp_created_at r) ->
  select_latest_otp userId mobile
    (set_outbox (set_otps w (users_otps w ++ [r]) next) ds) = Some r.
Proof.
  intros Hmatch Hold. unfold select_latest_otp. simpl.
  rewrite filter_app, fold_left_app.
  rewrite filter_cons_True by exact Hmatch. rewrite filter_nil. simpl.
  destruct (fold_left newest _ None) as [a|] eqn:Hacc; [|reflexivity].
  apply fold_newest_Some in Hacc as ([Hin|Habs] & _ & _); [|discriminate].
  apply list_elem_of_filter in Hin as [_ Hin]. simpl.
  specialize (Hold a Hin). apply Z.ltb_ge in Hold. rewrite Hold. reflexivity.
Qed.

(** X2. Round trip: a LOGIN code issued to a phone, verified against the
    store the issuance left, is accepted up to and including its expiry
    and answered [otp_expired] after it, the right code included. *)
Lemma issue_then_verify
    cfg smsProvider emailProvider isEmail draw now0 u explicitMobile w now :
  db_up w = true ->
  present (or_else explicitMobile (phone u)) = true ->
  (forall r', r' ∈ users_otps w -> otp_created_at r' <= now0) ->
  let out := createOtpForUser cfg smsProvider emailProvider isEmail draw now0
               u explicitMobile "LOGIN" w in
  let mobile := default "" (or_else explicitMobile (phone u)) in
  let expiry :=
    now0 + (if otp_ttlMinutes cfg =? 0 then 30 else otp_ttlMinutes cfg)
           * 60000 in
  exists o,
    fst out = Fulfilled o /\ expiresUTC o = expiry
    /\ (now <= expiry ->
        fst (verifyUserOtp now (user_id u) mobile (JStr (otpCode o)) (snd out))
        = Fulfilled (OtpValid (row o)))
    /\ (expiry < now ->
        fst (verifyUserOtp now (user_id u) mobile (JStr (otpCode o)) (snd out))
        = Fulfilled (OtpInvalid "otp_expired")).
Proof.
  intros Hup Hphone Hold. simpl.
  rewrite createOtpForUser_up by exact Hup. simpl.
  eexists. split; [reflexivity|]. split; [reflexivity|]. simpl.
  rewrite verifyUserOtp_up by exact Hup. simpl.
  rewrite select_latest_otp_inserted.
  - simpl. split.
    + intros Hle. apply Z.ltb_ge in Hle. rewrite Hle.
      rewrite String.eqb_refl. reflexivity.
    + intros Hlt. apply Z.ltb_lt in Hlt. rewrite Hlt. reflexivity.
  - unfold otp_where. simpl.
    destruct (or_else explicitMobile (phone u)) as [m|]; [|discriminate].
    simpl. rewrite !bool_decide_eq_true_2 by reflexivity. reflexivity.
  - exact Hold.
Qed.

(** A phone without a digit: the SMS call throws 'Invalid phone number',
    the email goes out, and the issuance completes. *)
Example issuance_survives_bad_phone :
  let u := {| user_id := "u-2"; email := Some "b@x.com"; phone := Some "n/a";
              password_hash := None; role := "USER";
              user_is_active := JBool true |} in
  let out := createOtpForUser Sample.cfg Sample.console Sample.console
               Sample.has_at 0 Sample.T0 u None "LOGIN" Sample.empty in
  match fst out with
  | Fulfilled o => otpCode o = "1000"
  | Rejected _ => False
  end
  /\ outcome <$> outbox (snd out)
     = [Rejected "Invalid phone number"; Fulfilled tt].
Proof. vm_compute. split; reflexivity. Qed.

Section Replay.

Variable cfg : Config.
Variable findUserByEmailAndRole :
  option string -> option string -> option user.
Variable findUserByMobileAndRole :
  option string -> option string -> option user.
Variable signJwt : string -> option string -> string -> string.

Lemma finalLogin_down sid now req w r :
  db_up w = false ->
  fst (finalLogin cfg findUserByEmailAndRole findUserByMobileAndRole signJwt
         sid now req w) = Fulfilled r ->
  status r <> 200.
Proof.
  intros Hdown.
  unfold finalLogin, try_catch, bind, lookup, query, internal_error, ret.
  destruct (present (req_email (req_body req)));
    [rewrite Hdown; simpl; intros Hr; injection Hr as <-; discriminate|].
  destruct (present (req_mobile (req_body req)));
    rewrite ?Hdown; simpl; intros Hr; injection Hr as <-; discriminate.
Qed.

(** X17. Whenever [finalLogin] has logged a request in, the same request
    with the same code, at the same clock reading, logs in again under any
    unused session id. *)
Lemma finalLogin_replay sid sid' now req w r :
  fst (finalLogin cfg findUserByEmailAndRole findUserByMobileAndRole signJwt
         sid now req w) = Fulfilled r ->
  status r = 200 ->
  let w' := snd (finalLogin cfg findUserByEmailAndRole findUserByMobileAndRole
                   signJwt sid now req w) in
  user_sessions w' !! sid' = None ->
  exists r',
    fst (finalLogin cfg findUserByEmailAndRole findUserByMobileAndRole signJwt
           sid' now req w') = Fulfilled r'
    /\ status r' = 200.
Proof.
  intros Hfirst Hok.
  destruct (db_up w) eqn:Hup;
    [|exfalso; exact (finalLogin_down _ _ _ _ _ Hup Hfirst Hok)].
  destruct (isUserActive
              (resolved findUserByEmailAndRole findUserByMobileAndRole
                 (req_body req))) eqn:Hact.
  2: { rewrite finalLogin_inactive in Hfirst by assumption.
       injection Hfirst as <-. discriminate Hok. }
  destruct (resolved findUserByEmailAndRole findUserByMobileAndRole
              (req_body req)) as [u|] eqn:Hu; [|discriminate Hact].
  rewrite (finalLogin_active _ _ _ _ _ _ _ _ u Hup Hu Hact) in Hfirst |- *.
  destruct (negb (present (or_else (req_mobile (req_body req)) (phone u))))
    eqn:Hphone.
  { injection Hfirst as <-. discriminate Hok. }
  rewrite verifyUserOtp_up in Hfirst |- * by exact Hup. simpl in Hfirst |- *.
  destruct (select_latest_otp _ _ w) as [row|] eqn:Hsel.
  2: { injection Hfirst as <-. discriminate Hok. }
  destruct (is_used row) eqn:Hused.
  { injection Hfirst as <-. discriminate Hok. }
  destruct (otp_expires_at row <? now) eqn:Hexp.
  { injection Hfirst as <-. discriminate Hok. }
  destruct (negb (String.eqb _ _)) eqn:Hcode.
  { injection Hfirst as <-. discriminate Hok. }
  destruct (user_sessions w !! sid) as [old|] eqn:Hsid.
  { unfold createSessionForUser, insert_session, bind, query in Hfirst.
    rewrite Hup, Hsid in Hfirst. simpl in Hfirst.
    injection Hfirst as <-. discriminate Hok. }
  rewrite createSessionForUser_up in Hfirst |- * by assumption.
  simpl in Hfirst |- *. intros Hfresh.
  match goal with
  | |- context [finalLogin _ _ _ _ _ _ _ ?v] => set (w1 := v) in *
  end.
  assert (Hup1 : db_up w1 = true) by exact Hup.
  rewrite (finalLogin_active _ _ _ _ _ _ _ _ u Hup1 Hu Hact).
  rewrite Hphone.
  rewrite verifyUserOtp_up by exact Hup1. simpl.
  replace (select_latest_otp (user_id u)
             (default "" (or_else (req_mobile (req_body req)) (phone u))) w1)
    with (Some row) by (rewrite <- Hsel; reflexivity).
  rewrite Hused, Hexp, Hcode.
  rewrite createSessionForUser_up by assumption. simpl.
  eexists. split; reflexivity.
Qed.

End Replay.


(** * Further properties *)

(** ** Texts *)

Lemma str_app_cons (a : ascii) (s1 s2 : string) :
  String a s1 +:+ s2 = String a (s1 +:+ s2).
Proof. reflexivity. Qed.








Section Stripping.

Variable w1 : ascii -> bool.
Variable w2 : ascii -> ascii -> bool.
Variable w3 : ascii -> ascii -> ascii -> bool.






End Stripping.


(** What [trim] removes is a blank at either end; blanks inside stay. *)
Example trim_unicode :
  trim (Cases.nbsp +:+ " 48 21" +:+ Cases.bom +:+ Cases.nbsp) = "48 21"
  /\ trim ("48" +:+ Cases.nbsp +:+ "21") = "48" +:+ Cases.nbsp +:+ "21".
Proof. vm_compute. split; reflexivity. Qed.

(** ** generateOtp *)

Lemma generateOtp_checked :
  forallb (fun d => four_digit_code (generateOtp d)) (seqZ 0 9000) = true.
Proof. vm_compute. reflexivity. Qed.

Lemma generateOtp_shape draw :
  0 <= draw < 9000 -> four_digit_code (generateOtp draw) = true.
Proof.
  intros Hrange. pose proof generateOtp_checked as Hall.
  rewrite forallb_forall in Hall. apply Hall.
  apply list_elem_of_In, elem_of_seqZ. lia.
Qed.

Lemma generateOtp_trim_checked :
  forallb (fun d => String.eqb (trim (generateOtp d)) (generateOtp d))
    (seqZ 0 9000) = true.
Proof. vm_compute. reflexivity. Qed.

Lemma generateOtp_trim draw :
  0 <= draw < 9000 -> trim (generateOtp draw) = generateOtp draw.
Proof.
  intros Hrange. pose proof generateOtp_trim_checked as Hall.
  rewrite forallb_forall in Hall. apply String.eqb_eq. apply Hall.
  apply list_elem_of_In, elem_of_seqZ. lia.
Qed.

Lemma generateOtp_inj draw draw' :
  generateOtp draw' = generateOtp draw -> draw' = draw.
Proof. unfold generateOtp. intros Heq. apply (inj pretty) in Heq. lia. Qed.

(** X1. Whenever the floored number lies from 1000 to 9999, that is for
    every [draw] from 0 to 8999, [generateOtp] gives four decimal digits,
    the first of them not 0, which [trim] leaves as they are. *)
Theorem generateOtp_four_digits draw :
  0 <= draw < 9000 ->
  four_digit_code (generateOtp draw) = true
  /\ String.length (generateOtp draw) = 4%nat
  /\ trim (generateOtp draw) = generateOtp draw.
Proof.
  intros Hrange.
  pose proof (generateOtp_shape draw Hrange) as Hshape.
  split; [exact Hshape|].
  unfold four_digit_code in Hshape.
  apply andb_prop in Hshape as [Hshape _].
  apply andb_prop in Hshape as [Hlen _].
  split; [apply Nat.eqb_eq; exact Hlen|].
  apply generateOtp_trim; exact Hrange.
Qed.

Lemma generateOtp_four_digits_witness :
  four_digit_code (generateOtp 0) = true
  /\ trim (generateOtp 8999) = generateOtp 8999.
Proof.
  destruct (generateOtp_four_digits 0) as (Hshape & _); [lia|].
  destruct (generateOtp_four_digits 8999) as (_ & _ & Htrim); [lia|].
  split; assumption.
Defined.

(** ** Issuing codes *)

Section Codes.

Variable cfg : Config.
Variable smsProvider : string -> string -> string -> completion unit.
Variable emailProvider : string -> string -> string -> completion unit.
Variable isEmail : string -> bool.

Lemma createOtpForUser_down draw now u explicitMobile otpType w :
  db_up w = false ->
  createOtpForUser cfg smsProvider emailProvider isEmail draw now u
    explicitMobile otpType w = (Rejected "connection refused", w).
Proof.
  intros Hdown. unfold createOtpForUser, insert_otp, bind, query.
  rewrite Hdown. reflexivity.
Qed.

(** The store an issuance leaves when the pool is up. *)
Lemma createOtpForUser_store draw now u explicitMobile otpType w :
  db_up w = true ->
  snd (createOtpForUser cfg smsProvider emailProvider isEmail draw now u
         explicitMobile otpType w)
  = set_outbox
      (set_otps w
         (users_otps w
          ++ [issued_row cfg draw now u explicitMobile otpType w])
         (otp_seq w + 1))
      (outbox w
       ++ attempts smsProvider emailProvider isEmail
            (or_else explicitMobile (phone u)) (email u) (generateOtp draw)
            otpType).
Proof.
  intros Hup. rewrite createOtpForUser_up by exact Hup. reflexivity.
Qed.

Lemma createOtpForUser_result draw now u explicitMobile otpType w :
  db_up w = true ->
  exists o,
    fst (createOtpForUser cfg smsProvider emailProvider isEmail draw now u
           explicitMobile otpType w) = Fulfilled o
    /\ otpCode o = generateOtp draw
    /\ row o = issued_row cfg draw now u explicitMobile otpType w.
Proof.
  intros Hup. rewrite createOtpForUser_up by exact Hup.
  eexists. repeat split.
Qed.

(** A row that does not match the key is not seen by the selection. *)
Lemma select_latest_otp_skipped userId mobile w r next ds :
  otp_where userId mobile r = false ->
  select_latest_otp userId mobile
    (set_outbox (set_otps w (users_otps w ++ [r]) next) ds)
  = select_latest_otp userId mobile w.
Proof.
  intros Hother. unfold select_latest_otp. simpl.
  rewrite filter_app, filter_cons_False, filter_nil, app_nil_r;
    [reflexivity|].
  rewrite Hother. discriminate.
Qed.

Lemma issued_row_matches draw now u explicitMobile w :
  present (or_else explicitMobile (phone u)) = true ->
  otp_where (user_id u) (default "" (or_else explicitMobile (phone u)))
    (issued_row cfg draw now u explicitMobile "LOGIN" w) = true.
Proof.
  intros Hphone. unfold otp_where. simpl.
  destruct (or_else explicitMobile (phone u)) as [m|]; [|discriminate].
  simpl. rewrite !bool_decide_eq_true_2 by reflexivity. reflexivity.
Qed.

(** After a LOGIN issuance to a phone, the new row is the one selected for
    (user, phone), and no stored row is newer than the issuance. *)
Lemma createOtpForUser_latest draw now u explicitMobile w :
  db_up w = true ->
  present (or_else explicitMobile (phone u)) = true ->
  (forall r', r' ∈ users_otps w -> otp_created_at r' <= now) ->
  let w' := snd (createOtpForUser cfg smsProvider emailProvider isEmail draw
                   now u explicitMobile "LOGIN" w) in
  db_up w' = true
  /\ select_latest_otp (user_id u)
       (default "" (or_else explicitMobile (phone u))) w'
     = Some (issued_row cfg draw now u explicitMobile "LOGIN" w)
  /\ forall r', r' ∈ users_otps w' -> otp_created_at r' <= now.
Proof.
  intros Hup Hphone Hold. simpl.
  rewrite createOtpForUser_store by exact Hup.
  split; [exact Hup|]. split.
  - apply select_latest_otp_inserted; [apply issued_row_matches; exact Hphone|].
    exact Hold.
  - simpl. intros r' Hin. apply elem_of_app in Hin as [Hin|Hin].
    + apply Hold. exact Hin.
    + apply list_elem_of_singleton in Hin. subst r'. simpl. lia.
Qed.

End Codes.

Lemma issue_then_verify_witness :
  exists o,
    fst (createOtpForUser Sample.cfg Sample.console Sample.console
           Sample.has_at 3821 Sample.T0 Sample.alice None "LOGIN"
           Sample.empty) = Fulfilled o
    /\ fst (verifyUserOtp (Sample.T0 + Sample.minutes 5) "u-1" "9000000001"
              (JStr (otpCode o)) Sample.issued)
       = Fulfilled (OtpValid (row o))
    /\ fst (verifyUserOtp (Sample.T0 + Sample.minutes 11) "u-1" "9000000001"
              (JStr (otpCode o)) Sample.issued)
       = Fulfilled (OtpInvalid "otp_expired").
Proof.
  assert (Hup : db_up Sample.empty = true) by reflexivity.
  assert (Hphone : present (or_else None (phone Sample.alice)) = true)
    by reflexivity.
  assert (Hold : forall r', r' ∈ users_otps Sample.empty ->
                            otp_created_at r' <= Sample.T0).
  { intros r' Hin. apply not_elem_of_nil in Hin. destruct Hin. }
  destruct (issue_then_verify Sample.cfg Sample.console Sample.console
              Sample.has_at 3821 Sample.T0 Sample.alice None Sample.empty
              (Sample.T0 + Sample.minutes 5) Hup Hphone Hold)
    as (o & Ho & _ & Hvalid & _).
  destruct (issue_then_verify Sample.cfg Sample.console Sample.console
              Sample.has_at 3821 Sample.T0 Sample.alice None Sample.empty
              (Sample.T0 + Sample.minutes 11) Hup Hphone Hold)
    as (o' & Ho' & _ & _ & Hexpired).
  rewrite Ho in Ho'. injection Ho' as <-.
  exists o. split; [exact Ho|]. split.
  - apply Hvalid. vm_compute. discriminate.
  - apply Hexpired. vm_compute. reflexivity.
Defined.

(** X3. A newer code supersedes the older one: after two LOGIN issuances
    to the same user and phone, the second at or after the first, the
    store accepts the second code up to its expiry and answers
    [otp_mismatch] to the first, though the first has not expired. *)
Theorem newer_code_supersedes
    cfg smsProvider emailProvider isEmail d1 d2 t1 t2 u explicitMobile w now :
  db_up w = true ->
  present (or_else explicitMobile (phone u)) = true ->
  (forall r', r' ∈ users_otps w -> otp_created_at r' <= t1) ->
  t1 <= t2 ->
  0 <= d1 < 9000 -> 0 <= d2 < 9000 -> d1 <> d2 ->
  let issue d t := createOtpForUser cfg smsProvider emailProvider isEmail d t
                     u explicitMobile "LOGIN" in
  let w1 := snd (issue d1 t1 w) in
  let w2 := snd (issue d2 t2 w1) in
  let mobile := default "" (or_else explicitMobile (phone u)) in
  now <= t2 + (if otp_ttlMinutes cfg =? 0 then 30 else otp_ttlMinutes cfg)
              * 60000 ->
  fst (verifyUserOtp now (user_id u) mobile (JStr (generateOtp d1)) w2)
  = Fulfilled (OtpInvalid "otp_mismatch")
  /\ fst (verifyUserOtp now (user_id u) mobile (JStr (generateOtp d2)) w2)
     = Fulfilled
         (OtpValid (issued_row cfg d2 t2 u explicitMobile "LOGIN" w1)).
Proof.
  intros Hup Hphone Hold Hle Hd1 Hd2 Hne issue w1 w2 mobile Hnow.
  subst issue mobile. cbv beta in w1, w2.
  destruct (createOtpForUser_latest cfg smsProvider emailProvider isEmail
              d1 t1 u explicitMobile w Hup Hphone Hold) as (Hup1 & _ & Hold1).
  fold w1 in Hup1, Hold1.
  assert (Hold1' : forall r', r' ∈ users_otps w1 -> otp_created_at r' <= t2).
  { intros r' Hin. specialize (Hold1 r' Hin). lia. }
  destruct (createOtpForUser_latest cfg smsProvider emailProvider isEmail
              d2 t2 u explicitMobile w1 Hup1 Hphone Hold1')
    as (Hup2 & Hsel & _).
  fold w2 in Hup2, Hsel.
  rewrite !verifyUserOtp_up by exact Hup2. simpl. rewrite Hsel. simpl.
  apply Z.ltb_ge in Hnow. rewrite Hnow.
  rewrite (generateOtp_trim d1 Hd1), (generateOtp_trim d2 Hd2).
  rewrite String.eqb_refl. simpl.
  split; [|reflexivity].
  destruct (String.eqb_spec (generateOtp d2) (generateOtp d1)) as [Heq|_];
    [|reflexivity].
  apply generateOtp_inj in Heq. congruence.
Qed.

Lemma newer_code_supersedes_witness :
  let issue d t := createOtpForUser Sample.cfg Sample.console Sample.console
                     Sample.has_at d t Sample.alice None "LOGIN" in
  let w2 := snd (issue 4 (Sample.T0 + Sample.minutes 1) Sample.issued) in
  fst (verifyUserOtp (Sample.T0 + Sample.minutes 5) "u-1" "9000000001"
         (JStr "4821") w2)
  = Fulfilled (OtpInvalid "otp_mismatch")
  /\ exists r,
       fst (verifyUserOtp (Sample.T0 + Sample.minutes 5) "u-1" "9000000001"
              (JStr "1004") w2) = Fulfilled (OtpValid r)
       /\ otp_code r = "1004".
Proof.
  intros issue w2. subst issue w2. cbv beta.
  destruct (newer_code_supersedes Sample.cfg Sample.console Sample.console
              Sample.has_at 3821 4 Sample.T0 (Sample.T0 + Sample.minutes 1)
              Sample.alice None Sample.empty (Sample.T0 + Sample.minutes 5))
    as (Hold & Hnew).
  - reflexivity.
  - reflexivity.
  - intros r' Hin. apply not_elem_of_nil in Hin. destruct Hin.
  - vm_compute. discriminate.
  - lia.
  - lia.
  - lia.
  - vm_compute. discriminate.
  - split; [exact Hold|]. eexists. split; [exact Hnew|]. vm_compute.
    reflexivity.
Defined.


(** A no-break space after the code, or a byte order mark before it, is
    such white space. *)
Example padded_code_accepted :
  fst (verifyUserOtp (Sample.T0 + Sample.minutes 5) "u-1" "9000000001"
         (JStr ("4821" +:+ Cases.nbsp)) Sample.issued)
  = Fulfilled (OtpValid Sample.the_row)
  /\ fst (verifyUserOtp (Sample.T0 + Sample.minutes 5) "u-1" "9000000001"
            (JStr (Cases.bom +:+ " 4821")) Sample.issued)
     = Fulfilled (OtpValid Sample.the_row).
Proof. vm_compute. split; reflexivity. Qed.

(** X5. A code issued for another purpose than LOGIN, for another user or
    for another phone does not touch a verification: [verifyUserOtp] for
    (user, phone) answers after such an issuance what it answered before,
    whether the pool is up or down. *)
Theorem createOtpForUser_other_key
    cfg smsProvider emailProvider isEmail draw now u explicitMobile otpType w
    t userId mobile otp :
  otpType <> "LOGIN" \/ user_id u <> userId
  \/ or_else explicitMobile (phone u) <> Some mobile ->
  fst (verifyUserOtp t userId mobile otp
         (snd (createOtpForUser cfg smsProvider emailProvider isEmail draw
                 now u explicitMobile otpType w)))
  = fst (verifyUserOtp t userId mobile otp w).
Proof.
  intros Hother.
  destruct (db_up w) eqn:Hup.
  - rewrite createOtpForUser_store by exact Hup.
    rewrite !verifyUserOtp_up by exact Hup. simpl.
    rewrite select_latest_otp_skipped; [reflexivity|].
    unfold otp_where. simpl.
    destruct Hother as [Htype | [Huser | Hphone]].
    + rewrite (bool_decide_eq_false_2 (otpType = "LOGIN")) by exact Htype.
      apply andb_false_r.
    + rewrite (bool_decide_eq_false_2 (user_id u = userId)) by exact Huser.
      reflexivity.
    + rewrite (bool_decide_eq_false_2 _ Hphone). apply andb_false_iff. left.
      apply andb_false_r.
  - rewrite createOtpForUser_down by exact Hup. reflexivity.
Qed.

Lemma createOtpForUser_other_key_witness :
  fst (verifyUserOtp (Sample.T0 + Sample.minutes 5) "u-1" "9000000001"
         (JStr "1004")
         (snd (createOtpForUser Sample.cfg Sample.console Sample.console
                 Sample.has_at 4 (Sample.T0 + Sample.minutes 1) Sample.alice
                 None "PASSWORD_RESET" Sample.issued)))
  = Fulfilled (OtpInvalid "otp_mismatch").
Proof.
  rewrite (createOtpForUser_other_key Sample.cfg Sample.console
             Sample.console Sample.has_at 4 (Sample.T0 + Sample.minutes 1)
             Sample.alice None "PASSWORD_RESET" Sample.issued
             (Sample.T0 + Sample.minutes 5) "u-1" "9000000001" (JStr "1004"))
    by (left; discriminate).
  vm_compute. reflexivity.
Defined.

(** ** What the entry points answer and write *)

Lemma createSessionForUser_cases cfg sid now userId token ip userAgent w :
  (exists e,
     createSessionForUser cfg sid now userId token ip userAgent w
     = (Rejected e, w))
  \/ (db_up w = true /\ user_sessions w !! sid = None).
Proof.
  unfold createSessionForUser, insert_session, bind, query.
  destruct (db_up w); [|left; eexists; reflexivity].
  destruct (user_sessions w !! sid); [left; eexists; reflexivity|].
  right. split; reflexivity.
Qed.

Lemma internal_error_shape cfg e :
  let r := errorResponse cfg 500 "Internal server error" (Some e) in
  status r = 500 /\ fields r = []
  /\ (development cfg = false -> error r = None).
Proof.
  simpl. repeat split. intros Hprod. rewrite Hprod, andb_false_r. reflexivity.
Qed.

Lemma answers_failure cfg (h : M response) w r :
  h w = (Fulfilled r, w) ->
  status r = 400 \/ status r = 401 \/ status r = 500 ->
  fields r = [] ->
  (development cfg = false -> error r = None) ->
  answers cfg h w.
Proof.
  intros Hrun Hstatus Hfields Herror. exists r. rewrite Hrun. simpl.
  split; [reflexivity|]. split; [right; exact Hstatus|].
  split; [exact Herror|]. split; [auto|]. apply effect_none.
Qed.

Lemma answers_denied cfg (h : M response) w :
  h w = (Fulfilled (denied cfg), w) -> answers cfg h w.
Proof.
  intros Hrun. apply (answers_failure cfg h w (denied cfg) Hrun).
  - right. left. reflexivity.
  - reflexivity.
  - reflexivity.
Qed.

Lemma answers_internal_error cfg (h : M response) w e :
  h w = internal_error cfg e w -> answers cfg h w.
Proof.
  intros Hrun. destruct (internal_error_shape cfg e) as (Hs & Hf & He).
  apply (answers_failure cfg h w _ Hrun); auto.
Qed.

Section Answers.

Variable cfg : Config.
Variable smsProvider : string -> string -> string -> completion unit.
Variable emailProvider : string -> string -> string -> completion unit.
Variable isEmail : string -> bool.
Variable findUserByEmailAndRole :
  option string -> option string -> option user.
Variable findUserByMobileAndRole :
  option string -> option string -> option user.
Variable signJwt : string -> option string -> string -> string.
Variable bcrypt_compare : jsval -> string -> completion bool.

Lemma validateCredentials_down draw now req w :
  db_up w = false ->
  validateCredentials cfg smsProvider emailProvider isEmail
    findUserByEmailAndRole bcrypt_compare draw now req w
  = internal_error cfg "connection refused" w.
Proof.
  intros Hdown. unfold validateCredentials, try_catch, bind, lookup, query.
  rewrite Hdown. reflexivity.
Qed.

Lemma sendOtp_down draw now req w :
  db_up w = false ->
  sendOtp cfg smsProvider emailProvider isEmail findUserByMobileAndRole
    draw now req w
  = internal_error cfg "connection refused" w.
Proof.
  intros Hdown. unfold sendOtp, try_catch, bind, lookup, query.
  rewrite Hdown. reflexivity.
Qed.

Lemma finalLogin_offline sid now req w :
  db_up w = false ->
  finalLogin cfg findUserByEmailAndRole findUserByMobileAndRole signJwt
    sid now req w
  = if present (req_email (req_body req))
       || present (req_mobile (req_body req))
    then internal_error cfg "connection refused" w
    else (Fulfilled (denied cfg), w).
Proof.
  intros Hdown. unfold finalLogin, try_catch, bind, lookup, query.
  destruct (present (req_email (req_body req)));
    [rewrite Hdown; reflexivity|].
  destruct (present (req_mobile (req_body req)));
    [rewrite Hdown; reflexivity|].
  reflexivity.
Qed.

Lemma answers_issued (h : M response) draw now usr explicitMobile w r :
  db_up w = true ->
  h w = (Fulfilled r,
         snd (createOtpForUser cfg smsProvider emailProvider isEmail draw now
                usr explicitMobile "LOGIN" w)) ->
  status r = 200 ->
  error r = None ->
  answers cfg h w.
Proof.
  intros Hup Hrun Hstatus Herror. exists r. rewrite Hrun. simpl.
  split; [reflexivity|]. split; [left; exact Hstatus|].
  split; [intros _; exact Herror|].
  split; [intros Habs; contradiction|].
  rewrite createOtpForUser_store by exact Hup.
  apply effect_code. split; reflexivity.
Qed.

Lemma validateCredentials_answers draw now req w :
  answers cfg
    (validateCredentials cfg smsProvider emailProvider isEmail
       findUserByEmailAndRole bcrypt_compare draw now req) w.
Proof.
  destruct (db_up w) eqn:Hup;
    [|eapply answers_internal_error, validateCredentials_down; exact Hup].
  destruct (isUserActive
              (findUserByEmailAndRole (req_email (req_body req))
                 (req_role (req_body req)))) eqn:Hact;
    [|apply answers_denied, validateCredentials_inactive; assumption].
  destruct (findUserByEmailAndRole (req_email (req_body req))
              (req_role (req_body req))) as [u|] eqn:Hu; [|discriminate Hact].
  pose proof (validateCredentials_active cfg smsProvider emailProvider isEmail
                findUserByEmailAndRole bcrypt_compare draw now req w u
                Hup Hu Hact) as Hrun.
  destruct (verifyPassword bcrypt_compare (req_password (req_body req))
              (password_hash u)); [|apply answers_denied; exact Hrun].
  cbv zeta in Hrun.
  destruct (createOtpForUser_result cfg smsProvider emailProvider isEmail
              draw now u None "LOGIN" w Hup) as (o & Ho & _).
  rewrite Ho in Hrun.
  eapply answers_issued; [exact Hup | exact Hrun | reflexivity | reflexivity].
Qed.

Lemma sendOtp_answers draw now req w :
  answers cfg
    (sendOtp cfg smsProvider emailProvider isEmail findUserByMobileAndRole
       draw now req) w.
Proof.
  destruct (db_up w) eqn:Hup;
    [|eapply answers_internal_error, sendOtp_down; exact Hup].
  destruct (isUserActive
              (findUserByMobileAndRole (req_mobile (req_body req))
                 (req_role (req_body req)))) eqn:Hact;
    [|apply answers_denied, sendOtp_inactive; assumption].
  destruct (findUserByMobileAndRole (req_mobile (req_body req))
              (req_role (req_body req))) as [u|] eqn:Hu; [|discriminate Hact].
  destruct (createOtpForUser_result cfg smsProvider emailProvider isEmail
              draw now u (req_mobile (req_body req)) "LOGIN" w Hup)
    as (o & Ho & _).
  assert (Hrun :
    sendOtp cfg smsProvider emailProvider isEmail findUserByMobileAndRole
      draw now req w
    = (Fulfilled
         (successResponse 200 "OTP sent"
            [("otp", JStr (otpCode o)); ("expires_at", JNum (expiresIST o));
             ("user_id", JStr (user_id u));
             ("login_type", req_login_type (req_body req))]),
       snd (createOtpForUser cfg smsProvider emailProvider isEmail draw now
              u (req_mobile (req_body req)) "LOGIN" w))).
  { unfold sendOtp, try_catch, bind, lookup.
    rewrite query_up by exact Hup. rewrite Hu, Hact. simpl.
    destruct (createOtpForUser _ _ _ _ _ _ _ _ _ _) as [c w'] eqn:Hc.
    simpl in Ho. rewrite Ho. reflexivity. }
  eapply answers_issued; [exact Hup | exact Hrun | reflexivity | reflexivity].
Qed.

Lemma finalLogin_answers sid now req w :
  answers cfg
    (finalLogin cfg findUserByEmailAndRole findUserByMobileAndRole signJwt
       sid now req) w.
Proof.
  destruct (db_up w) eqn:Hup.
  2: { pose proof (finalLogin_offline sid now req w Hup) as Hrun.
       destruct (present (req_email (req_body req))
                 || present (req_mobile (req_body req))).
       - eapply answers_internal_error. exact Hrun.
       - apply answers_denied. exact Hrun. }
  destruct (isUserActive
              (resolved findUserByEmailAndRole findUserByMobileAndRole
                 (req_body req))) eqn:Hact;
    [|apply answers_denied, finalLogin_inactive; assumption].
  destruct (resolved findUserByEmailAndRole findUserByMobileAndRole
              (req_body req)) as [u|] eqn:Hu; [|discriminate Hact].
  pose proof (finalLogin_active cfg findUserByEmailAndRole
                findUserByMobileAndRole signJwt sid now req w u Hup Hu Hact)
    as Hrun.
  cbv zeta in Hrun.
  destruct (negb (present (or_else (req_mobile (req_body req)) (phone u)))).
  { apply (answers_failure cfg _ w _ Hrun); [left|..]; reflexivity. }
  rewrite verifyUserOtp_up in Hrun by exact Hup. simpl in Hrun.
  match type of Hrun with
  | _ = match ?v with _ => _ end => destruct v as [row|reason]
  end.
  2: { apply (answers_failure cfg _ w _ Hrun); [right; left|..]; reflexivity. }
  destruct (createSessionForUser_cases cfg sid now (user_id u)
              (signJwt (user_id u) (email u) (role u)) (normalizeIp req)
              (getUserAgent req) w) as [[e He] | [_ Hfresh]].
  { rewrite He in Hrun. eapply answers_internal_error. exact Hrun. }
  rewrite createSessionForUser_up in Hrun by assumption. simpl in Hrun.
  eexists. rewrite Hrun. simpl.
  split; [reflexivity|]. split; [left; reflexivity|].
  split; [reflexivity|]. split; [intros Habs; contradiction|].
  match goal with
  | |- effect w (set_sessions w (<[sid := ?r]> _)) =>
      apply (effect_session w r); [exact Hfresh | reflexivity]
  end.
Qed.

Lemma loginController_answers sid draw now req w :
  answers cfg
    (loginController cfg smsProvider emailProvider isEmail
       findUserByEmailAndRole findUserByMobileAndRole signJwt bcrypt_compare
       sid draw now req) w.
Proof.
  unfold loginController.
  destruct (req_step (req_body req)) as [step|].
  2: { eapply answers_failure; [reflexivity|left|..]; reflexivity. }
  destruct (String.eqb step "").
  { eapply answers_failure; [reflexivity|left|..]; reflexivity. }
  destruct (String.eqb step "credential_validation");
    [apply validateCredentials_answers|].
  destruct (String.eqb step "send_otp"); [apply sendOtp_answers|].
  destruct (String.eqb step "final_login"); [apply finalLogin_answers|].
  eapply answers_failure; [reflexivity|left|..]; reflexivity.
Qed.

End Answers.

(** ** Validators and routes *)

Lemma conclude_Next errs : conclude errs = Next <-> errs = [].
Proof.
  unfold conclude.
  destruct errs; simpl; split; intros H; try reflexivity; discriminate H.
Qed.

Lemma conclude_Refused errs v :
  conclude errs = Refused v ->
  vf_status v = 400 /\ vf_message v = "Validation failed"
  /\ errors v = errs /\ errs <> [].
Proof.
  unfold conclude. destruct errs; simpl; intros H; [discriminate H|].
  injection H as <-. repeat split. discriminate.
Qed.

Lemma strict_eq_true a b : strict_eq a b = true <-> a = b.
Proof. unfold strict_eq. apply bool_decide_eq_true. Qed.

Lemma wrong_login_type (v : jsval) (s : string) :
  s <> "" ->
  negb (truthy v) || negb (strict_eq v (JStr s)) = false <-> v = JStr s.
Proof.
  intros Hs. split.
  - intros H. apply orb_false_iff in H as [_ H].
    apply negb_false_iff, strict_eq_true in H. exact H.
  - intros ->. simpl. apply String.eqb_neq in Hs. rewrite Hs.
    unfold strict_eq. rewrite bool_decide_eq_true_2 by reflexivity.
    reflexivity.
Qed.

(** X6. Each validator hands a request on exactly when every field it
    asks for is there: [validateCredentialValidation] for the login type
    'email_password' with a truthy email, password and role;
    [validateSendOtp] for the login type 'mobile' with a truthy mobile and
    role; [validateFinalLogin] for a truthy role and otp with an email or
    a mobile.  Otherwise it answers 400 'Validation failed' with at least
    one complaint. *)
Theorem validators_pass_exactly req :
  let b := req_body req in
  (validateCredentialValidation req = Next <->
     req_login_type b = JStr "email_password"
     /\ present (req_email b) = true /\ truthy (req_password b) = true
     /\ present (req_role b) = true)
  /\ (validateSendOtp req = Next <->
        req_login_type b = JStr "mobile"
        /\ present (req_mobile b) = true /\ present (req_role b) = true)
  /\ (validateFinalLogin req = Next <->
        present (req_role b) = true /\ truthy (req_otp b) = true
        /\ (present (req_email b) = true \/ present (req_mobile b) = true))
  /\ forall check v,
       check = validateCredentialValidation \/ check = validateSendOtp
       \/ check = validateFinalLogin ->
       check req = Refused v ->
       vf_status v = 400 /\ vf_message v = "Validation failed"
       /\ errors v <> [].
Proof.
  intros b. subst b.
  assert (He : "email_password" <> "") by discriminate.
  assert (Hm : "mobile" <> "") by discriminate.
  split; [|split; [|split]].
  - unfold validateCredentialValidation. rewrite conclude_Next.
    rewrite <- (wrong_login_type _ _ He).
    destruct (negb (truthy (req_login_type (req_body req)))
              || negb (strict_eq (req_login_type (req_body req))
                         (JStr "email_password")));
      destruct (present (req_email (req_body req)));
      destruct (truthy (req_password (req_body req)));
      destruct (present (req_role (req_body req)));
      simpl; split; intros H; try discriminate H; try reflexivity;
      try (destruct H as (H1 & H2 & H3 & H4); discriminate);
      repeat split.
  - unfold validateSendOtp. rewrite conclude_Next.
    rewrite <- (wrong_login_type _ _ Hm).
    destruct (negb (truthy (req_login_type (req_body req)))
              || negb (strict_eq (req_login_type (req_body req))
                         (JStr "mobile")));
      destruct (present (req_mobile (req_body req)));
      destruct (present (req_role (req_body req)));
      simpl; split; intros H; try discriminate H; try reflexivity;
      try (destruct H as (H1 & H2 & H3); discriminate);
      repeat split.
  - unfold validateFinalLogin. rewrite conclude_Next.
    destruct (present (req_role (req_body req)));
      destruct (truthy (req_otp (req_body req)));
      destruct (present (req_email (req_body req)));
      destruct (present (req_mobile (req_body req)));
      simpl; split; intros H; try discriminate H; try reflexivity;
      try (destruct H as (H1 & H2 & [H3 | H3]); discriminate);
      repeat split; auto.
  - intros check v Hcheck Hrefused.
    destruct Hcheck as [-> | [-> | ->]];
      apply conclude_Refused in Hrefused as (Hs & Hmsg & Herrs & Hne);
      (split; [exact Hs|]; split; [exact Hmsg|]; rewrite Herrs; exact Hne).
Qed.

Lemma validators_pass_exactly_witness :
  validateCredentialValidation
    (Sample.credentials_request "a@x.com" (JStr "s3cret")) = Next
  /\ exists v,
       validateFinalLogin (Sample.mobile_request "9000000001") = Refused v
       /\ vf_status v = 400 /\ errors v <> [].
Proof.
  destruct (validators_pass_exactly
              (Sample.credentials_request "a@x.com" (JStr "s3cret")))
    as (Hpass & _).
  destruct (validators_pass_exactly (Sample.mobile_request "9000000001"))
    as (_ & _ & _ & Hrefused).
  split.
  - apply Hpass. repeat split.
  - eexists. split; [reflexivity|].
    destruct (Hrefused validateFinalLogin
                {| vf_status := 400; vf_message := "Validation failed";
                   errors := ["otp is required"] |})
      as (Hs & _ & He).
    + right. right. reflexivity.
    + reflexivity.
    + split; [exact Hs | exact He].
Defined.

(** The complaints come in the order of the checks. *)
Example validators_list_every_gap :
  validateCredentialValidation (Cases.request_of
    {| req_step := None; req_login_type := JStr "mobile"; req_email := None;
       req_mobile := None; req_role := Some ""; req_password := JStr "";
       req_otp := JNum 0 |})
  = Refused {| vf_status := 400; vf_message := "Validation failed";
               errors := ["login_type must be email_password";
                          "email is required"; "password is required";
                          "role is required"] |}.
Proof. reflexivity. Qed.

Section Routes.

Variable cfg : Config.
Variable smsProvider : string -> string -> string -> completion unit.
Variable emailProvider : string -> string -> string -> completion unit.
Variable isEmail : string -> bool.
Variable findUserByEmailAndRole :
  option string -> option string -> option user.
Variable findUserByMobileAndRole :
  option string -> option string -> option user.
Variable signJwt : string -> option string -> string -> string.
Variable bcrypt_compare : jsval -> string -> completion bool.

Lemma route_refused check handler req w v :
  check req = Refused v ->
  route check handler req w = (Fulfilled (Checked v), w).
Proof. intros Hv. unfold route. rewrite Hv. reflexivity. Qed.

Lemma route_passed check handler req w :
  check req = Next ->
  route check handler req w
  = match handler req w with
    | (Fulfilled r, w') => (Fulfilled (Handled r), w')
    | (Rejected e, w') => (Rejected e, w')
    end.
Proof. intros Hv. unfold route, bind. rewrite Hv. reflexivity. Qed.

Lemma route_effect check handler req w :
  answers cfg (handler req) w ->
  effect w (snd (route check handler req w)).
Proof.
  intros (r & Hr & _ & _ & _ & Heff).
  destruct (check req) as [|v] eqn:Hv.
  - rewrite route_passed by exact Hv.
    destruct (handler req w) as [c w']. simpl in *. rewrite Hr. exact Heff.
  - rewrite (route_refused _ _ _ _ v Hv). apply effect_none.
Qed.

(** Every call has one of the listed effects on the store. *)
Lemma perform_effect c w :
  effect w
    (perform cfg smsProvider emailProvider isEmail findUserByEmailAndRole
       findUserByMobileAndRole signJwt bcrypt_compare c w).
Proof.
  destruct c as [sid draw now req | draw now req | draw now req
                 | sid now req | now sid | now sid | now userId | up]; simpl.
  - apply route_effect, loginController_answers.
  - apply route_effect, validateCredentials_answers.
  - apply route_effect, sendOtp_answers.
  - apply route_effect, finalLogin_answers.
  - destruct (db_up w) eqn:Hup.
    + rewrite validateSession_up by exact Hup. apply effect_none.
    + unfold validateSession, bind. rewrite query_down by exact Hup.
      apply effect_none.
  - destruct (db_up w) eqn:Hup.
    + rewrite destroySession_up by exact Hup. apply effect_revoke.
    + unfold destroySession. rewrite query_down by exact Hup.
      apply effect_none.
  - destruct (db_up w) eqn:Hup.
    + rewrite destroyAllSessionsForUser_up by exact Hup.
      apply effect_revoke_all.
    + unfold destroyAllSessionsForUser. rewrite query_down by exact Hup.
      apply effect_none.
  - apply effect_pool.
Qed.

End Routes.

Lemma effect_codes w w' :
  effect w w' ->
  exists added,
    users_otps w' = (users_otps w ++ added)%list /\ Forall untouched added.
Proof.
  intros [ | r ds Hr | r Hfresh Hact | now sid | now userId | up]; simpl.
  2: { exists [r]. split; [reflexivity|]. constructor; [exact Hr|constructor]. }
  all: exists []; rewrite app_nil_r; split; [reflexivity|constructor].
Qed.

Lemma same_session_refl s : same_session s s.
Proof. unfold same_session. repeat split. Qed.

Lemma same_session_revoked now s : same_session s (revoked now s).
Proof. unfold same_session. repeat split. Qed.

Lemma same_session_trans s1 s2 s3 :
  same_session s1 s2 -> same_session s2 s3 -> same_session s1 s3.
Proof.
  unfold same_session.
  intros (A1 & A2 & A3 & A4 & A5 & A6 & A7 & A8)
         (B1 & B2 & B3 & B4 & B5 & B6 & B7 & B8).
  repeat split; congruence.
Qed.

Lemma effect_sessions w w' k s :
  effect w w' ->
  user_sessions w !! k = Some s ->
  exists s',
    user_sessions w' !! k = Some s' /\ same_session s s'
    /\ (is_active s = false -> is_active s' = false).
Proof.
  intros Heff Hs.
  destruct Heff as [ | r ds Hr | r Hfresh Hact | now sid | now userId | up];
    simpl.
  - exists s. split; [exact Hs|]. split; [apply same_session_refl|auto].
  - exists s. split; [exact Hs|]. split; [apply same_session_refl|auto].
  - exists s. split.
    + rewrite lookup_insert_ne; [exact Hs|].
      intros Heq. rewrite Heq, Hs in Hfresh. discriminate Hfresh.
    + split; [apply same_session_refl|auto].
  - rewrite lookup_alter. destruct (decide (sid = k)) as [->|Hne].
    + rewrite Hs. simpl. exists (revoked now s).
      split; [reflexivity|]. split; [apply same_session_revoked|auto].
    + exists s. split; [exact Hs|]. split; [apply same_session_refl|auto].
  - rewrite lookup_fmap, Hs. simpl.
    destruct (bool_decide (ses_user_id s = userId)).
    + exists (revoked now s).
      split; [reflexivity|]. split; [apply same_session_revoked|auto].
    + exists s. split; [reflexivity|]. split; [apply same_session_refl|auto].
  - exists s. split; [exact Hs|]. split; [apply same_session_refl|auto].
Qed.

(** ** Histories *)

Section Histories.

Variable cfg : Config.
Variable smsProvider : string -> string -> string -> completion unit.
Variable emailProvider : string -> string -> string -> completion unit.
Variable isEmail : string -> bool.
Variable findUserByEmailAndRole :
  option string -> option string -> option user.
Variable findUserByMobileAndRole :
  option string -> option string -> option user.
Variable signJwt : string -> option string -> string -> string.
Variable bcrypt_compare : jsval -> string -> completion bool.

Lemma history_cons c cs w :
  history cfg smsProvider emailProvider isEmail findUserByEmailAndRole
    findUserByMobileAndRole signJwt bcrypt_compare (c :: cs) w
  = history cfg smsProvider emailProvider isEmail findUserByEmailAndRole
      findUserByMobileAndRole signJwt bcrypt_compare cs
      (perform cfg smsProvider emailProvider isEmail findUserByEmailAndRole
         findUserByMobileAndRole signJwt bcrypt_compare c w).
Proof. reflexivity. Qed.

Lemma history_codes cs w :
  exists added,
    users_otps
      (history cfg smsProvider emailProvider isEmail findUserByEmailAndRole
         findUserByMobileAndRole signJwt bcrypt_compare cs w)
    = (users_otps w ++ added)%list
    /\ Forall untouched added.
Proof.
  revert w. induction cs as [|c cs IH]; intros w.
  - exists []. rewrite app_nil_r. split; [reflexivity|constructor].
  - rewrite history_cons.
    destruct (effect_codes _ _ (perform_effect cfg smsProvider emailProvider
                                  isEmail findUserByEmailAndRole
                                  findUserByMobileAndRole signJwt
                                  bcrypt_compare c w)) as (a1 & H1 & F1).
    destruct (IH (perform cfg smsProvider emailProvider isEmail
                    findUserByEmailAndRole findUserByMobileAndRole signJwt
                    bcrypt_compare c w)) as (a2 & H2 & F2).
    exists (a1 ++ a2)%list. split.
    + rewrite H2, H1, app_assoc. reflexivity.
    + apply Forall_app. split; assumption.
Qed.

(** X7. The table of codes only grows: whatever calls are made on the
    routes and on the session operations, with the pool going down and
    coming back in between, the rows that were stored stay as they were and
    in place, and every row added is unused with no attempt counted.  So
    on a store without used rows [verifyUserOtp] never answers [otp_used],
    whatever came before. *)
Theorem codes_append_only cs w :
  let w' := history cfg smsProvider emailProvider isEmail
              findUserByEmailAndRole findUserByMobileAndRole signJwt
              bcrypt_compare cs w in
  (exists added,
     users_otps w' = (users_otps w ++ added)%list /\ Forall untouched added)
  /\ (Forall (fun r => is_used r = false) (users_otps w) ->
      forall now userId mobile otp,
        fst (verifyUserOtp now userId mobile otp w')
        <> Fulfilled (OtpInvalid "otp_used")).
Proof.
  intros w'. subst w'. split; [apply history_codes|].
  intros Hfresh now userId mobile otp.
  destruct (history_codes cs w) as (added & Hrows & Hadded).
  set (w' := history _ _ _ _ _ _ _ _ _ _) in *.
  destruct (db_up w') eqn:Hup;
    [|rewrite verifyUserOtp_down by exact Hup; discriminate].
  rewrite verifyUserOtp_up by exact Hup. simpl.
  destruct (select_latest_otp userId mobile w') as [r|] eqn:Hsel;
    [|discriminate].
  apply select_latest_otp_Some in Hsel as (Hin & _).
  assert (Hunused : is_used r = false).
  { rewrite Hrows in Hin. apply elem_of_app in Hin as [Hin|Hin].
    - rewrite Forall_forall in Hfresh. apply Hfresh. exact Hin.
    - rewrite Forall_forall in Hadded. apply (Hadded r Hin). }
  rewrite Hunused.
  destruct (otp_expires_at r <? now); [discriminate|].
  destruct (negb _); discriminate.
Qed.

Lemma history_sessions cs w k s :
  user_sessions w !! k = Some s ->
  exists s',
    user_sessions
      (history cfg smsProvider emailProvider isEmail findUserByEmailAndRole
         findUserByMobileAndRole signJwt bcrypt_compare cs w) !! k = Some s'
    /\ same_session s s'
    /\ (is_active s = false -> is_active s' = false).
Proof.
  revert w s. induction cs as [|c cs IH]; intros w s Hs.
  - exists s. split; [exact Hs|]. split; [apply same_session_refl|auto].
  - rewrite history_cons.
    destruct (effect_sessions _ _ k s
                (perform_effect cfg smsProvider emailProvider isEmail
                   findUserByEmailAndRole findUserByMobileAndRole signJwt
                   bcrypt_compare c w) Hs) as (s1 & Hs1 & Hsame1 & Hoff1).
    destruct (IH _ s1 Hs1) as (s2 & Hs2 & Hsame2 & Hoff2).
    exists s2. split; [exact Hs2|]. split.
    + eapply same_session_trans; eassumption.
    + auto.
Qed.

(** X8. A stored session is never removed, re-keyed or given a later
    expiry, and a revoked session is never made active again: after any
    calls the id still holds a row with the same user, token, device, IP,
    user agent, expiry and creation time, inactive if it was inactive.  So
    once inactive, the session is answered [inactive] by [validateSession]
    for good. *)
Theorem sessions_never_revived cs w k s :
  user_sessions w !! k = Some s ->
  let w' := history cfg smsProvider emailProvider isEmail
              findUserByEmailAndRole findUserByMobileAndRole signJwt
              bcrypt_compare cs w in
  exists s',
    user_sessions w' !! k = Some s' /\ same_session s s'
    /\ (is_active s = false ->
        is_active s' = false
        /\ forall now, db_up w' = true ->
             fst (validateSession now k w')
             = Fulfilled (SessionInvalid "inactive")).
Proof.
  intros Hs w'. subst w'.
  destruct (history_sessions cs w k s Hs) as (s' & Hs' & Hsame & Hoff).
  exists s'. split; [exact Hs'|]. split; [exact Hsame|].
  intros Hinactive. specialize (Hoff Hinactive). split; [exact Hoff|].
  intros now Hup. rewrite validateSession_up by exact Hup. simpl.
  rewrite Hs', Hoff. reflexivity.
Qed.

End Histories.

Lemma codes_append_only_witness :
  let cs := [PostValidateCredentials 3821 Sample.T0
               (Sample.credentials_request "a@x.com" (JStr "s3cret"));
             PostFinalLogin "s-1" (Sample.T0 + Sample.minutes 5)
               (Sample.login_request (JStr "4821"));
             PostFinalLogin "s-2" (Sample.T0 + Sample.minutes 6)
               (Sample.login_request (JStr "4821"))] in
  let w' := history Sample.cfg Sample.console Sample.console Sample.has_at
              (Sample.byEmail Sample.alice) (Sample.byMobile Sample.alice)
              Sample.signJwt Sample.bcrypt_compare cs Sample.empty in
  fst (verifyUserOtp (Sample.T0 + Sample.minutes 7) "u-1" "9000000001"
         (JStr "4821") w')
  <> Fulfilled (OtpInvalid "otp_used").
Proof.
  intros cs w'. subst w'.
  destruct (codes_append_only Sample.cfg Sample.console Sample.console
              Sample.has_at (Sample.byEmail Sample.alice)
              (Sample.byMobile Sample.alice) Sample.signJwt
              Sample.bcrypt_compare cs Sample.empty) as (_ & Hnever).
  apply Hnever. constructor.
Defined.

Lemma sessions_never_revived_witness :
  let cs := [PostFinalLogin "s-1" (Sample.T0 + Sample.minutes 5)
               (Sample.login_request (JStr "4821"));
             CallDestroyAllSessionsForUser (Sample.T0 + Sample.minutes 6)
               "u-1";
             Pool true] in
  let w := Sample.with_session
             (Sample.a_session false (Sample.T0 + Sample.hours 8)) in
  fst (validateSession (Sample.T0 + Sample.minutes 7) "s-1"
         (history Sample.cfg Sample.console Sample.console Sample.has_at
            (Sample.byEmail Sample.alice) (Sample.byMobile Sample.alice)
            Sample.signJwt Sample.bcrypt_compare cs w))
  = Fulfilled (SessionInvalid "inactive").
Proof.
  intros cs w.
  destruct (sessions_never_revived Sample.cfg Sample.console Sample.console
              Sample.has_at (Sample.byEmail Sample.alice)
              (Sample.byMobile Sample.alice) Sample.signJwt
              Sample.bcrypt_compare cs w "s-1"
              (Sample.a_session false (Sample.T0 + Sample.hours 8)))
    as (s' & _ & _ & Hoff).
  - vm_compute. reflexivity.
  - destruct Hoff as (_ & Hinactive); [reflexivity|].
    apply Hinactive. vm_compute. reflexivity.
Defined.

(** ** Answers of the routes *)

Section RouteAnswers.

Variable cfg : Config.
Variable smsProvider : string -> string -> string -> completion unit.
Variable emailProvider : string -> string -> string -> completion unit.
Variable isEmail : string -> bool.
Variable findUserByEmailAndRole :
  option string -> option string -> option user.
Variable findUserByMobileAndRole :
  option string -> option string -> option user.
Variable signJwt : string -> option string -> string -> string.
Variable bcrypt_compare : jsval -> string -> completion bool.

Lemma route_answers check handler req w :
  answers cfg (handler req) w ->
  (forall v, check req = Refused v -> vf_status v = 400 /\ errors v <> []) ->
  match fst (route check handler req w) with
  | Fulfilled (Checked v) =>
      vf_status v = 400 /\ errors v <> []
      /\ snd (route check handler req w) = w
  | Fulfilled (Handled r) =>
      known_status r
      /\ (development cfg = false -> error r = None)
      /\ (status r <> 200 ->
          fields r = [] /\ snd (route check handler req w) = w)
  | Rejected _ => False
  end.
Proof.
  intros (r & Hr & Hknown & Hleak & Hfail & _) Hcheck.
  destruct (check req) as [|v] eqn:Hv.
  - rewrite route_passed by exact Hv.
    destruct (handler req w) as [c w']. simpl in *. rewrite Hr. simpl.
    split; [exact Hknown|]. split; [exact Hleak|]. exact Hfail.
  - rewrite (route_refused _ _ _ _ v Hv). simpl.
    destruct (Hcheck v eq_refl) as [Hs He]. repeat split; assumption.
Qed.

(** X9. Each of the four routes always answers, whatever the request and
    whether the pool is up or down: a validator's 400 with its complaints,
    or a handler's answer with status 200, 400, 401 or 500 that carries no
    error detail outside development.  Any answer other than a 200 leaves
    the store exactly as it was and carries no data field. *)
Theorem routes_always_answer sid draw now req w :
  let settled (out : completion reply * World) : Prop :=
    match fst out with
    | Fulfilled (Checked v) =>
        vf_status v = 400 /\ errors v <> [] /\ snd out = w
    | Fulfilled (Handled r) =>
        known_status r
        /\ (development cfg = false -> error r = None)
        /\ (status r <> 200 -> fields r = [] /\ snd out = w)
    | Rejected _ => False
    end in
  settled (post_login cfg smsProvider emailProvider isEmail
             findUserByEmailAndRole findUserByMobileAndRole signJwt
             bcrypt_compare sid draw now req w)
  /\ settled (post_validate_credentials cfg smsProvider emailProvider isEmail
                findUserByEmailAndRole bcrypt_compare draw now req w)
  /\ settled (post_send_otp cfg smsProvider emailProvider isEmail
                findUserByMobileAndRole draw now req w)
  /\ settled (post_final_login cfg findUserByEmailAndRole
                findUserByMobileAndRole signJwt sid now req w).
Proof.
  intros settled. subst settled. cbv beta.
  assert (Hchecks : forall check v,
            check = validateCredentialValidation \/ check = validateSendOtp
            \/ check = validateFinalLogin ->
            check req = Refused v -> vf_status v = 400 /\ errors v <> []).
  { intros check v Hcheck Hv.
    destruct Hcheck as [-> | [-> | ->]];
      apply conclude_Refused in Hv as (Hs & _ & He & Hne);
      (split; [exact Hs | rewrite He; exact Hne]). }
  split; [|split; [|split]].
  - apply route_answers; [apply loginController_answers|].
    intros v Hv. discriminate Hv.
  - apply route_answers; [apply validateCredentials_answers|].
    intros v. apply Hchecks. left. reflexivity.
  - apply route_answers; [apply sendOtp_answers|].
    intros v. apply Hchecks. right. left. reflexivity.
  - apply route_answers; [apply finalLogin_answers|].
    intros v. apply Hchecks. right. right. reflexivity.
Qed.

End RouteAnswers.

Lemma routes_always_answer_witness :
  snd (post_validate_credentials Sample.cfg Sample.console Sample.console
         Sample.has_at (Sample.byEmail Sample.alice) Sample.bcrypt_compare
         3821 Sample.T0
         (Sample.credentials_request "a@x.com" (JStr "s3cret"))
         Sample.offline)
  = Sample.offline.
Proof.
  destruct (routes_always_answer Sample.cfg Sample.console Sample.console
              Sample.has_at (Sample.byEmail Sample.alice)
              (Sample.byMobile Sample.alice) Sample.signJwt
              Sample.bcrypt_compare "s-1" 3821 Sample.T0
              (Sample.credentials_request "a@x.com" (JStr "s3cret"))
              Sample.offline) as (_ & Hvalidate & _).
  change (fst (post_validate_credentials Sample.cfg Sample.console
                 Sample.console Sample.has_at (Sample.byEmail Sample.alice)
                 Sample.bcrypt_compare 3821 Sample.T0
                 (Sample.credentials_request "a@x.com" (JStr "s3cret"))
                 Sample.offline))
    with (Fulfilled
            (Handled {| status := 500; message := "Internal server error";
                        fields := []; error := None |})) in Hvalidate.
  destruct Hvalidate as (_ & _ & Hfail).
  apply Hfail. discriminate.
Defined.

(** ** Sessions *)

Lemma whole_seconds_shift (t a : Z) :
  whole_seconds (t + 1000 * a) = whole_seconds t + 1000 * a.
Proof.
  unfold whole_seconds.
  replace (t + 1000 * a) with (t + a * 1000) by lia.
  rewrite Z.div_add by lia. lia.
Qed.

(** X10. A session just created validates until the process reads its
    stored expiry as reached, and not after.  With the pool up and the id
    free, [validateSession] on the store [createSessionForUser] leaves
    answers valid, with the user and token given, at every instant before
    [expiry], and [expired] from that instant on, where [expiry] is what
    the process reads of the stored text: the wall-clock reading, in the
    zone of [config.timezone], of the clock plus the TTL, cut to whole
    seconds.  When the process reads in the zone that wrote, [expiry] is
    the clock plus the TTL cut to whole seconds; when the zone of
    [config.timezone] is [a] seconds and the zone of the process [b]
    seconds ahead of UTC, it is that instant moved by [a - b] seconds. *)
Theorem session_valid_until_expiry
    cfg sid now userId token ip userAgent w now' :
  db_up w = true ->
  user_sessions w !! sid = None ->
  let out := createSessionForUser cfg sid now userId token ip userAgent w in
  let expiry :=
    process_instant cfg
      (whole_seconds (zone_wall cfg (now + session_ttlHours cfg * 3600000))) in
  (now' < expiry ->
   exists s,
     fst (validateSession now' sid (snd out)) = Fulfilled (SessionValid s)
     /\ ses_user_id s = userId /\ jwt_token s = token
     /\ expires_at s = expiry)
  /\ (expiry <= now' ->
      fst (validateSession now' sid (snd out))
      = Fulfilled (SessionInvalid "expired"))
  /\ (zones_agree cfg ->
      expiry = whole_seconds (now + session_ttlHours cfg * 3600000)
      /\ now + session_ttlHours cfg * 3600000 - 1000 < expiry
         <= now + session_ttlHours cfg * 3600000)
  /\ (forall a b,
        (forall t, zone_wall cfg t = t + 1000 * a) ->
        (forall t, process_instant cfg t = t - 1000 * b) ->
        expiry = whole_seconds (now + session_ttlHours cfg * 3600000)
                 + 1000 * (a - b)).
Proof.
  intros Hup Hfresh out expiry. subst out expiry.
  rewrite createSessionForUser_up by assumption. simpl.
  rewrite validateSession_up by exact Hup. simpl.
  rewrite lookup_insert_eq. simpl. unfold session_expiry.
  split; [|split; [|split]].
  - intros Hlt. apply Z.leb_gt in Hlt. rewrite Hlt.
    eexists. split; [reflexivity|]. repeat split.
  - intros Hle. apply Z.leb_le in Hle. rewrite Hle. reflexivity.
  - intros Hsame. rewrite (Hsame _).
    split; [reflexivity|]. apply whole_seconds_bounds.
  - intros a b Hzone Hprocess.
    rewrite Hzone, Hprocess, whole_seconds_shift. lia.
Qed.

Lemma session_valid_until_expiry_witness :
  let out := createSessionForUser Sample.cfg "s-1" Sample.T0 "u-1" "jwt:u-1"
               (Some "127.0.0.1") (Some "curl/8") Sample.empty in
  let far := createSessionForUser Cases.kolkata_in_utc "s-1" Sample.T0 "u-1"
               "jwt:u-1" (Some "127.0.0.1") (Some "curl/8") Sample.empty in
  (exists s,
     fst (validateSession (Sample.T0 + Sample.hours 7) "s-1" (snd out))
     = Fulfilled (SessionValid s) /\ ses_user_id s = "u-1")
  /\ fst (validateSession (Sample.T0 + Sample.hours 9) "s-1" (snd out))
     = Fulfilled (SessionInvalid "expired")
  /\ (exists s,
        fst (validateSession (Sample.T0 + Sample.hours 9) "s-1" (snd far))
        = Fulfilled (SessionValid s)
        /\ expires_at s = Sample.T0 + Sample.hours 13 + Sample.minutes 30)
  /\ fst (validateSession (Sample.T0 + Sample.hours 13 + Sample.minutes 30)
            "s-1" (snd far))
     = Fulfilled (SessionInvalid "expired")
  /\ process_instant Sample.cfg
       (whole_seconds
          (zone_wall Sample.cfg
             (Sample.T0 + session_ttlHours Sample.cfg * 3600000)))
     = whole_seconds (Sample.T0 + session_ttlHours Sample.cfg * 3600000)
  /\ process_instant Cases.kolkata_in_utc
       (whole_seconds
          (zone_wall Cases.kolkata_in_utc
             (Sample.T0 + session_ttlHours Cases.kolkata_in_utc * 3600000)))
     = whole_seconds
         (Sample.T0 + session_ttlHours Cases.kolkata_in_utc * 3600000)
       + 1000 * (19800 - 0).
Proof.
  intros out far. subst out far.
  assert (Hup : db_up Sample.empty = true) by reflexivity.
  assert (Hfresh : user_sessions Sample.empty !! "s-1" = None)
    by (vm_compute; reflexivity).
  destruct (session_valid_until_expiry Sample.cfg "s-1" Sample.T0 "u-1"
              "jwt:u-1" (Some "127.0.0.1") (Some "curl/8") Sample.empty
              (Sample.T0 + Sample.hours 7) Hup Hfresh) as (Hvalid & _).
  destruct (session_valid_until_expiry Sample.cfg "s-1" Sample.T0 "u-1"
              "jwt:u-1" (Some "127.0.0.1") (Some "curl/8") Sample.empty
              (Sample.T0 + Sample.hours 9) Hup Hfresh) as (_ & Hexpired & _).
  destruct (session_valid_until_expiry Cases.kolkata_in_utc "s-1" Sample.T0
              "u-1" "jwt:u-1" (Some "127.0.0.1") (Some "curl/8") Sample.empty
              (Sample.T0 + Sample.hours 9) Hup Hfresh) as (Hstill & _).
  destruct (session_valid_until_expiry Cases.kolkata_in_utc "s-1" Sample.T0
              "u-1" "jwt:u-1" (Some "127.0.0.1") (Some "curl/8") Sample.empty
              (Sample.T0 + Sample.hours 13 + Sample.minutes 30) Hup Hfresh)
    as (_ & Hgone & _ & Hoffsets).
  destruct (session_valid_until_expiry Sample.cfg "s-1" Sample.T0 "u-1"
              "jwt:u-1" (Some "127.0.0.1") (Some "curl/8") Sample.empty
              Sample.T0 Hup Hfresh) as (_ & _ & Hsame & _).
  split; [|split; [|split; [|split; [|split]]]].
  - destruct Hvalid as (s & Hs & Hu & _); [vm_compute; reflexivity|].
    exists s. split; assumption.
  - apply Hexpired. vm_compute. discriminate.
  - destruct Hstill as (s & Hs & _ & _ & He); [vm_compute; reflexivity|].
    exists s. split; [exact Hs|]. rewrite He. vm_compute. reflexivity.
  - apply Hgone. vm_compute. discriminate.
  - apply Hsame. intros t. reflexivity.
  - apply (Hoffsets 19800 0); intros t; simpl; lia.
Defined.

(** X11. Revocation hits its target and nothing else: after
    [destroySession] every other session is answered by [validateSession]
    as before; after [destroyAllSessionsForUser] every stored session of
    that user is answered [inactive] and every session of another user is
    answered as before. *)
Theorem revocation_is_targeted now t sid userId k w :
  db_up w = true ->
  let one := snd (destroySession t sid w) in
  let all := snd (destroyAllSessionsForUser t userId w) in
  (k <> sid ->
   fst (validateSession now k one) = fst (validateSession now k w))
  /\ (forall s, user_sessions w !! k = Some s -> ses_user_id s = userId ->
        fst (validateSession now k all)
        = Fulfilled (SessionInvalid "inactive"))
  /\ (forall s, user_sessions w !! k = Some s -> ses_user_id s <> userId ->
        fst (validateSession now k all) = fst (validateSession now k w))
  /\ (user_sessions w !! k = None ->
      fst (validateSession now k all)
      = Fulfilled (SessionInvalid "not_found")).
Proof.
  intros Hup one all. subst one all.
  rewrite (destroySession_up t sid w Hup),
    (destroyAllSessionsForUser_up t userId w Hup). simpl.
  rewrite !validateSession_up by exact Hup. simpl.
  split; [|split; [|split]].
  - intros Hne. rewrite lookup_alter_ne by congruence. reflexivity.
  - intros s Hs Hu. rewrite lookup_fmap, Hs. simpl.
    rewrite bool_decide_eq_true_2 by exact Hu. reflexivity.
  - intros s Hs Hu. rewrite lookup_fmap, Hs. simpl.
    rewrite bool_decide_eq_false_2 by exact Hu. reflexivity.
  - intros Hnone. rewrite lookup_fmap, Hnone. reflexivity.
Qed.

Lemma revocation_is_targeted_witness :
  let w := Sample.with_session
             (Sample.a_session true (Sample.T0 + Sample.hours 8)) in
  fst (validateSession Sample.T0 "s-1"
         (snd (destroySession Sample.T0 "s-2" w)))
  = fst (validateSession Sample.T0 "s-1" w)
  /\ fst (validateSession Sample.T0 "s-1"
            (snd (destroyAllSessionsForUser Sample.T0 "u-1" w)))
     = Fulfilled (SessionInvalid "inactive")
  /\ fst (validateSession Sample.T0 "s-1"
            (snd (destroyAllSessionsForUser Sample.T0 "u-2" w)))
     = fst (validateSession Sample.T0 "s-1" w).
Proof.
  intros w.
  assert (Hup : db_up w = true) by reflexivity.
  assert (Hs : user_sessions w !! "s-1"
               = Some (Sample.a_session true (Sample.T0 + Sample.hours 8)))
    by (vm_compute; reflexivity).
  destruct (revocation_is_targeted Sample.T0 Sample.T0 "s-2" "u-1" "s-1" w
              Hup) as (Hone & Hmine & _).
  destruct (revocation_is_targeted Sample.T0 Sample.T0 "s-2" "u-2" "s-1" w
              Hup) as (_ & _ & Hother & _).
  split; [apply Hone; discriminate|]. split.
  - apply (Hmine _ Hs). reflexivity.
  - apply (Hother _ Hs). discriminate.
Defined.

(** ** utils/request *)

Lemma substring_whole (s : string) : substring 0 (String.length s) s = s.
Proof.
  induction s as [|c s IH]; [reflexivity|]. simpl. rewrite IH. reflexivity.
Qed.

(** X12. [normalizeIp] reads the socket address only when there is no
    forwarded header: with a header the answer is the same whatever the
    socket says.  Without one, no address gives null, the loopback '::1'
    gives '127.0.0.1', an IPv4-mapped address gives what follows
    '::ffff:', and any other address is handed back as it is. *)
Theorem normalizeIp_cases b forwarded remote remote' agent a :
  let req r := {| req_body := b; x_forwarded_for := forwarded;
                  remoteAddress := r; user_agent_header := agent |} in
  (present forwarded = true ->
   normalizeIp (req remote) = normalizeIp (req remote'))
  /\ (present forwarded = false ->
      (present remote = false -> normalizeIp (req remote) = None)
      /\ normalizeIp (req (Some "::1")) = Some "127.0.0.1"
      /\ normalizeIp (req (Some ("::ffff:" +:+ a))) = Some a
      /\ (present remote = true -> remote <> Some "::1" ->
          startsWith (default "" remote) "::ffff:" = false ->
          normalizeIp (req remote) = remote)).
Proof.
  intros req. subst req. cbv beta. split.
  - intros Hf. unfold normalizeIp. simpl. rewrite Hf. reflexivity.
  - intros Hf. unfold normalizeIp. simpl. rewrite Hf.
    split; [intros Hr; rewrite Hr; reflexivity|].
    split; [reflexivity|]. split.
    + rewrite !str_app_cons. change ("" +:+ a) with a.
      unfold startsWith. simpl.
      replace (String.prefix "" a) with true by (destruct a; reflexivity).
      rewrite ?Nat.sub_0_r, substring_whole. reflexivity.
    + intros Hr Hloop Hmapped. rewrite Hr. simpl.
      destruct remote as [ip|]; [|discriminate Hr]. simpl in *.
      rewrite Hmapped.
      destruct (String.eqb_spec ip "::1") as [->|_]; [congruence|].
      reflexivity.
Qed.

Lemma normalizeIp_cases_witness :
  normalizeIp (Cases.from (Some " , 10.0.0.1") (Some "192.168.1.10")) = None
  /\ normalizeIp (Cases.from None (Some "::ffff:192.168.1.10"))
     = Some "192.168.1.10"
  /\ normalizeIp (Cases.from None (Some "192.168.1.10"))
     = Some "192.168.1.10".
Proof.
  destruct (normalizeIp_cases (req_body (Sample.login_request JNull))
              (Some " , 10.0.0.1") (Some "192.168.1.10") None None "")
    as (Hheader & _).
  destruct (normalizeIp_cases (req_body (Sample.login_request JNull))
              None (Some "192.168.1.10") None None "192.168.1.10")
    as (_ & Hsocket).
  destruct Hsocket as (_ & _ & Hmapped & Hplain); [reflexivity|].
  split; [|split].
  - unfold Cases.from. rewrite Hheader by reflexivity. reflexivity.
  - exact Hmapped.
  - apply Hplain; [reflexivity | discriminate | reflexivity].
Defined.

(** ** notificationService *)

Lemma strip_non_digits_digits (s : string) :
  all_digits (strip_non_digits s) = true.
Proof.
  induction s as [|c s IH]; [reflexivity|]. simpl.
  destruct (is_digit c) eqn:Hc; [|exact IH]. simpl. rewrite Hc. exact IH.
Qed.

Lemma strip_non_digits_fixed (s : string) :
  all_digits s = true -> strip_non_digits s = s.
Proof.
  induction s as [|c s IH]; [reflexivity|]. simpl. intros H.
  apply andb_prop in H as [Hc Hs]. rewrite Hc, (IH Hs). reflexivity.
Qed.

(** X13. [sendSMS] looks at the digits of the phone only: the number it
    hands to the provider is all digits, a phone written with spaces,
    dashes or a plus sign is sent like its bare digits, and a phone
    without any digit is refused with 'Invalid phone number' whatever the
    provider would do. *)
Theorem sendSMS_digits_only smsProvider smsProvider' phone code type :
  let number := strip_non_digits phone in
  all_digits number = true
  /\ sendSMS smsProvider number code type
     = sendSMS smsProvider phone code type
  /\ (number = "" ->
      sendSMS smsProvider' phone code type = Rejected "Invalid phone number")
  /\ (number <> "" ->
      sendSMS smsProvider phone code type = smsProvider number code type).
Proof.
  intros number. subst number.
  split; [apply strip_non_digits_digits|].
  unfold sendSMS.
  rewrite (strip_non_digits_fixed (strip_non_digits phone))
    by apply strip_non_digits_digits.
  split; [reflexivity|]. split.
  - intros ->. reflexivity.
  - intros Hne. apply String.eqb_neq in Hne. rewrite Hne. reflexivity.
Qed.

Lemma sendSMS_digits_only_witness :
  sendSMS Sample.console "+91 90000-00001" "4821" "LOGIN"
  = sendSMS Sample.console "919000000001" "4821" "LOGIN"
  /\ sendSMS Sample.console "n/a" "4821" "LOGIN"
     = Rejected "Invalid phone number".
Proof.
  destruct (sendSMS_digits_only Sample.console Sample.console
              "+91 90000-00001" "4821" "LOGIN") as (_ & Hsame & _).
  destruct (sendSMS_digits_only Sample.console Sample.console "n/a" "4821"
              "LOGIN") as (_ & _ & Hnone & _).
  split.
  - rewrite <- Hsame. reflexivity.
  - apply Hnone. reflexivity.
Defined.

(** ** Passwords *)

Lemma verifyPassword_shape bcrypt_compare plainPassword hashedPassword :
  verifyPassword bcrypt_compare plainPassword hashedPassword = true ->
  (exists h, hashedPassword = Some h /\ h <> ""
             /\ bcrypt_compare plainPassword h = Fulfilled true)
  \/ (exists h, hashedPassword = Some h /\ plainPassword = JStr h)
  \/ (hashedPassword = None /\ plainPassword = JNull).
Proof.
  unfold verifyPassword. destruct hashedPassword as [h|]; simpl.
  - destruct (negb (String.eqb h "")
              && (startsWith h "$2a$" || startsWith h "$2b$"
                  || startsWith h "$2y$")) eqn:Htag.
    + intros Hb. left. exists h. split; [reflexivity|].
      apply andb_prop in Htag as [Hne _].
      apply negb_true_iff, String.eqb_neq in Hne. split; [exact Hne|].
      destruct (bcrypt_compare plainPassword h) as [[|]|e];
        [reflexivity | discriminate Hb | discriminate Hb].
    + intros Heq. apply strict_eq_true in Heq. right. left.
      exists h. split; [reflexivity | exact Heq].
  - intros Heq. apply strict_eq_true in Heq. right. right.
    split; [reflexivity | exact Heq].
Qed.

(** X14. [verifyPassword] always gives an answer.  For a stored value
    tagged as a bcrypt hash it is the answer of [bcrypt.compare], a thrown
    error counting as a refusal; for any other stored text it accepts the
    identical string and nothing else, no number and no other value; and
    where no credential is stored it accepts exactly a null password. *)
Theorem verifyPassword_cases bcrypt_compare plainPassword hashedPassword :
  let tagged h :=
    startsWith h "$2a$" || startsWith h "$2b$" || startsWith h "$2y$" in
  (forall h, hashedPassword = Some h -> tagged h = true ->
     (verifyPassword bcrypt_compare plainPassword hashedPassword = true <->
      bcrypt_compare plainPassword h = Fulfilled true))
  /\ (forall h, hashedPassword = Some h -> tagged h = false ->
        (verifyPassword bcrypt_compare plainPassword hashedPassword = true <->
         plainPassword = JStr h))
  /\ (hashedPassword = None ->
      (verifyPassword bcrypt_compare plainPassword hashedPassword = true <->
       plainPassword = JNull)).
Proof.
  intros tagged. subst tagged. cbv beta. unfold verifyPassword.
  split; [|split].
  - intros h -> Htag. simpl. rewrite Htag.
    assert (Hpresent : negb (String.eqb h "") = true).
    { destruct h; [discriminate Htag | reflexivity]. }
    rewrite Hpresent. simpl.
    destruct (bcrypt_compare plainPassword h) as [[|]|e]; split;
      intros H; try reflexivity; discriminate H.
  - intros h -> Htag. simpl. rewrite Htag, andb_false_r.
    apply strict_eq_true.
  - intros ->. simpl. apply strict_eq_true.
Qed.

Lemma verifyPassword_cases_witness :
  verifyPassword Sample.bcrypt_compare (JStr "s3cret") (Some "s3cret") = true
  /\ verifyPassword Sample.bcrypt_compare (JNum 1234) (Some "1234") = false
  /\ verifyPassword Sample.bcrypt_compare (JStr "pw") (Some "$2b$10$abc")
     = false
  /\ verifyPassword Sample.bcrypt_compare JNull None = true.
Proof.
  destruct (verifyPassword_cases Sample.bcrypt_compare (JStr "s3cret")
              (Some "s3cret")) as (_ & Hplain & _).
  destruct (verifyPassword_cases Sample.bcrypt_compare (JNum 1234)
              (Some "1234")) as (_ & Hnumber & _).
  destruct (verifyPassword_cases Sample.bcrypt_compare (JStr "pw")
              (Some "$2b$10$abc")) as (Hhash & _).
  destruct (verifyPassword_cases Sample.bcrypt_compare JNull None)
    as (_ & _ & Hnull).
  split; [apply (Hplain "s3cret"); reflexivity|].
  split.
  { apply not_true_is_false. intros H.
    apply (Hnumber "1234") in H; [discriminate H|reflexivity|reflexivity]. }
  split.
  { apply not_true_is_false. intros H.
    apply (Hhash "$2b$10$abc") in H; [discriminate H|reflexivity|reflexivity]. }
  apply Hnull; reflexivity.
Defined.

(** ** Flows *)

Section Flows.

Variable cfg : Config.
Variable smsProvider : string -> string -> string -> completion unit.
Variable emailProvider : string -> string -> string -> completion unit.
Variable isEmail : string -> bool.
Variable findUserByEmailAndRole :
  option string -> option string -> option user.
Variable findUserByMobileAndRole :
  option string -> option string -> option user.
Variable signJwt : string -> option string -> string -> string.
Variable bcrypt_compare : jsval -> string -> completion bool.

(** X15. An identity without a phone passes the credential step, which
    issues a code, but cannot finish the login with it: [finalLogin] for
    that identity answers 400 'Mobile number is required for OTP
    verification' when the request has no mobile, and 401
    'Invalid OTP: otp_not_found' when it has one, whatever code is
    submitted. *)
Theorem phoneless_identity_cannot_finish draw sid t0 t req req' w u :
  db_up w = true ->
  findUserByEmailAndRole (req_email (req_body req)) (req_role (req_body req))
  = Some u ->
  isUserActive (Some u) = true ->
  verifyPassword bcrypt_compare (req_password (req_body req))
    (password_hash u) = true ->
  present (phone u) = false ->
  resolved findUserByEmailAndRole findUserByMobileAndRole (req_body req')
  = Some u ->
  (forall r, r ∈ users_otps w -> otp_user_id r <> user_id u) ->
  let first := validateCredentials cfg smsProvider emailProvider isEmail
                 findUserByEmailAndRole bcrypt_compare draw t0 req w in
  let second := finalLogin cfg findUserByEmailAndRole findUserByMobileAndRole
                  signJwt sid t req' (snd first) in
  (exists r, fst first = Fulfilled r /\ status r = 200
             /\ In ("otp", JStr (generateOtp draw)) (fields r))
  /\ (present (req_mobile (req_body req')) = false ->
      fst second
      = Fulfilled (errorResponse cfg 400
                     "Mobile number is required for OTP verification" None))
  /\ (present (req_mobile (req_body req')) = true ->
      fst second
      = Fulfilled (errorResponse cfg 401 "Invalid OTP: otp_not_found" None)).
Proof.
  intros Hup Hfound Hactive Hpw Hphone Hresolved Hnone first second.
  subst first second.
  rewrite (validateCredentials_active cfg smsProvider emailProvider isEmail
             findUserByEmailAndRole bcrypt_compare draw t0 req w u
             Hup Hfound Hactive).
  rewrite Hpw. cbv zeta.
  destruct (createOtpForUser_result cfg smsProvider emailProvider isEmail
              draw t0 u None "LOGIN" w Hup) as (o & Ho & Hcode & _).
  rewrite Ho. cbn [fst snd].
  split.
  { eexists. split; [reflexivity|]. split; [reflexivity|].
    simpl. left. rewrite Hcode. reflexivity. }
  set (w1 := snd (createOtpForUser cfg smsProvider emailProvider isEmail
                    draw t0 u None "LOGIN" w)).
  assert (Hup1 : db_up w1 = true).
  { subst w1. rewrite createOtpForUser_store by exact Hup. exact Hup. }
  rewrite (finalLogin_active cfg findUserByEmailAndRole
             findUserByMobileAndRole signJwt sid t req' w1 u
             Hup1 Hresolved Hactive).
  cbv zeta. split.
  - intros Hmobile. unfold or_else. rewrite Hmobile, Hphone. reflexivity.
  - intros Hmobile. unfold or_else. rewrite Hmobile. rewrite Hmobile.
    cbn [negb].
    rewrite verifyUserOtp_up by exact Hup1. cbn [fst].
    assert (Hsel : select_latest_otp (user_id u)
                     (default "" (req_mobile (req_body req'))) w1 = None).
    { apply select_latest_otp_None. intros r Hin. subst w1.
      rewrite createOtpForUser_store in Hin by exact Hup. simpl in Hin.
      unfold otp_where.
      apply elem_of_app in Hin as [Hin|Hin].
      - rewrite (bool_decide_eq_false_2 _ (Hnone r Hin)). reflexivity.
      - apply list_elem_of_singleton in Hin. subst r. simpl.
        unfold or_else. simpl.
        rewrite (bool_decide_eq_false_2
                   (phone u = Some (default "" (req_mobile (req_body req'))))).
        + rewrite andb_false_r. reflexivity.
        + intros Heq. rewrite Heq in Hphone.
          destruct (req_mobile (req_body req')) as [m|];
            [|discriminate Hmobile].
          simpl in Hphone, Hmobile. congruence. }
    rewrite Hsel. reflexivity.
Qed.

End Flows.

Lemma phoneless_identity_cannot_finish_witness :
  let first := validateCredentials Sample.cfg Sample.console Sample.console
                 Sample.has_at (Sample.byEmail Cases.bob)
                 Sample.bcrypt_compare 3821 Sample.T0
                 (Sample.credentials_request "b@x.com" (JStr "pa55"))
                 Sample.empty in
  let login req := finalLogin Sample.cfg (Sample.byEmail Cases.bob)
                     (Sample.byMobile Cases.bob) Sample.signJwt "s-1"
                     (Sample.T0 + Sample.minutes 1) req (snd first) in
  (exists r, fst first = Fulfilled r /\ status r = 200)
  /\ (exists r, fst (login (Cases.final_by_email "b@x.com" (JStr "4821")))
                = Fulfilled r /\ status r = 400).
Proof.
  intros first login. subst first login. cbv beta.
  destruct (phoneless_identity_cannot_finish Sample.cfg Sample.console
              Sample.console Sample.has_at (Sample.byEmail Cases.bob)
              (Sample.byMobile Cases.bob) Sample.signJwt
              Sample.bcrypt_compare 3821 "s-1" Sample.T0
              (Sample.T0 + Sample.minutes 1)
              (Sample.credentials_request "b@x.com" (JStr "pa55"))
              (Cases.final_by_email "b@x.com" (JStr "4821"))
              Sample.empty Cases.bob)
    as ((r & Hr & Hs & _) & Hnomobile & _).
  - reflexivity.
  - reflexivity.
  - reflexivity.
  - reflexivity.
  - reflexivity.
  - reflexivity.
  - intros r Hin. apply not_elem_of_nil in Hin. destruct Hin.
  - split; [exists r; split; assumption|].
    eexists. split; [apply Hnomobile; reflexivity|]. reflexivity.
Defined.

Section MobileFlow.

Variable cfg : Config.
Variable smsProvider : string -> string -> string -> completion unit.
Variable emailProvider : string -> string -> string -> completion unit.
Variable isEmail : string -> bool.
Variable findUserByEmailAndRole :
  option string -> option string -> option user.
Variable findUserByMobileAndRole :
  option string -> option string -> option user.
Variable signJwt : string -> option string -> string -> string.



End MobileFlow.


Lemma finalLogin_replay_witness :
  let login sid w :=
    finalLogin Sample.cfg (Sample.byEmail Sample.alice)
      (Sample.byMobile Sample.alice) Sample.signJwt sid
      (Sample.T0 + Sample.minutes 5) (Sample.login_request (JStr "4821")) w in
  exists r,
    fst (login "s-2" (snd (login "s-1" Sample.issued))) = Fulfilled r
    /\ status r = 200.
Proof.
  intros login. subst login. cbv beta.
  apply (finalLogin_replay Sample.cfg (Sample.byEmail Sample.alice)
           (Sample.byMobile Sample.alice) Sample.signJwt "s-1" "s-2"
           (Sample.T0 + Sample.minutes 5) (Sample.login_request (JStr "4821"))
           Sample.issued
           {| status := 200; message := "Login successful";
              fields :=
                [("session_id", JStr "s-1"); ("user_id", JStr "u-1");
                 ("token", JStr "jwt:u-1"); ("expiry", JNum 1700029100000);
                 ("role", JStr "USER"); ("email", JStr "a@x.com");
                 ("session_status", JBool true)];
              error := None |}).
  - vm_compute. reflexivity.
  - reflexivity.
  - vm_compute. reflexivity.
Defined.

(** ** Passwords on the routes *)

Section PasswordRoutes.

Variable cfg : Config.
Variable smsProvider : string -> string -> string -> completion unit.
Variable emailProvider : string -> string -> string -> completion unit.
Variable isEmail : string -> bool.
Variable findUserByEmailAndRole :
  option string -> option string -> option user.
Variable findUserByMobileAndRole :
  option string -> option string -> option user.
Variable signJwt : string -> option string -> string -> string.
Variable bcrypt_compare : jsval -> string -> completion bool.

Lemma validateCredentialValidation_password req :
  validateCredentialValidation req = Next ->
  truthy (req_password (req_body req)) = true.
Proof.
  unfold validateCredentialValidation. rewrite conclude_Next.
  destruct (truthy (req_password (req_body req))); [reflexivity|].
  destruct (negb (truthy (req_login_type (req_body req)))
            || negb (strict_eq (req_login_type (req_body req))
                       (JStr "email_password")));
    destruct (present (req_email (req_body req)));
    destruct (present (req_role (req_body req)));
    simpl; intros H; discriminate H.
Qed.

Lemma validateCredentialValidation_no_password req :
  truthy (req_password (req_body req)) = false ->
  exists v,
    validateCredentialValidation req = Refused v
    /\ In "password is required" (errors v).
Proof.
  intros Hpw. unfold validateCredentialValidation. rewrite Hpw.
  destruct (negb (truthy (req_login_type (req_body req)))
            || negb (strict_eq (req_login_type (req_body req))
                       (JStr "email_password")));
    destruct (present (req_email (req_body req)));
    destruct (present (req_role (req_body req)));
    simpl; eexists; (split; [reflexivity|]); simpl; auto 6.
Qed.

(** X18. On the route '/validate-credentials' a code is issued only
    against a password: a 200 means that the identity found is active and
    has a stored credential, not empty, which either [bcrypt.compare]
    accepted for the password sent or which is the very text sent. *)
Theorem validated_route_needs_password draw now req w r :
  fst (post_validate_credentials cfg smsProvider emailProvider isEmail
         findUserByEmailAndRole bcrypt_compare draw now req w)
  = Fulfilled (Handled r) ->
  status r = 200 ->
  exists u h,
    findUserByEmailAndRole (req_email (req_body req))
      (req_role (req_body req)) = Some u
    /\ isUserActive (Some u) = true
    /\ password_hash u = Some h /\ h <> ""
    /\ (bcrypt_compare (req_password (req_body req)) h = Fulfilled true
        \/ req_password (req_body req) = JStr h).
Proof.
  unfold post_validate_credentials. intros Hrun Hok.
  destruct (validateCredentialValidation req) as [|v] eqn:Hcheck.
  2: { rewrite (route_refused _ _ _ _ v Hcheck) in Hrun. discriminate Hrun. }
  rewrite route_passed in Hrun by exact Hcheck.
  pose proof (validateCredentialValidation_password req Hcheck) as Htruthy.
  destruct (db_up w) eqn:Hup.
  2: { rewrite validateCredentials_down in Hrun by exact Hup.
       simpl in Hrun. injection Hrun as <-. discriminate Hok. }
  destruct (isUserActive
              (findUserByEmailAndRole (req_email (req_body req))
                 (req_role (req_body req)))) eqn:Hact.
  2: { rewrite validateCredentials_inactive in Hrun by assumption.
       injection Hrun as <-. discriminate Hok. }
  destruct (findUserByEmailAndRole (req_email (req_body req))
              (req_role (req_body req))) as [u|] eqn:Hu; [|discriminate Hact].
  rewrite (validateCredentials_active cfg smsProvider emailProvider isEmail
             findUserByEmailAndRole bcrypt_compare draw now req w u
             Hup Hu Hact) in Hrun.
  destruct (verifyPassword bcrypt_compare (req_password (req_body req))
              (password_hash u)) eqn:Hpw.
  2: { injection Hrun as <-. discriminate Hok. }
  clear Hrun.
  destruct (verifyPassword_shape bcrypt_compare
              (req_password (req_body req)) (password_hash u) Hpw)
    as [(h & Hh & Hne & Hb) | [(h & Hh & Hplain) | [Hnone Hnull]]].
  - exists u, h. repeat split; auto.
  - exists u, h. repeat split; auto.
    intros ->. rewrite Hplain in Htruthy. discriminate Htruthy.
  - rewrite Hnull in Htruthy. discriminate Htruthy.
Qed.

(** X19. The legacy route '/login' has no validator in front of it: for
    an active identity without a stored credential, the step
    'credential_validation' with a null password answers 200 and issues a
    code, where '/validate-credentials' refuses the same request with
    'password is required'. *)
Theorem legacy_login_accepts_null_password sid draw now req w u :
  db_up w = true ->
  req_step (req_body req) = Some "credential_validation" ->
  findUserByEmailAndRole (req_email (req_body req)) (req_role (req_body req))
  = Some u ->
  isUserActive (Some u) = true ->
  password_hash u = None ->
  req_password (req_body req) = JNull ->
  (exists r,
     fst (post_login cfg smsProvider emailProvider isEmail
            findUserByEmailAndRole findUserByMobileAndRole signJwt
            bcrypt_compare sid draw now req w) = Fulfilled (Handled r)
     /\ status r = 200
     /\ In ("otp", JStr (generateOtp draw)) (fields r))
  /\ (exists v,
        post_validate_credentials cfg smsProvider emailProvider isEmail
          findUserByEmailAndRole bcrypt_compare draw now req w
        = (Fulfilled (Checked v), w)
        /\ In "password is required" (errors v)).
Proof.
  intros Hup Hstep Hfound Hactive Hhash Hpw. split.
  - unfold post_login. rewrite route_passed by reflexivity.
    unfold loginController. rewrite Hstep. simpl.
    rewrite (validateCredentials_active cfg smsProvider emailProvider isEmail
               findUserByEmailAndRole bcrypt_compare draw now req w u
               Hup Hfound Hactive).
    rewrite Hhash, Hpw. simpl.
    rewrite createOtpForUser_up by exact Hup. simpl.
    eexists. split; [reflexivity|]. split; [reflexivity|].
    left. reflexivity.
  - destruct (validateCredentialValidation_no_password req) as (v & Hv & Hin).
    { rewrite Hpw. reflexivity. }
    exists v. split; [|exact Hin].
    unfold post_validate_credentials. apply route_refused. exact Hv.
Qed.

End PasswordRoutes.

Lemma validated_route_needs_password_witness :
  exists u h,
    Sample.byEmail Sample.alice (Some "a@x.com") (Some "USER") = Some u
    /\ password_hash u = Some h
    /\ JStr "s3cret" = JStr h.
Proof.
  destruct (validated_route_needs_password Sample.cfg Sample.console
              Sample.console Sample.has_at (Sample.byEmail Sample.alice)
              Sample.bcrypt_compare 3821 Sample.T0
              (Sample.credentials_request "a@x.com" (JStr "s3cret"))
              Sample.empty
              {| status := 200; message := "Valid details. OTP sent";
                 fields := [("otp", JStr "4821");
                            ("expires_at", JNum 1700000600000);
                            ("user_id", JStr "u-1");
                            ("login_type", JStr "email_password")];
                 error := None |})
    as (u & h & Hu & _ & Hh & _ & [Hb | Hplain]).
  - vm_compute. reflexivity.
  - reflexivity.
  - discriminate Hb.
  - exists u, h. repeat split; assumption.
Defined.

Lemma legacy_login_accepts_null_password_witness :
  let req := Cases.request_of
               {| req_step := Some "credential_validation";
                  req_login_type := JStr "email_password";
                  req_email := Some "c@x.com"; req_mobile := None;
                  req_role := Some "USER"; req_password := JNull;
                  req_otp := JUndefined |} in
  exists r,
    fst (post_login Sample.cfg Sample.console Sample.console Sample.has_at
           (Sample.byEmail Cases.carol) (Sample.byMobile Cases.carol)
           Sample.signJwt Sample.bcrypt_compare "s-1" 3821 Sample.T0 req
           Sample.empty) = Fulfilled (Handled r)
    /\ status r = 200.
Proof.
  intros req.
  destruct (legacy_login_accepts_null_password Sample.cfg Sample.console
              Sample.console Sample.has_at (Sample.byEmail Cases.carol)
              (Sample.byMobile Cases.carol) Sample.signJwt
              Sample.bcrypt_compare "s-1" 3821 Sample.T0 req Sample.empty
              Cases.carol) as ((r & Hr & Hs & _) & _); try reflexivity.
  exists r. split; assumption.
Defined.

(** ** Times to live *)

(** The process reads what was written when both zones are at the same
    fixed offset from UTC. *)
Lemma zones_agree_offset cfg (a : Z) :
  (forall t, zone_wall cfg t = t + 1000 * a) ->
  (forall t, process_instant cfg t = t - 1000 * a) ->
  zones_agree cfg.
Proof.
  intros Hzone Hprocess t.
  rewrite Hzone, Hprocess, whole_seconds_shift. lia.
Qed.

Example zones_agree_kolkata : zones_agree Cases.kolkata.
Proof.
  apply (zones_agree_offset Cases.kolkata 19800); intros t; simpl; lia.
Qed.

(** X20. The edges of the two TTLs.  A code TTL configured as 0 stands
    for 30 minutes: the code issued is accepted up to 30 minutes after the
    issuance.  A negative code TTL gives codes that are already expired
    when issued: from the clock reading of the call on, the answer is
    [otp_expired].  A session TTL of 0 or less, when the process reads the
    stored expiry in the zone that wrote it, gives sessions that are
    already expired when created: from the clock reading of the call on,
    the answer is [expired]. *)
Theorem ttl_edges cfg smsProvider emailProvider isEmail draw now u
    explicitMobile sid userId token ip userAgent w t :
  db_up w = true ->
  present (or_else explicitMobile (phone u)) = true ->
  (forall r, r ∈ users_otps w -> otp_created_at r <= now) ->
  user_sessions w !! sid = None ->
  now <= t ->
  let issued := createOtpForUser cfg smsProvider emailProvider isEmail draw
                  now u explicitMobile "LOGIN" w in
  let created := createSessionForUser cfg sid now userId token ip userAgent
                   w in
  let verdict :=
    fst (verifyUserOtp t (user_id u)
           (default "" (or_else explicitMobile (phone u)))
           (JStr (generateOtp draw)) (snd issued)) in
  (otp_ttlMinutes cfg = 0 -> t <= now + 30 * 60000 ->
   verdict
   = Fulfilled (OtpValid (issued_row cfg draw now u explicitMobile "LOGIN" w)))
  /\ (otp_ttlMinutes cfg < 0 ->
      verdict = Fulfilled (OtpInvalid "otp_expired"))
  /\ (session_ttlHours cfg <= 0 -> zones_agree cfg ->
      fst (validateSession t sid (snd created))
      = Fulfilled (SessionInvalid "expired")).
Proof.
  intros Hup Hphone Hold Hfresh Hnow issued created verdict.
  subst issued created verdict.
  destruct (createOtpForUser_latest cfg smsProvider emailProvider isEmail
              draw now u explicitMobile w Hup Hphone Hold)
    as (Hup1 & Hsel & _).
  rewrite verifyUserOtp_up by exact Hup1. cbn [fst]. rewrite Hsel.
  cbn [is_used issued_row otp_expires_at otp_code String_].
  split; [|split].
  - intros Hzero Ht. rewrite Hzero. simpl (0 =? 0).
    cbn iota. apply Z.ltb_ge in Ht. rewrite Ht, String.eqb_refl. reflexivity.
  - intros Hneg.
    destruct (Z.eqb_spec (otp_ttlMinutes cfg) 0) as [Hz|_]; [lia|].
    assert (Hlate : (now + otp_ttlMinutes cfg * 60000 <? t) = true)
      by (apply Z.ltb_lt; lia).
    rewrite Hlate. reflexivity.
  - intros Httl Hsame.
    rewrite createSessionForUser_up by assumption. cbn [snd].
    rewrite validateSession_up by exact Hup. cbn [fst].
    cbn [user_sessions set_sessions]. rewrite lookup_insert_eq.
    cbn [is_active negb expires_at]. unfold session_expiry.
    rewrite (Hsame _).
    pose proof (whole_seconds_bounds (now + session_ttlHours cfg * 3600000)).
    assert (Hexp : (whole_seconds (now + session_ttlHours cfg * 3600000)
                    <=? t) = true) by (apply Z.leb_le; lia).
    rewrite Hexp. reflexivity.
Qed.

(** With the default zone and the process in UTC a session of TTL 0 is
    valid for five and a half hours. *)
Example zero_ttl_by_zone :
  let cfg := {| otp_ttlMinutes := 10; session_ttlHours := 0;
                development := false;
                zone_wall := zone_wall Cases.kolkata_in_utc;
                process_instant := process_instant Cases.kolkata_in_utc |} in
  let made := snd (createSessionForUser cfg "s-1" Sample.T0 "u-1" "jwt:u-1"
                     None None Sample.empty) in
  (exists s, fst (validateSession (Sample.T0 + Sample.hours 5) "s-1" made)
             = Fulfilled (SessionValid s))
  /\ fst (validateSession (Sample.T0 + Sample.hours 5 + Sample.minutes 30)
            "s-1" made)
     = Fulfilled (SessionInvalid "expired").
Proof. vm_compute. split; [eexists|]; reflexivity. Qed.

Lemma ttl_edges_witness :
  let cfg := {| otp_ttlMinutes := 0; session_ttlHours := 0;
                development := false; zone_wall := fun t => t;
                process_instant := fun t => t |} in
  fst (verifyUserOtp (Sample.T0 + Sample.minutes 30) "u-1" "9000000001"
         (JStr "4821")
         (snd (createOtpForUser cfg Sample.console Sample.console
                 Sample.has_at 3821 Sample.T0 Sample.alice None "LOGIN"
                 Sample.empty)))
  = Fulfilled
      (OtpValid (issued_row cfg 3821 Sample.T0 Sample.alice None "LOGIN"
                   Sample.empty))
  /\ fst (validateSession Sample.T0 "s-1"
            (snd (createSessionForUser cfg "s-1" Sample.T0 "u-1" "jwt:u-1"
                    None None Sample.empty)))
     = Fulfilled (SessionInvalid "expired").
Proof.
  intros cfg.
  assert (Hold : forall r, r ∈ users_otps Sample.empty ->
                           otp_created_at r <= Sample.T0).
  { intros r Hin. apply not_elem_of_nil in Hin. destruct Hin. }
  assert (Hfresh : user_sessions Sample.empty !! "s-1" = None)
    by (vm_compute; reflexivity).
  destruct (ttl_edges cfg Sample.console Sample.console Sample.has_at 3821
              Sample.T0 Sample.alice None "s-1" "u-1" "jwt:u-1" None None
              Sample.empty (Sample.T0 + Sample.minutes 30)
              eq_refl eq_refl Hold Hfresh) as (Hzero & _ & _).
  { vm_compute. discriminate. }
  destruct (ttl_edges cfg Sample.console Sample.console Sample.has_at 3821
              Sample.T0 Sample.alice None "s-1" "u-1" "jwt:u-1" None None
              Sample.empty Sample.T0 eq_refl eq_refl Hold Hfresh)
    as (_ & _ & Hsession).
  { lia. }
  split.
  - apply Hzero; [reflexivity | vm_compute; discriminate].
  - apply Hsession; [vm_compute; discriminate | intros t; reflexivity].
Defined.
